(** * qa-generator: the distillation engine, embedded and verified

    A shallow embedding of the parts of the knowledge-distillation core
    that the specification makes promises about:

    - [CostOptimizer]: [backend/distillation/cost_optimizer.py]
      ([BudgetTracker], [IntelligentCostOptimizer]);
    - [Providers]: [distillation/providers.py] ([RateLimiter]);
    - [Core]: [distillation/core.py] (teacher, student, validator and
      orchestrator);
    - [Transfer]: [distillation/transfer.py] ([PatternExtractor]);

    and, beyond those, of the classes around them:

    - [Pricing], [ModelSelection]: [backend/distillation/cost_optimizer.py]
      ([DynamicPricingManager]; model selection and performance tracking
      of [IntelligentCostOptimizer]);
    - [TransferEngine]: [distillation/transfer.py]
      ([KnowledgeTransferEngine], [PerformanceTracker],
      [AdaptiveLearningManager]);
    - [ProviderCosts]: [distillation/providers.py] (what the providers
      report, and [CostOptimizer]);
    - [Integration]: [backend/distillation/integration.py] (the choice of
      an orchestrator by [DistillationManager]).

    Conventions.  Python [float]s are modelled by rationals [Q]: by exact
    arithmetic where a function reports an amount, and with an explicit
    rounding [fl] of every operation where a verdict, a count or a ranking
    depends on it (section "Floating point", module [Rounded],
    [Pricing.get_optimal_timing], [TransferEngine.adapt_patterns]);
    [binary64] is the rounding of CPython.  Equalities between amounts
    are stated with [==].  Python [int]s are [Z].  A Python exception is a constructor of
    [exn]; a call that may raise returns an [outcome].  A [dict] keyed by
    strings whose order is irrelevant is a [gmap string _]; a [dict] whose
    insertion order is observed is an association list.  Wall-clock reads
    ([datetime.now()], [time.time()]) are explicit arguments, and remote
    providers are transition functions on an abstract world. *)

From Stdlib Require Import ZArith QArith Qminmax Qround Qabs Lqa Lia.
From Stdlib Require Import String Ascii List Bool.
From stdpp Require Import base option list strings pretty gmap.
Import ListNotations.

Local Open Scope string_scope.
Local Open Scope list_scope.
Local Open Scope Q_scope.

(** ** Python values shared by all modules *)

Inductive exn : Type :=
| ZeroDivisionError
| ValueError
| IndexError
| ProviderError (msg : string).

Inductive outcome (A : Type) : Type :=
| Returned (a : A)
| Raised (e : exn).
Arguments Returned {A} a.
Arguments Raised {A} e.

Definition is_returned {A} (o : outcome A) : bool :=
  match o with Returned _ => true | Raised _ => false end.

(** Comparisons of floats, as booleans. *)
Definition Qgt_bool (x y : Q) : bool := negb (Qle_bool x y).
Definition Qlt_bool (x y : Q) : bool := negb (Qle_bool y x).
Definition Qge_bool (x y : Q) : bool := Qle_bool y x.

(** Truth value of an [Optional[float]] in a condition: [None] and zero are
    both false. *)
Definition truthy (o : option Q) : bool :=
  match o with
  | Some x => negb (Qeq_bool x 0)
  | None => false
  end.

(** [int(x)] on a float: truncation toward zero. *)
Definition Qtruncate (x : Q) : Z :=
  if Qle_bool 0 x then Qfloor x else Qceiling x.

(** A NumPy [float64] result: division by zero does not raise there, it
    yields an infinity or a NaN (signed zeros are not modelled). *)
Inductive npfloat : Type :=
| Finite (q : Q)
| PosInf
| NegInf
| NaN.

(** [x / y] with [x] a [numpy.float64]. *)
Definition np_div (x y : Q) : npfloat :=
  if Qeq_bool y 0 then
    if Qlt_bool 0 x then PosInf
    else if Qlt_bool x 0 then NegInf
    else NaN
  else Finite (x / y).

(** [x * y] with [y] finite. *)
Definition np_mul (x : npfloat) (y : Q) : npfloat :=
  match x with
  | Finite q => Finite (q * y)
  | PosInf =>
      if Qlt_bool 0 y then PosInf else if Qlt_bool y 0 then NegInf else NaN
  | NegInf =>
      if Qlt_bool 0 y then NegInf else if Qlt_bool y 0 then PosInf else NaN
  | NaN => NaN
  end.

(** [x > y]; every comparison with a NaN is false. *)
Definition np_gt (x y : npfloat) : bool :=
  match x, y with
  | NaN, _ | _, NaN => false
  | Finite a, Finite b => Qgt_bool a b
  | PosInf, PosInf => false
  | PosInf, _ => true
  | _, PosInf => false
  | NegInf, _ => false
  | Finite _, NegInf => true
  end.

(** [numpy.arange(start, stop, step)]: [ceil((stop - start) / step)]
    values [start + i * step]; [stop] itself is never produced. *)
Definition np_arange (start stop step : Q) : list Q :=
  map (fun i => start + inject_Z (Z.of_nat i) * step)
    (seq 0 (Z.to_nat (Qceiling ((stop - start) / step)))).

(** [range(start, stop, step)] for a non-zero step, and the built-in, which
    raises [ValueError] on a zero step. *)
Definition range_list (start stop step : Z) : list Z :=
  let n :=
    if (0 <? step)%Z then ((stop - start + step - 1) / step)%Z
    else ((start - stop - step - 1) / (- step))%Z in
  map (fun i => (start + Z.of_nat i * step)%Z) (seq 0 (Z.to_nat n)).

Definition py_range (start stop step : Z) : outcome (list Z) :=
  if (step =? 0)%Z then Raised ValueError
  else Returned (range_list start stop step).

(** [sum(xs)] on floats. *)
Definition Qsum (xs : list Q) : Q := fold_right Qplus 0 xs.

(** ** Python string methods, on ASCII text *)

Definition nl : string := String (ascii_of_nat 10) EmptyString.
Definition dquote : string := String (ascii_of_nat 34) EmptyString.

(** [c.isspace()] *)
Definition is_space (c : ascii) : bool :=
  let n := nat_of_ascii c in
  ((9 <=? n) && (n <=? 13) || (28 <=? n) && (n <=? 32))%nat.

(** [c.isdigit()] *)
Definition is_digit (c : ascii) : bool :=
  let n := nat_of_ascii c in ((48 <=? n) && (n <=? 57))%nat.

Definition is_upper (c : ascii) : bool :=
  let n := nat_of_ascii c in ((65 <=? n) && (n <=? 90))%nat.

Fixpoint lstrip (s : string) : string :=
  match s with
  | String c rest => if is_space c then lstrip rest else s
  | EmptyString => EmptyString
  end.

Fixpoint string_rev_onto (s acc : string) : string :=
  match s with
  | String c rest => string_rev_onto rest (String c acc)
  | EmptyString => acc
  end.

Definition string_rev (s : string) : string := string_rev_onto s EmptyString.

(** [s.strip()] *)
Definition strip (s : string) : string :=
  string_rev (lstrip (string_rev (lstrip s))).

(** [s.replace(c, '')] for a one-character [c]. *)
Fixpoint remove_char (c : ascii) (s : string) : string :=
  match s with
  | String d rest =>
      if Ascii.eqb c d then remove_char c rest else String d (remove_char c rest)
  | EmptyString => EmptyString
  end.

Fixpoint all_chars (p : ascii -> bool) (s : string) : bool :=
  match s with
  | String c rest => p c && all_chars p rest
  | EmptyString => true
  end.

(** [s.isdigit()]: at least one character, and all of them digits. *)
Definition isdigit (s : string) : bool :=
  match s with
  | EmptyString => false
  | _ => all_chars is_digit s
  end.

(** [s.count(c)] for a one-character [c]. *)
Fixpoint count_char (c : ascii) (s : string) : Z :=
  match s with
  | String d rest => ((if Ascii.eqb c d then 1 else 0) + count_char c rest)%Z
  | EmptyString => 0%Z
  end.

(** [c in s] for a one-character [c]. *)
Definition contains_char (c : ascii) (s : string) : bool :=
  (0 <? count_char c s)%Z.

(** The decimal value of a run of digits, continuing from [acc]. *)
Fixpoint digits_value (s : string) (acc : Z) : Z :=
  match s with
  | String c rest =>
      digits_value rest (10 * acc + (Z.of_nat (nat_of_ascii c) - 48))%Z
  | EmptyString => acc
  end.

(** The text before and after the first occurrence of [c]. *)
Fixpoint split_first (c : ascii) (s : string) : string * option string :=
  match s with
  | String d rest =>
      if Ascii.eqb c d then (EmptyString, Some rest)
      else let '(a, b) := split_first c rest in (String d a, b)
  | EmptyString => (EmptyString, None)
  end.

(** [float(s)] for a text made of digits and dots with at least one digit:
    one dot at most is a number, more raise [ValueError]. *)
Definition py_float (s : string) : outcome Q :=
  match split_first "." s with
  | (whole, None) => Returned (inject_Z (digits_value whole 0))
  | (whole, Some frac) =>
      if contains_char "." frac then Raised ValueError
      else
        Returned
          (inject_Z (digits_value (whole +:+ frac) 0)
           / inject_Z (10 ^ Z.of_nat (String.length frac)))
  end.

(** [s.split(c)] for a one-character separator. *)
Fixpoint split_on (c : ascii) (s : string) : list string :=
  match s with
  | String d rest =>
      match split_on c rest with
      | cur :: more =>
          if Ascii.eqb c d then EmptyString :: cur :: more
          else String d cur :: more
      | [] => [EmptyString]
      end
  | EmptyString => [EmptyString]
  end.

(** [sep.join(parts)] *)
Fixpoint join (sep : string) (parts : list string) : string :=
  match parts with
  | [] => EmptyString
  | [x] => x
  | x :: rest => x +:+ sep +:+ join sep rest
  end.

(** [s[:n]] *)
Definition take_prefix (n : nat) (s : string) : string := substring 0 n s.

(** [s.lower()] *)
Definition lower_char (c : ascii) : ascii :=
  if is_upper c then ascii_of_nat (nat_of_ascii c + 32) else c.

Fixpoint lower (s : string) : string :=
  match s with
  | String c rest => String (lower_char c) (lower rest)
  | EmptyString => EmptyString
  end.

(** [s.startswith(p)] and [s.endswith(p)] *)
Definition startswith (p s : string) : bool := String.prefix p s.
Definition endswith (p s : string) : bool :=
  String.prefix (string_rev p) (string_rev s).

(** [s.count(sub)] for a non-empty [sub]: occurrences that do not overlap,
    found from the left.  [skip] characters are still covered by the
    occurrence found last. *)
Fixpoint count_sub_from (sub s : string) (skip : nat) : Z :=
  match s with
  | EmptyString => 0%Z
  | String _ rest =>
      match skip with
      | S k => count_sub_from sub rest k
      | O =>
          if String.prefix sub s
          then (1 + count_sub_from sub rest (String.length sub - 1))%Z
          else count_sub_from sub rest 0
      end
  end.

Definition count_sub (sub s : string) : Z := count_sub_from sub s 0.

(** [s.split()]: the maximal runs of characters that are not blank. *)
Fixpoint split_blank_from (s cur : string) : list string :=
  match s with
  | EmptyString =>
      match cur with EmptyString => [] | _ => [cur] end
  | String c rest =>
      if is_space c then
        match cur with
        | EmptyString => split_blank_from rest EmptyString
        | _ => cur :: split_blank_from rest EmptyString
        end
      else split_blank_from rest (cur +:+ String c EmptyString)
  end.

Definition split_blank (s : string) : list string :=
  split_blank_from s EmptyString.

(** [sorted(xs, key=f)] and [sorted(xs, key=f, reverse=True)]: stable, so
    elements with equal keys keep their order in both. *)
Fixpoint insert_by {A} (before : A -> A -> bool) (x : A) (sorted : list A)
  : list A :=
  match sorted with
  | [] => [x]
  | y :: rest =>
      if before y x then y :: insert_by before x rest else x :: y :: rest
  end.

Definition sorted_by {A} (before : A -> A -> bool) (xs : list A) : list A :=
  fold_right (insert_by before) [] xs.

(** [sorted(strings)] *)
Definition sorted_strings (xs : list string) : list string :=
  sorted_by (fun y x => String.ltb y x) xs.

(** Appending to [groups[key]] in a [defaultdict(list)]; the keys stay in
    the order of their first use. *)
Fixpoint group_append {A} (key : string) (x : A)
    (groups : list (string * list A)) : list (string * list A) :=
  match groups with
  | [] => [(key, [x])]
  | (k, g) :: rest =>
      if String.eqb k key then (k, g ++ [x]) :: rest
      else (k, g) :: group_append key x rest
  end.

(** [datetime], with the two [strftime] formats the budget tracker uses. *)
Record datetime : Type := {
  year : N;
  month : N;
  day : N;
  hour : N
}.

Definition pad2 (n : N) : string :=
  if (n <? 10)%N then "0" +:+ pretty n else pretty n.

(** [t.strftime('%Y-%m-%d')] *)
Definition strftime_day (t : datetime) : string :=
  pretty (year t) +:+ "-" +:+ pad2 (month t) +:+ "-" +:+ pad2 (day t).

(** [t.strftime('%Y-%m-%d %H')] *)
Definition strftime_hour (t : datetime) : string :=
  strftime_day t +:+ " " +:+ pad2 (hour t).

(** [d[k]] on a [defaultdict(float)]: a missing key is created with the
    default [0.0] before it is read. *)
Definition defaultdict_getitem (k : string) (d : gmap string Q)
  : Q * gmap string Q :=
  match d !! k with
  | Some v => (v, d)
  | None => (0, <[k := 0]> d)
  end.

(** [d.get(k, 0)]: a read that never inserts. *)
Definition dict_get0 (k : string) (d : gmap string Q) : Q :=
  default 0 (d !! k).

(** * cost_optimizer.py *)
Module CostOptimizer.

Record CostBudget : Type := {
  total_budget : Q;
  daily_budget : option Q;
  hourly_budget : option Q;
  cost_per_item_limit : option Q;
  quality_cost_ratio_min : Q
}.

(** ** BudgetTracker *)

Record BudgetTracker : Type := {
  daily_spending : gmap string Q;
  hourly_spending : gmap string Q;
  total_spending : Q;
  budget_alerts : list (list (string * string))
}.

(** [BudgetTracker.__init__] *)
Definition init : BudgetTracker :=
  {| daily_spending := ∅; hourly_spending := ∅;
     total_spending := 0; budget_alerts := [] |}.

(** [track_spending(amount, timestamp)]; the caller's clock stands for the
    [datetime.now()] default. *)
Definition track_spending (amount : Q) (timestamp : datetime)
    (self : BudgetTracker) : BudgetTracker :=
  let total := total_spending self + amount in
  let date_key := strftime_day timestamp in
  let '(d, daily) := defaultdict_getitem date_key (daily_spending self) in
  let daily := <[date_key := d + amount]> daily in
  let hour_key := strftime_hour timestamp in
  let '(h, hourly) := defaultdict_getitem hour_key (hourly_spending self) in
  let hourly := <[hour_key := h + amount]> hourly in
  {| daily_spending := daily; hourly_spending := hourly;
     total_spending := total; budget_alerts := budget_alerts self |}.

Inductive issue_type : Type :=
| total_budget_exceeded
| daily_budget_exceeded
| hourly_budget_exceeded.

Record issue : Type := {
  type : issue_type;
  current : Q;
  limit : Q;
  additional : Q
}.

Record check_result : Type := {
  within_budget : bool;
  issues : list issue;
  remaining_total : Q;
  utilization : Q
}.

(** [check_budget_constraints(budget, additional_cost)], run at clock
    reading [now].  The tracker is returned because subscripting the two
    [defaultdict]s can create entries. *)
Definition check_budget_constraints (now : datetime) (budget : CostBudget)
    (additional_cost : Q) (self : BudgetTracker)
  : outcome check_result * BudgetTracker :=
  let issues0 :=
    if Qgt_bool (total_spending self + additional_cost) (total_budget budget)
    then [ {| type := total_budget_exceeded; current := total_spending self;
              limit := total_budget budget; additional := additional_cost |} ]
    else [] in
  let '(issues1, daily) :=
    match daily_budget budget with
    | Some lim =>
        if truthy (Some lim) then
          let today := strftime_day now in
          let '(daily_spent, daily) :=
            defaultdict_getitem today (daily_spending self) in
          (if Qgt_bool (daily_spent + additional_cost) lim
           then issues0 ++ [ {| type := daily_budget_exceeded;
                                current := daily_spent; limit := lim;
                                additional := additional_cost |} ]
           else issues0, daily)
        else (issues0, daily_spending self)
    | None => (issues0, daily_spending self)
    end in
  let '(issues2, hourly) :=
    match hourly_budget budget with
    | Some lim =>
        if truthy (Some lim) then
          let current_hour := strftime_hour now in
          let '(hourly_spent, hourly) :=
            defaultdict_getitem current_hour (hourly_spending self) in
          (if Qgt_bool (hourly_spent + additional_cost) lim
           then issues1 ++ [ {| type := hourly_budget_exceeded;
                                current := hourly_spent; limit := lim;
                                additional := additional_cost |} ]
           else issues1, hourly)
        else (issues1, hourly_spending self)
    | None => (issues1, hourly_spending self)
    end in
  let self' :=
    {| daily_spending := daily; hourly_spending := hourly;
       total_spending := total_spending self;
       budget_alerts := budget_alerts self |} in
  if Qeq_bool (total_budget budget) 0 then (Raised ZeroDivisionError, self')
  else
    (Returned
       {| within_budget := Nat.eqb (length issues2) 0;
          issues := issues2;
          remaining_total := total_budget budget - total_spending self;
          utilization := total_spending self / total_budget budget |},
     self').


(** ** IntelligentCostOptimizer *)

Record ModelCostProfile : Type := {
  provider : string;
  model_name : string;
  input_cost_per_token : Q;
  output_cost_per_token : Q;
  quality_rating : Q;
  speed_rating : Q;
  reliability_rating : Q
}.

Record GenerationCostEstimate : Type := {
  estimated_input_tokens : Z;
  estimated_output_tokens : Z;
  estimated_cost : Q;
  estimated_time : Q;
  quality_expectation : Q;
  confidence : Q
}.

(** The request is a Python [dict]; every field is read with
    [request.get(key, default)], so every field may be absent. *)
Record request : Type := {
  keywords : option (list string);
  data_type : option string;
  quantity : option Z;
  quality_threshold : option Q;
  context : option string
}.

(** [{**request, 'quantity': q}] *)
Definition with_quantity (req : request) (q : Z) : request :=
  {| keywords := keywords req; data_type := data_type req;
     quantity := Some q; quality_threshold := quality_threshold req;
     context := context req |}.

(** [self.model_profiles]: a [dict] in insertion order. *)
Definition profiles : Type := list (string * ModelCostProfile).

Fixpoint lookup_profile (key : string) (ps : profiles)
  : option ModelCostProfile :=
  match ps with
  | [] => None
  | (k, p) :: rest => if String.eqb k key then Some p else lookup_profile key rest
  end.

(** [register_model_profile]: assignment into the [dict] keeps the position
    of an existing key and appends a new one. *)
Fixpoint dict_set (key : string) (p : ModelCostProfile) (ps : profiles)
  : profiles :=
  match ps with
  | [] => [(key, p)]
  | (k, p') :: rest =>
      if String.eqb k key then (k, p) :: rest else (k, p') :: dict_set key p rest
  end.

Definition register_model_profile (profile : ModelCostProfile)
    (ps : profiles) : profiles :=
  dict_set (provider profile +:+ "_" +:+ model_name profile) profile ps.

(** [_estimate_input_tokens] *)
Definition _estimate_input_tokens (req : request) : Z :=
  let base_prompt_tokens := 100%Z in
  let keyword_tokens := (Z.of_nat (length (default [] (keywords req))) * 5)%Z in
  let context_tokens :=
    (Z.of_nat (String.length (default "" (context req))) / 4)%Z in
  (base_prompt_tokens + keyword_tokens + context_tokens)%Z.

(** The table [tokens_per_item] with its [.get(data_type, 75)]. *)
Definition tokens_per_item (dt : string) : Z :=
  if String.eqb dt "qa" then 50
  else if String.eqb dt "classification" then 20
  else if String.eqb dt "generation" then 100
  else if String.eqb dt "code" then 150
  else if String.eqb dt "translation" then 80
  else 75.

(** [_estimate_output_tokens] *)
Definition _estimate_output_tokens (req : request) : Z :=
  let dt := default "qa" (data_type req) in
  let q := default 1%Z (quantity req) in
  (tokens_per_item dt * q)%Z.

(** [estimate_generation_cost]: [ValueError] on an unknown key,
    [ZeroDivisionError] when the profile's speed rating is zero. *)
Definition estimate_generation_cost (ps : profiles) (req : request)
    (model_key : string) : outcome GenerationCostEstimate :=
  match lookup_profile model_key ps with
  | None => Raised ValueError
  | Some profile =>
      let input_tokens := _estimate_input_tokens req in
      let output_tokens := _estimate_output_tokens req in
      let input_cost :=
        (inject_Z input_tokens / 1000) * input_cost_per_token profile in
      let output_cost :=
        (inject_Z output_tokens / 1000) * output_cost_per_token profile in
      let total_cost := input_cost + output_cost in
      if Qeq_bool (speed_rating profile) 0 then Raised ZeroDivisionError
      else
        let estimated_time :=
          inject_Z (default 1%Z (quantity req)) / speed_rating profile in
        Returned
          {| estimated_input_tokens := input_tokens;
             estimated_output_tokens := output_tokens;
             estimated_cost := total_cost;
             estimated_time := estimated_time;
             quality_expectation := quality_rating profile;
             confidence := reliability_rating profile |}
  end.

(** [max(keys, key=f)] and [min(keys, key=f)]: the first key that attains
    the extremum. *)
Fixpoint max_by (f : string -> Q) (best : string) (ks : list string) : string :=
  match ks with
  | [] => best
  | k :: rest => max_by f (if Qgt_bool (f k) (f best) then k else best) rest
  end.

Fixpoint min_by (f : string -> Q) (best : string) (ks : list string) : string :=
  match ks with
  | [] => best
  | k :: rest => min_by f (if Qlt_bool (f k) (f best) then k else best) rest
  end.

(** [self.model_profiles[k].field], for a key taken from the [dict] itself. *)
Definition profile_field (f : ModelCostProfile -> Q) (ps : profiles)
    (k : string) : Q :=
  match lookup_profile k ps with
  | Some p => f p
  | None => 0
  end.

(** [_select_best_teacher_model]; [list(keys)[0]] raises [IndexError] on an
    empty registry. *)
Definition _select_best_teacher_model (ps : profiles) : outcome string :=
  let teacher_models :=
    List.filter (fun k => Qgt_bool (profile_field quality_rating ps k) (8 # 10))
      (map fst ps) in
  match teacher_models with
  | [] =>
      match map fst ps with
      | [] => Raised IndexError
      | k :: _ => Returned k
      end
  | k :: rest => Returned (max_by (profile_field quality_rating ps) k rest)
  end.

(** [_select_best_student_model] *)
Definition _select_best_student_model (ps : profiles) : outcome string :=
  let student_models :=
    List.filter
      (fun k => Qlt_bool (profile_field input_cost_per_token ps k) (1 # 100))
      (map fst ps) in
  match student_models with
  | [] =>
      match map fst ps with
      | [] => Raised IndexError
      | k :: _ => Returned k
      end
  | k :: rest => Returned (min_by (profile_field input_cost_per_token ps) k rest)
  end.

Record allocation : Type := {
  teacher_model : string;
  student_model : string;
  teacher_quantity : Z;
  student_quantity : Z;
  teacher_cost : Q;
  student_cost : Q;
  total_cost : Q;
  expected_quality : Q;
  teacher_ratio : Q;
  efficiency_score : npfloat
}.

(** What [optimize_teacher_student_allocation] returns: the best
    allocation, or the [dict] [{"error": ...}]. *)
Inductive allocation_result : Type :=
| Allocated (a : allocation)
| AllocationError (error : string).

(** The candidate ratios of the scan. *)
Definition teacher_ratios : list Q := np_arange (5 # 100) (5 # 10) (5 # 100).

(** One iteration of the scan, for one [teacher_ratio]: [None] stands for
    [continue], otherwise the candidate allocation with its score. *)
Definition evaluate_ratio (ps : profiles) (req : request) (budget : CostBudget)
    (teacher_ratio : Q) : outcome (option (allocation * npfloat)) :=
  let total_quantity := default 100%Z (quantity req) in
  let quality_threshold := default (8 # 10) (quality_threshold req) in
  let student_ratio := 1 - teacher_ratio in
  let teacher_quantity := Qtruncate (inject_Z total_quantity * teacher_ratio) in
  let student_quantity := (total_quantity - teacher_quantity)%Z in
  match _select_best_teacher_model ps with
  | Raised e => Raised e
  | Returned teacher_model =>
  match _select_best_student_model ps with
  | Raised e => Raised e
  | Returned student_model =>
  let teacher_request := with_quantity req teacher_quantity in
  let student_request := with_quantity req student_quantity in
  match estimate_generation_cost ps teacher_request teacher_model with
  | Raised e => Raised e
  | Returned teacher_estimate =>
  match estimate_generation_cost ps student_request student_model with
  | Raised e => Raised e
  | Returned student_estimate =>
  let total_cost :=
    estimated_cost teacher_estimate + estimated_cost student_estimate in
  if Qgt_bool total_cost (total_budget budget) then Returned None
  else
    let expected_quality :=
      quality_expectation teacher_estimate * teacher_ratio
      + quality_expectation student_estimate * student_ratio in
    if Qlt_bool expected_quality quality_threshold then Returned None
    else
      let efficiency := np_div expected_quality total_cost in
      let score := np_mul efficiency (1 - Qabs (teacher_ratio - (2 # 10))) in
      Returned (Some
        ({| teacher_model := teacher_model;
            student_model := student_model;
            teacher_quantity := teacher_quantity;
            student_quantity := student_quantity;
            teacher_cost := estimated_cost teacher_estimate;
            student_cost := estimated_cost student_estimate;
            total_cost := total_cost;
            expected_quality := expected_quality;
            teacher_ratio := teacher_ratio;
            efficiency_score := efficiency |}, score))
  end end end end.

(** The [for] loop over the candidate ratios, carrying [best_allocation]
    and [best_score]. *)
Fixpoint scan_ratios (ps : profiles) (req : request) (budget : CostBudget)
    (ratios : list Q) (best_allocation : option allocation)
    (best_score : npfloat) : outcome (option allocation) :=
  match ratios with
  | [] => Returned best_allocation
  | r :: rest =>
      match evaluate_ratio ps req budget r with
      | Raised e => Raised e
      | Returned None => scan_ratios ps req budget rest best_allocation best_score
      | Returned (Some (a, score)) =>
          if np_gt score best_score
          then scan_ratios ps req budget rest (Some a) score
          else scan_ratios ps req budget rest best_allocation best_score
      end
  end.

(** [optimize_teacher_student_allocation] *)
Definition optimize_teacher_student_allocation (ps : profiles) (req : request)
    (budget : CostBudget) : outcome allocation_result :=
  match scan_ratios ps req budget teacher_ratios None (Finite (-1)) with
  | Raised e => Raised e
  | Returned (Some a) => Returned (Allocated a)
  | Returned None => Returned (AllocationError "No viable allocation found")
  end.

End CostOptimizer.

(** * providers.py *)
Module Providers.

(** ** RateLimiter *)

Record RateLimiter : Type := {
  requests_per_minute : Z;
  request_times : list Q
}.

(** [RateLimiter.__init__] *)
Definition init (requests_per_minute : Z) : RateLimiter :=
  {| requests_per_minute := requests_per_minute; request_times := [] |}.

(** The list comprehension [[t for t in request_times if t > cutoff]]. *)
Definition prune (cutoff : Q) (times : list Q) : list Q :=
  List.filter (fun t => Qgt_bool t cutoff) times.

(** What one call did: whether it slept and for how long, the clock when
    it returned, and the limiter it left behind. *)
Record waited : Type := {
  slept : option Q;
  clock_after : Q;
  limiter_after : RateLimiter
}.

(** [wait_if_needed], entered when [time.time()] reads [clock].
    [asyncio.sleep(wait_time)] hands control back [lag] seconds late
    ([lag >= 0] for a real event loop), so the second [time.time()] reads
    [clock + wait_time + lag].  Subscripting an empty list raises
    [IndexError]. *)
Definition wait_if_needed (lag : Q) (clock : Q) (self : RateLimiter)
  : outcome waited :=
  let now := clock in
  let cutoff := now - 60 in
  let times := prune cutoff (request_times self) in
  if (requests_per_minute self <=? Z.of_nat (length times))%Z then
    match times with
    | [] => Raised IndexError
    | oldest :: _ =>
        let wait_time := 60 - (now - oldest) in
        if Qgt_bool wait_time 0 then
          let now := clock + wait_time + lag in
          let cutoff := now - 60 in
          let times := prune cutoff times in
          Returned
            {| slept := Some wait_time; clock_after := now;
               limiter_after :=
                 {| requests_per_minute := requests_per_minute self;
                    request_times := times ++ [now] |} |}
        else
          Returned
            {| slept := None; clock_after := now;
               limiter_after :=
                 {| requests_per_minute := requests_per_minute self;
                    request_times := times ++ [now] |} |}
    end
  else
    Returned
      {| slept := None; clock_after := now;
         limiter_after :=
           {| requests_per_minute := requests_per_minute self;
              request_times := times ++ [now] |} |}.

(** A single caller issuing one call after another: before each call the
    caller spends [gap] seconds, and [lag] is the lateness of that call's
    sleep, if it sleeps.  The result lists, call by call, whether the call
    was suspended. *)
Fixpoint issue_calls (calls : list (Q * Q)) (clock : Q) (self : RateLimiter)
  : outcome (list (option Q) * Q * RateLimiter) :=
  match calls with
  | [] => Returned ([], clock, self)
  | (gap, lag) :: rest =>
      match wait_if_needed lag (clock + gap) self with
      | Raised e => Raised e
      | Returned w =>
          match issue_calls rest (clock_after w) (limiter_after w) with
          | Raised e => Raised e
          | Returned (log, clock', self') => Returned (slept w :: log, clock', self')
          end
      end
  end.

End Providers.

(** * core.py *)
Module Core.

Inductive DistillationStrategy : Type :=
| RESPONSE_BASED
| FEATURE_BASED
| HYBRID.

Record GenerationRequest : Type := {
  keywords : list string;
  data_type : string;
  quantity : Z;
  quality_threshold : Q;
  strategy : DistillationStrategy
}.

(** [TeacherExample.context]: a [dict] read with [.get]. *)
Record example_context : Type := {
  ctx_keywords : option (list string);
  ctx_iteration : option Z
}.

(** Timestamps are seconds on the world's clock. *)
Record TeacherExample : Type := {
  input : string;
  output : string;
  confidence : Q;
  tokens_used : Z;
  model : string;
  timestamp : Q;
  context : example_context
}.

(** The [dict] a provider's [generate] returns; the pipeline reads it with
    [.get(key, default)] only. *)
Record provider_response : Type := {
  r_content : option string;
  r_confidence : option Q;
  r_tokens_used : option Z
}.

(** One entry of [GenerationResponse.data]. *)
Record data_entry : Type := {
  e_content : string;
  source : string;
  quality : Q
}.

Record response_metadata : Type := {
  teacher_examples : Z;
  student_generated : Z;
  learning_confidence : Q;
  validation_sample_size : Z;
  meets_quality_threshold : bool
}.

Record GenerationResponse : Type := {
  id : string;
  data : list data_entry;
  quality_score : Q;
  cost : Q;
  model_used : string;
  generation_time : Q;
  metadata : response_metadata
}.

(** An item of [generate_bulk_data]'s result. *)
Record student_item : Type := {
  content : string;
  quality_estimate : Q;
  s_model : string
}.

(** The [dict] [_validate_single] returns. *)
Record validation : Type := {
  v_quality_score : Q;
  validation_content : option string;
  error : option string
}.

(** The [dict] [validate_batch] returns. *)
Record batch_validation : Type := {
  average_quality : Q;
  sample_size : Z;
  validations : list validation;
  meets_threshold : bool
}.

(** The [dict] [learn_from_teacher] returns. *)
Record learning_result : Type := {
  patterns_learned : Z;
  examples_processed : Z;
  l_confidence : Q
}.

(** [StudentModel.learned_patterns]: a [dict] of [dict]s, in insertion
    order because it is printed by [json.dumps]. *)
Definition pattern_map : Type := list (string * list (string * string)).

Fixpoint dict_set (k : string) (v : list (string * string)) (d : pattern_map)
  : pattern_map :=
  match d with
  | [] => [(k, v)]
  | (k', v') :: rest =>
      if String.eqb k' k then (k', v) :: rest else (k', v') :: dict_set k v rest
  end.

(** [d.update(other)] *)
Definition dict_update (d other : pattern_map) : pattern_map :=
  fold_left (fun acc kv => dict_set (fst kv) (snd kv) acc) other d.

(** [json.dumps(d, indent=2)] for such a [dict] (no character of the keys
    and values at hand needs escaping). *)
Definition json_string (s : string) : string := dquote +:+ s +:+ dquote.

Definition json_inner (d : list (string * string)) : string :=
  match d with
  | [] => "{}"
  | _ =>
      "{" +:+ nl
      +:+ join ("," +:+ nl)
            (map (fun kv => "    " +:+ json_string (fst kv) +:+ ": "
                            +:+ json_string (snd kv)) d)
      +:+ nl +:+ "  }"
  end.

Definition json_dumps (d : pattern_map) : string :=
  match d with
  | [] => "{}"
  | _ =>
      "{" +:+ nl
      +:+ join ("," +:+ nl)
            (map (fun kv => "  " +:+ json_string (fst kv) +:+ ": "
                            +:+ json_inner (snd kv)) d)
      +:+ nl +:+ "}"
  end.

(** The indentation of the prompt templates in the source. *)
Definition ind : string := "        ".

Section Pipeline.

(** Everything outside the process: the remote models, the clock and the
    random source.  A provider call is a transition of the world that
    returns the response [dict] or raises. *)
Context {W : Type}.

(** [LLMProvider]: [generate(prompt, temperature=..., max_tokens=...)];
    a concrete provider waits for its rate limiter inside that call. *)
Record LLMProvider : Type := {
  generate : string -> Q -> Z -> W -> outcome provider_response * W;
  get_cost_per_token : Q * Q
}.

Record TeacherModel : Type := {
  t_provider : LLMProvider;
  t_model_name : string;
  examples_cache : list TeacherExample
}.

Record StudentModel : Type := {
  s_provider : LLMProvider;
  s_model_name : string;
  learned_patterns : pattern_map;
  performance_metrics : list (string * Q)
}.

(** [datetime.now()] in seconds, and [str(uuid.uuid4())]. *)
Variable clock : W -> Q.
Variable uuid4 : W -> string * W.

(** [TeacherModel._create_seed_prompt] *)
Definition _create_seed_prompt (request : GenerationRequest) (iteration : Z)
  : string :=
  nl +:+ ind +:+ "Generate high-quality " +:+ data_type request
  +:+ " data based on keywords: " +:+ join ", " (keywords request) +:+ nl
  +:+ ind +:+ nl
  +:+ ind +:+ "Requirements:" +:+ nl
  +:+ ind +:+ "- High diversity and creativity" +:+ nl
  +:+ ind +:+ "- Professional quality" +:+ nl
  +:+ ind +:+ "- Variation #" +:+ pretty (iteration + 1)%Z +:+ nl
  +:+ ind +:+ "- Clear structure and formatting" +:+ nl
  +:+ ind +:+ nl
  +:+ ind +:+ "Generate:" +:+ nl
  +:+ ind.

(** The body of the [for i in range(seed_quantity)] loop of
    [generate_seed_data]: a call that raises is logged and skipped. *)
Fixpoint seed_loop (request : GenerationRequest) (iterations : list Z)
    (examples : list TeacherExample) (self : TeacherModel) (w : W)
  : list TeacherExample * TeacherModel * W :=
  match iterations with
  | [] => (examples, self, w)
  | i :: rest =>
      let prompt := _create_seed_prompt request i in
      match generate (t_provider self) prompt (8 # 10) 1000 w with
      | (Returned response, w) =>
          let example :=
            {| input := prompt;
               output := default "" (r_content response);
               confidence := default 0 (r_confidence response);
               tokens_used := default 0%Z (r_tokens_used response);
               model := t_model_name self;
               timestamp := clock w;
               context := {| ctx_keywords := Some (keywords request);
                             ctx_iteration := Some i |} |} in
          seed_loop request rest (examples ++ [example])
            {| t_provider := t_provider self;
               t_model_name := t_model_name self;
               examples_cache := examples_cache self ++ [example] |} w
      | (Raised _, w) => seed_loop request rest examples self w
      end
  end.

(** [TeacherModel.generate_seed_data] *)
Definition generate_seed_data (request : GenerationRequest)
    (self : TeacherModel) (w : W) : list TeacherExample * TeacherModel * W :=
  let seed_quantity := Z.min (quantity request / 10) 50 in
  seed_loop request (range_list 0 seed_quantity 1) [] self w.

(** The four placeholder analyses of [StudentModel]. *)
Definition _extract_structures (examples : list TeacherExample)
  : list (string * string) := [("placeholder", "structure_analysis")].
Definition _extract_styles (examples : list TeacherExample)
  : list (string * string) := [("placeholder", "style_analysis")].
Definition _extract_quality_indicators (examples : list TeacherExample)
  : list (string * string) := [("placeholder", "quality_analysis")].
Definition _extract_keyword_mappings (examples : list TeacherExample)
  : list (string * string) := [("placeholder", "keyword_analysis")].

Definition _calculate_learning_confidence (self : StudentModel) : Q := 75 # 100.

(** [StudentModel.learn_from_teacher] *)
Definition learn_from_teacher (teacher_examples : list TeacherExample)
    (self : StudentModel) : learning_result * StudentModel :=
  let patterns : pattern_map :=
    [ ("common_structures", _extract_structures teacher_examples);
      ("response_styles", _extract_styles teacher_examples);
      ("quality_indicators", _extract_quality_indicators teacher_examples);
      ("keyword_mappings", _extract_keyword_mappings teacher_examples) ] in
  let self' :=
    {| s_provider := s_provider self; s_model_name := s_model_name self;
       learned_patterns := dict_update (learned_patterns self) patterns;
       performance_metrics := performance_metrics self |} in
  ({| patterns_learned := Z.of_nat (length patterns);
      examples_processed := Z.of_nat (length teacher_examples);
      l_confidence := _calculate_learning_confidence self' |}, self').

(** [StudentModel._create_student_prompt] *)
Definition _create_student_prompt (self : StudentModel)
    (request : GenerationRequest) (iteration : Z) : string :=
  let patterns := learned_patterns self in
  nl +:+ ind +:+ "Based on learned patterns, generate " +:+ data_type request
  +:+ " data for: " +:+ join ", " (keywords request) +:+ nl
  +:+ ind +:+ nl
  +:+ ind +:+ "Pattern guidance: "
  +:+ (match patterns with
       | [] => "Using basic patterns"
       | _ => json_dumps patterns
       end) +:+ nl
  +:+ ind +:+ "Variation: #" +:+ pretty (iteration + 1)%Z +:+ nl
  +:+ ind +:+ nl
  +:+ ind +:+ "Generate:" +:+ nl
  +:+ ind.

(** [StudentModel._estimate_quality] *)
Definition _estimate_quality (response : provider_response) : Q :=
  default (5 # 10) (r_confidence response).

(** [asyncio.gather] over [batch_requests] with [return_exceptions=True]:
    the calls of one batch are started in the order of their index and
    their results come back in that order, an exception standing in for a
    failed call.  Each call is one transition of the world; how the calls
    of a batch overlap in time is left to the world. *)
Fixpoint gather_batch (self : StudentModel) (request : GenerationRequest)
    (indices : list Z) (w : W) : list (outcome provider_response) * W :=
  match indices with
  | [] => ([], w)
  | i :: rest =>
      let prompt := _create_student_prompt self request i in
      let '(r, w) := generate (s_provider self) prompt (7 # 10) 500 w in
      let '(rs, w) := gather_batch self request rest w in
      (r :: rs, w)
  end.

(** The loop over [batch_responses]: failures are logged and dropped. *)
Fixpoint collect_responses (self : StudentModel)
    (batch_responses : list (outcome provider_response))
    (results : list student_item) : list student_item :=
  match batch_responses with
  | [] => results
  | Raised _ :: rest => collect_responses self rest results
  | Returned response :: rest =>
      collect_responses self rest
        (results ++ [ {| content := default "" (r_content response);
                         quality_estimate := _estimate_quality response;
                         s_model := s_model_name self |} ])
  end.

(** The loop over [range(0, request.quantity, batch_size)]. *)
Fixpoint batch_loop (self : StudentModel) (request : GenerationRequest)
    (batch_size : Z) (batch_starts : list Z) (results : list student_item)
    (w : W) : list student_item * W :=
  match batch_starts with
  | [] => (results, w)
  | batch_start :: rest =>
      let batch_end := Z.min (batch_start + batch_size) (quantity request) in
      let '(batch_responses, w) :=
        gather_batch self request (range_list batch_start batch_end 1) w in
      batch_loop self request batch_size rest
        (collect_responses self batch_responses results) w
  end.

(** [StudentModel.generate_bulk_data] *)
Definition generate_bulk_data (request : GenerationRequest)
    (self : StudentModel) (w : W) : list student_item * W :=
  let batch_size := 20%Z in
  batch_loop self request batch_size
    (range_list 0 (quantity request) batch_size) [] w.

(** The prompt of [QualityValidator._validate_single]. *)
Definition validation_prompt (content : string) : string :=
  nl +:+ ind
  +:+ "Evaluate the quality of this generated content on a scale of 0.0 to 1.0:"
  +:+ nl
  +:+ ind +:+ nl
  +:+ ind +:+ "Content: " +:+ content +:+ nl
  +:+ ind +:+ nl
  +:+ ind +:+ "Score based on:" +:+ nl
  +:+ ind +:+ "- Relevance and accuracy" +:+ nl
  +:+ ind +:+ "- Language quality" +:+ nl
  +:+ ind +:+ "- Completeness" +:+ nl
  +:+ ind +:+ "- Originality" +:+ nl
  +:+ ind +:+ nl
  +:+ ind +:+ "Return only the numeric score:" +:+ nl
  +:+ ind.

(** [str(e)] for the exceptions of the model. *)
Definition str_exn (e : exn) : string :=
  match e with
  | ZeroDivisionError => "division by zero"
  | ValueError => "could not convert string to float"
  | IndexError => "list index out of range"
  | ProviderError msg => msg
  end.

(** [QualityValidator._validate_single]; the whole body after the prompt
    sits in [try ... except Exception], so a failed call and a failed
    [float(...)] both give the score [0.5]. *)
Definition _validate_single (teacher : TeacherModel) (item : student_item)
    (w : W) : validation * W :=
  let content := content item in
  match generate (t_provider teacher) (validation_prompt content) (1 # 10) 10 w with
  | (Returned response, w) =>
      let score_text := strip (default "0.5" (r_content response)) in
      let parsed :=
        if isdigit (remove_char "." score_text) then py_float score_text
        else Returned (5 # 10) in
      match parsed with
      | Returned quality_score =>
          ({| v_quality_score := Qmax 0 (Qmin 1 quality_score);
              validation_content :=
                Some (if (100 <? String.length content)%nat
                      then take_prefix 100 content +:+ "..."
                      else content);
              error := None |}, w)
      | Raised e =>
          ({| v_quality_score := 5 # 10; validation_content := None;
              error := Some (str_exn e) |}, w)
      end
  | (Raised e, w) =>
      ({| v_quality_score := 5 # 10; validation_content := None;
          error := Some (str_exn e) |}, w)
  end.

(** The indices [validate_batch] samples:
    [list(range(0, len(data), len(data) // sample_size))[:sample_size]]. *)
Definition sample_size_of (n : nat) (sample_ratio : Q) : Z :=
  Z.max 1 (Qtruncate (inject_Z (Z.of_nat n) * sample_ratio)).

Definition sample_indices (n : nat) (sample_ratio : Q) : outcome (list Z) :=
  let sample_size := sample_size_of n sample_ratio in
  match py_range 0 (Z.of_nat n) (Z.of_nat n / sample_size) with
  | Raised e => Raised e
  | Returned indices => Returned (firstn (Z.to_nat sample_size) indices)
  end.

(** [data[i]]; a negative index counts from the end. *)
Definition getitem (data : list student_item) (i : Z) : outcome student_item :=
  let j := if (i <? 0)%Z then (i + Z.of_nat (length data))%Z else i in
  if (j <? 0)%Z then Raised IndexError
  else
    match nth_error data (Z.to_nat j) with
    | Some x => Returned x
    | None => Raised IndexError
    end.

(** The loop building [validation_tasks]; the coroutines run only under
    [gather], after every [data[i]] has been read. *)
Fixpoint pick_items (data : list student_item) (indices : list Z)
  : outcome (list student_item) :=
  match indices with
  | [] => Returned []
  | i :: rest =>
      match getitem data i with
      | Raised e => Raised e
      | Returned x =>
          match pick_items data rest with
          | Raised e => Raised e
          | Returned xs => Returned (x :: xs)
          end
      end
  end.

(** [asyncio.gather] over [validation_tasks] *)
Fixpoint gather_validations (teacher : TeacherModel)
    (items : list student_item) (w : W) : list validation * W :=
  match items with
  | [] => ([], w)
  | item :: rest =>
      let '(v, w) := _validate_single teacher item w in
      let '(vs, w) := gather_validations teacher rest w in
      (v :: vs, w)
  end.

(** [QualityValidator.validate_batch] *)
Definition validate_batch (teacher : TeacherModel) (data : list student_item)
    (sample_ratio : Q) (w : W) : outcome batch_validation * W :=
  match sample_indices (length data) sample_ratio with
  | Raised e => (Raised e, w)
  | Returned indices =>
      match pick_items data indices with
      | Raised e => (Raised e, w)
      | Returned sampled =>
          let '(validations, w) := gather_validations teacher sampled w in
          match validations with
          | [] => (Raised ZeroDivisionError, w)
          | _ =>
              let avg_quality :=
                Qsum (map v_quality_score validations)
                / inject_Z (Z.of_nat (length validations)) in
              (Returned
                 {| average_quality := avg_quality;
                    sample_size := Z.of_nat (length validations);
                    validations := validations;
                    meets_threshold := Qge_bool avg_quality (8 # 10) |}, w)
          end
      end
  end.

Record KnowledgeDistillationOrchestrator : Type := {
  teacher : TeacherModel;
  student : StudentModel
}.

(** [_calculate_total_cost] *)
Definition _calculate_total_cost (teacher_examples : list TeacherExample)
    (student_data : list student_item) : Q :=
  let teacher_cost :=
    Qsum (map (fun ex => inject_Z (tokens_used ex) * (1 # 100)) teacher_examples) in
  let student_cost := inject_Z (Z.of_nat (length student_data)) * (1 # 1000) in
  teacher_cost + student_cost.

(** [KnowledgeDistillationOrchestrator.generate_dataset].  The validator
    was built on [self.teacher], so it calls the same provider. *)
Definition generate_dataset (request : GenerationRequest)
    (self : KnowledgeDistillationOrchestrator) (w : W)
  : outcome GenerationResponse * KnowledgeDistillationOrchestrator * W :=
  let start_time := clock w in
  let '(response_id, w) := uuid4 w in
  let '(teacher_examples, teacher', w) :=
    generate_seed_data request (teacher self) w in
  let '(learning, student') :=
    learn_from_teacher teacher_examples (student self) in
  let '(student_data, w) := generate_bulk_data request student' w in
  let self' := {| teacher := teacher'; student := student' |} in
  match validate_batch teacher' student_data (1 # 10) w with
  | (Raised e, w) => (Raised e, self', w)
  | (Returned validation_result, w) =>
      let generation_time := clock w - start_time in
      let total_cost := _calculate_total_cost teacher_examples student_data in
      let all_data :=
        map (fun ex => {| e_content := output ex; source := "teacher";
                          quality := confidence ex |}) teacher_examples
        ++ map (fun item => {| e_content := content item; source := "student";
                               quality := quality_estimate item |}) student_data in
      (Returned
         {| id := response_id;
            data := all_data;
            quality_score := average_quality validation_result;
            cost := total_cost;
            model_used := t_model_name teacher' +:+ " + " +:+ s_model_name student';
            generation_time := generation_time;
            metadata :=
              {| teacher_examples := Z.of_nat (length teacher_examples);
                 student_generated := Z.of_nat (length student_data);
                 learning_confidence := l_confidence learning;
                 validation_sample_size := sample_size validation_result;
                 meets_quality_threshold := meets_threshold validation_result |} |},
       self', w)
  end.

End Pipeline.

Arguments LLMProvider W : clear implicits.
Arguments TeacherModel W : clear implicits.
Arguments StudentModel W : clear implicits.
Arguments KnowledgeDistillationOrchestrator W : clear implicits.

End Core.

(** * transfer.py *)
Module Transfer.

Import Core.

Record KnowledgePattern : Type := {
  pattern_id : string;
  pattern_type : string;
  keywords : list string;
  template : string;
  examples : list string;
  confidence : Q;
  frequency : Z;
  last_updated : Q
}.

(** The per-example features of the style pass. *)
Record style_features : Type := {
  sentence_length : Q;
  formality : Q;
  technical_terms : Z;
  question_ratio : Q
}.

(** [numpy.mean] of a list of integers. *)
Definition np_mean (xs : list Z) : Q :=
  Qsum (map inject_Z xs) / inject_Z (Z.of_nat (length xs)).

(** [PatternExtractor._get_structure_signature] *)
Definition line_token (line : string) : option string :=
  let line := strip line in
  match line with
  | EmptyString => None
  | _ =>
      if startswith "#" line then Some "HEADER"
      else if startswith "-" line || startswith "*" line then Some "LIST"
      else if startswith "1." line || startswith "2." line
              || startswith "3." line then Some "NUMBERED"
      else if endswith ":" line then Some "LABEL"
      else if contains_char "?" line then Some "QUESTION"
      else Some "TEXT"
  end.

Definition _get_structure_signature (text : string) : string :=
  let lines := split_on (ascii_of_nat 10) text in
  let structure := omap line_token lines in
  join "_" (firstn 10 structure).

(** [PatternExtractor._calculate_formality] *)
Definition formal_indicators : list string :=
  ["therefore"; "however"; "furthermore"; "nevertheless"; "consequently"].

Definition informal_indicators : list string :=
  ["don't"; "can't"; "won't"; "I'm"; "it's"; "that's"].

Definition Zsum (xs : list Z) : Z := fold_right Z.add 0%Z xs.

Definition _calculate_formality (text : string) : Q :=
  let formal_count :=
    Zsum (map (fun word => count_sub word (lower text)) formal_indicators) in
  let informal_count :=
    Zsum (map (fun word => count_sub word (lower text)) informal_indicators) in
  let total_words := Z.of_nat (length (split_blank text)) in
  let formal_ratio :=
    inject_Z formal_count / inject_Z (Z.max 1 total_words) * 100 in
  let informal_ratio :=
    inject_Z informal_count / inject_Z (Z.max 1 total_words) * 100 in
  Qmax 0 (formal_ratio - informal_ratio).

(** [PatternExtractor._classify_style] *)
Definition _classify_style (features : style_features) : string :=
  if Qgt_bool (formality features) 2 && (3 <? technical_terms features)%Z
  then "academic"
  else if Qgt_bool (question_ratio features) (2 # 10) then "conversational"
  else if Qgt_bool (sentence_length features) 15 then "detailed"
  else "casual".

(** [PatternExtractor._extract_common_keywords]: the five most frequent
    keywords, the earliest first among equally frequent ones. *)
Fixpoint count_keyword (keyword : string) (counts : list (string * Z))
  : list (string * Z) :=
  match counts with
  | [] => [(keyword, 1%Z)]
  | (k, v) :: rest =>
      if String.eqb k keyword then (k, (v + 1)%Z) :: rest
      else (k, v) :: count_keyword keyword rest
  end.

Definition _extract_common_keywords (examples : list TeacherExample)
  : list string :=
  let all_keywords :=
    concat (map (fun ex => default [] (ctx_keywords (context ex))) examples) in
  let keyword_counts :=
    fold_left (fun counts keyword => count_keyword keyword counts)
      all_keywords [] in
  map fst
    (firstn 5 (sorted_by (fun y x => (snd x <? snd y)%Z) keyword_counts)).

(** The templates. *)
Definition _create_structure_template (examples : list TeacherExample)
  : string :=
  "Structure template based on " +:+ pretty (length examples) +:+ " examples".

Definition _create_style_template
    (group : list (TeacherExample * style_features)) : string :=
  "Style template for " +:+ pretty (length group) +:+ " examples".

Definition _create_content_template (examples : list TeacherExample)
  : string :=
  "Content template for topic with " +:+ pretty (length examples)
  +:+ " examples".

Definition _create_format_template (format_type : string)
    (examples : list TeacherExample) : string :=
  format_type +:+ " format template from " +:+ pretty (length examples)
  +:+ " examples".

(** [PatternExtractor._detect_format_type] *)
Definition _detect_format_type (text : string) : option string :=
  let text_lower := strip (lower text) in
  if startswith "{" text_lower && endswith "}" text_lower then Some "json"
  else if startswith "[" text_lower && endswith "]" text_lower then Some "list"
  else if contains_char "|" text && contains_char (ascii_of_nat 10) text
  then Some "table"
  else if (5 <? count_char (ascii_of_nat 10) text)%Z
          && existsb (fun line => startswith "-" (strip line)
                                  || startswith "*" (strip line))
               (split_on (ascii_of_nat 10) text)
  then Some "bullet_list"
  else None.

Section Extractor.

(** Two library calls stay abstract: [hashlib.md5(s.encode()).hexdigest()]
    and the number of matches [re.findall] reports for the pattern of
    capitalised terms. *)
Variable md5_hexdigest : string -> string.
Variable count_capitalised_terms : string -> Z.

(** The wall clock, read for [last_updated] when a pattern is built. *)
Variable now : Q.

(** [PatternExtractor._extract_structural_patterns] *)
Definition structure_groups (examples : list TeacherExample)
  : list (string * list TeacherExample) :=
  fold_left
    (fun groups example =>
       group_append (_get_structure_signature (output example)) example groups)
    examples [].

Definition structural_pattern (structure_key : string)
    (group : list TeacherExample) : KnowledgePattern :=
  {| pattern_id := "struct_" +:+ take_prefix 8 (md5_hexdigest structure_key);
     pattern_type := "structure";
     keywords := _extract_common_keywords group;
     template := _create_structure_template group;
     examples := map output (firstn 3 group);
     confidence := Qmin 1 (inject_Z (Z.of_nat (length group)) / 10);
     frequency := Z.of_nat (length group);
     last_updated := now |}.

Definition _extract_structural_patterns (examples : list TeacherExample)
  : list KnowledgePattern :=
  omap (fun '(structure_key, group) =>
          if (2 <=? length group)%nat
          then Some (structural_pattern structure_key group) else None)
    (structure_groups examples).

(** [PatternExtractor._extract_style_patterns] *)
Definition features_of (example : TeacherExample) : style_features :=
  let text := output example in
  {| sentence_length :=
       np_mean (map (fun s => Z.of_nat (length (split_blank s)))
                  (split_on "." text));
     formality := _calculate_formality text;
     technical_terms := count_capitalised_terms text;
     question_ratio :=
       inject_Z (count_char "?" text)
       / inject_Z (Z.max 1 (count_char "." text)) |}.

Definition style_groups (examples : list TeacherExample)
  : list (string * list (TeacherExample * style_features)) :=
  fold_left
    (fun groups example =>
       let features := features_of example in
       group_append (_classify_style features) (example, features) groups)
    examples [].

Definition style_pattern (style_key : string)
    (group : list (TeacherExample * style_features)) : KnowledgePattern :=
  let examples_in_group := map fst group in
  {| pattern_id := "style_" +:+ style_key;
     pattern_type := "style";
     keywords := _extract_common_keywords examples_in_group;
     template := _create_style_template group;
     examples := map output (firstn 3 examples_in_group);
     confidence := Qmin 1 (inject_Z (Z.of_nat (length group)) / 15);
     frequency := Z.of_nat (length group);
     last_updated := now |}.

Definition _extract_style_patterns (examples : list TeacherExample)
  : list KnowledgePattern :=
  omap (fun '(style_key, group) =>
          if (3 <=? length group)%nat
          then Some (style_pattern style_key group) else None)
    (style_groups examples).

(** [PatternExtractor._extract_content_patterns] *)
Definition content_groups (examples : list TeacherExample)
  : list (string * list TeacherExample) :=
  fold_left
    (fun groups example =>
       match default [] (ctx_keywords (context example)) with
       | [] => groups
       | keywords =>
           group_append (join "_" (sorted_strings keywords)) example groups
       end)
    examples [].

Definition content_pattern (topic_key : string) (group : list TeacherExample)
  : KnowledgePattern :=
  {| pattern_id := "content_" +:+ take_prefix 8 (md5_hexdigest topic_key);
     pattern_type := "content";
     keywords := split_on "_" topic_key;
     template := _create_content_template group;
     examples := map output (firstn 3 group);
     confidence := Qmin 1 (inject_Z (Z.of_nat (length group)) / 8);
     frequency := Z.of_nat (length group);
     last_updated := now |}.

Definition _extract_content_patterns (examples : list TeacherExample)
  : list KnowledgePattern :=
  omap (fun '(topic_key, group) =>
          if (2 <=? length group)%nat
          then Some (content_pattern topic_key group) else None)
    (content_groups examples).

(** [PatternExtractor._extract_format_patterns] *)
Definition format_groups (examples : list TeacherExample)
  : list (string * list TeacherExample) :=
  fold_left
    (fun groups example =>
       match _detect_format_type (output example) with
       | Some format_type => group_append format_type example groups
       | None => groups
       end)
    examples [].

Definition format_pattern (format_type : string) (group : list TeacherExample)
  : KnowledgePattern :=
  {| pattern_id := "format_" +:+ format_type;
     pattern_type := "format";
     keywords := _extract_common_keywords group;
     template := _create_format_template format_type group;
     examples := map output (firstn 2 group);
     confidence := 9 # 10;
     frequency := Z.of_nat (length group);
     last_updated := now |}.

Definition _extract_format_patterns (examples : list TeacherExample)
  : list KnowledgePattern :=
  omap (fun '(format_type, group) =>
          if (2 <=? length group)%nat
          then Some (format_pattern format_type group) else None)
    (format_groups examples).

(** [PatternExtractor.extract_patterns]: the four passes in order; every
    pattern is then stored in [self.patterns] under its identifier. *)
Definition extract_patterns (teacher_examples : list TeacherExample)
    (self_patterns : gmap string KnowledgePattern)
  : list KnowledgePattern * gmap string KnowledgePattern :=
  let patterns :=
    _extract_structural_patterns teacher_examples
    ++ _extract_style_patterns teacher_examples
    ++ _extract_content_patterns teacher_examples
    ++ _extract_format_patterns teacher_examples in
  (patterns,
   fold_left (fun store pattern => <[pattern_id pattern := pattern]> store)
     patterns self_patterns).

End Extractor.
End Transfer.

(** * Floating point

    An arithmetic operation on [float]s gives its exact result rounded to
    a representable number, and a decimal literal stands for the
    representable number nearest to it.  Where a statement depends on
    that, the definitions below take the rounding [fl] as a parameter and
    write [fl (x + y)] for the float addition: what is proved for every
    [fl] holds whatever the machine rounds to, and with the identity for
    [fl] the arithmetic is exact.  A comparison of two floats is exact. *)

(** The integer nearest to [q], the even one of two that are equally
    near. *)
Definition round_half_even (q : Q) : Z :=
  let below := Qfloor q in
  match Qcompare (q - inject_Z below) (1 # 2) with
  | Lt => below
  | Gt => (below + 1)%Z
  | Eq => if Z.even below then below else (below + 1)%Z
  end.

(** The exponent [e] of the binary64 numbers around [q], for [q] that is
    not zero: [2 ^ 52 <= |q| / 2 ^ e < 2 ^ 53], and [-1074] where the
    subnormal numbers start. *)
Definition binary64_exponent (q : Q) : Z :=
  let e := (Z.log2 (Z.abs (Qnum q)) - Z.log2 (Zpos (Qden q)) - 52)%Z in
  let e := if Qle_bool (2 ^ 52) (Qabs q / 2 ^ e) then e else (e - 1)%Z in
  Z.max e (-1074).

(** The rounding of CPython's [float]: to the nearest binary64 number,
    ties to even.  Overflow to an infinity is not modelled. *)
Definition binary64 (q : Q) : Q :=
  if Qeq_bool q 0 then 0
  else
    let e := binary64_exponent q in
    Qred (inject_Z (round_half_even (q / 2 ^ e)) * 2 ^ e).

(** Rounding moves the exact result [x] by at most the fraction [eps] of
    it; binary64 does so with [eps = 2 ^ -53] unless the result is
    subnormal. *)
Definition accurate (fl : Q -> Q) (eps x : Q) : Prop :=
  Qabs (fl x - x) <= eps * Qabs x.



(** * The checks whose outcome depends on rounding

    [BudgetTracker.check_budget_constraints] and
    [QualityValidator.validate_batch] once more, with every float
    operation rounded by [fl].  With the identity for [fl] these are the
    definitions of the modules above. *)
Module Rounded.

Section Budget.
Import CostOptimizer.
Variable fl : Q -> Q.

(** [check_budget_constraints(budget, additional_cost)], run at clock
    reading [now]. *)
Definition check_budget_constraints (now : datetime) (budget : CostBudget)
    (additional_cost : Q) (self : BudgetTracker)
  : outcome check_result * BudgetTracker :=
  let issues0 :=
    if Qgt_bool (fl (total_spending self + additional_cost))
         (total_budget budget)
    then [ {| type := total_budget_exceeded; current := total_spending self;
              limit := total_budget budget; additional := additional_cost |} ]
    else [] in
  let '(issues1, daily) :=
    match daily_budget budget with
    | Some lim =>
        if truthy (Some lim) then
          let today := strftime_day now in
          let '(daily_spent, daily) :=
            defaultdict_getitem today (daily_spending self) in
          (if Qgt_bool (fl (daily_spent + additional_cost)) lim
           then issues0 ++ [ {| type := daily_budget_exceeded;
                                current := daily_spent; limit := lim;
                                additional := additional_cost |} ]
           else issues0, daily)
        else (issues0, daily_spending self)
    | None => (issues0, daily_spending self)
    end in
  let '(issues2, hourly) :=
    match hourly_budget budget with
    | Some lim =>
        if truthy (Some lim) then
          let current_hour := strftime_hour now in
          let '(hourly_spent, hourly) :=
            defaultdict_getitem current_hour (hourly_spending self) in
          (if Qgt_bool (fl (hourly_spent + additional_cost)) lim
           then issues1 ++ [ {| type := hourly_budget_exceeded;
                                current := hourly_spent; limit := lim;
                                additional := additional_cost |} ]
           else issues1, hourly)
        else (issues1, hourly_spending self)
    | None => (issues1, hourly_spending self)
    end in
  let self' :=
    {| daily_spending := daily; hourly_spending := hourly;
       total_spending := total_spending self;
       budget_alerts := budget_alerts self |} in
  if Qeq_bool (total_budget budget) 0 then (Raised ZeroDivisionError, self')
  else
    (Returned
       {| within_budget := Nat.eqb (length issues2) 0;
          issues := issues2;
          remaining_total := fl (total_budget budget - total_spending self);
          utilization := fl (total_spending self / total_budget budget) |},
     self').

End Budget.

Section Validator.
Import Core.
Context {W : Type}.
Variable fl : Q -> Q.

(** [QualityValidator._validate_single]: [float(score_text)] is the float
    nearest to the decimal it reads.  The answer is taken to be ASCII
    text; the digits of other scripts, which [isdigit] and [float] accept
    as well, are not modelled. *)
Definition _validate_single (teacher : TeacherModel W) (item : student_item)
    (w : W) : validation * W :=
  let content := content item in
  match generate (t_provider teacher) (validation_prompt content) (1 # 10) 10 w with
  | (Returned response, w) =>
      let score_text := strip (default "0.5" (r_content response)) in
      let parsed :=
        if isdigit (remove_char "." score_text) then
          match py_float score_text with
          | Returned q => Returned (fl q)
          | Raised e => Raised e
          end
        else Returned (5 # 10) in
      match parsed with
      | Returned quality_score =>
          ({| v_quality_score := Qmax 0 (Qmin 1 quality_score);
              validation_content :=
                Some (if (100 <? String.length content)%nat
                      then take_prefix 100 content +:+ "..."
                      else content);
              error := None |}, w)
      | Raised e =>
          ({| v_quality_score := 5 # 10; validation_content := None;
              error := Some (str_exn e) |}, w)
      end
  | (Raised e, w) =>
      ({| v_quality_score := 5 # 10; validation_content := None;
          error := Some (str_exn e) |}, w)
  end.

(** [max(1, int(len(data) * sample_ratio))] *)
Definition sample_size_of (n : nat) (sample_ratio : Q) : Z :=
  Z.max 1 (Qtruncate (fl (inject_Z (Z.of_nat n) * sample_ratio))).

(** [list(range(0, len(data), len(data) // sample_size))[:sample_size]] *)
Definition sample_indices (n : nat) (sample_ratio : Q) : outcome (list Z) :=
  let sample_size := sample_size_of n sample_ratio in
  match py_range 0 (Z.of_nat n) (Z.of_nat n / sample_size) with
  | Raised e => Raised e
  | Returned indices => Returned (firstn (Z.to_nat sample_size) indices)
  end.

(** What [self._validate_single] does with an item, and what [sum] does
    with the scores. *)
Variable validate_single : student_item -> W -> validation * W.
Variable float_sum : list Q -> Q.

(** [asyncio.gather] over [validation_tasks] *)
Fixpoint gather_validations (items : list student_item) (w : W)
  : list validation * W :=
  match items with
  | [] => ([], w)
  | item :: rest =>
      let '(v, w) := validate_single item w in
      let '(vs, w) := gather_validations rest w in
      (v :: vs, w)
  end.

(** [QualityValidator.validate_batch] *)
Definition validate_batch (data : list student_item) (sample_ratio : Q)
    (w : W) : outcome batch_validation * W :=
  match sample_indices (length data) sample_ratio with
  | Raised e => (Raised e, w)
  | Returned indices =>
      match pick_items data indices with
      | Raised e => (Raised e, w)
      | Returned sampled =>
          let '(validations, w) := gather_validations sampled w in
          match validations with
          | [] => (Raised ZeroDivisionError, w)
          | _ =>
              let avg_quality :=
                fl (float_sum (map v_quality_score validations)
                    / inject_Z (Z.of_nat (length validations))) in
              (Returned
                 {| average_quality := avg_quality;
                    sample_size := Z.of_nat (length validations);
                    validations := validations;
                    meets_threshold := Qge_bool avg_quality (fl (8 # 10)) |},
               w)
          end
      end
  end.

End Validator.

End Rounded.

(** * More Python values

    What the remaining classes need on top of the values above. *)

(** [xs[-n:]] for a positive [n]: the last [n] elements, or all of them. *)
Definition lastn {A} (n : nat) (xs : list A) : list A :=
  skipn (length xs - n) xs.

(** [numpy.mean] of a list of floats; every caller guards against the
    empty list. *)
Definition np_mean_floats (xs : list Q) : Q :=
  Qsum xs / inject_Z (Z.of_nat (length xs)).

(** [numpy.percentile(xs, q)] with the default linear interpolation
    between the two closest ranks. *)
Definition np_percentile (xs : list Q) (q : Q) : Q :=
  let sorted := sorted_by (fun y x => Qlt_bool y x) xs in
  let position := (q / 100) * inject_Z (Z.of_nat (length xs) - 1) in
  let below := Qfloor position in
  let fraction := position - inject_Z below in
  let lower := nth (Z.to_nat below) sorted 0 in
  let upper := nth (S (Z.to_nat below)) sorted lower in
  lower + (upper - lower) * fraction.

(** The Gregorian calendar behind [datetime + timedelta]. *)
Definition is_leap (y : N) : bool :=
  ((y mod 4 =? 0) && (negb (y mod 100 =? 0) || (y mod 400 =? 0)))%N.

Definition days_in_month (y m : N) : N :=
  if (m =? 2)%N then (if is_leap y then 29 else 28)%N
  else if ((m =? 4) || (m =? 6) || (m =? 9) || (m =? 11))%N then 30%N
  else 31%N.

(** [t + timedelta(days=1)] *)
Definition next_day (t : datetime) : datetime :=
  if (day t <? days_in_month (year t) (month t))%N then
    {| year := year t; month := month t; day := (day t + 1)%N; hour := hour t |}
  else if (month t <? 12)%N then
    {| year := year t; month := (month t + 1)%N; day := 1%N; hour := hour t |}
  else
    {| year := (year t + 1)%N; month := 1%N; day := 1%N; hour := hour t |}.

(** [t + timedelta(hours=1)] *)
Definition next_hour (t : datetime) : datetime :=
  if (hour t <? 23)%N then
    {| year := year t; month := month t; day := day t;
       hour := (hour t + 1)%N |}
  else
    let d := next_day t in
    {| year := year d; month := month d; day := day d; hour := 0%N |}.

(** [t + timedelta(hours=k)] *)
Definition plus_hours (k : nat) (t : datetime) : datetime :=
  Nat.iter k next_hour t.

(** * cost_optimizer.py: DynamicPricingManager *)
Module Pricing.
Import CostOptimizer.

Record pricing_record : Type := {
  execution_time : datetime;
  record_hour : N;
  is_peak : bool;
  cost : Q;
  quality : Q;
  efficiency : Q
}.

Record DynamicPricingManager : Type := {
  pricing_history : list pricing_record;
  peak_hours : list N;
  off_peak_discount : Q
}.

(** [DynamicPricingManager.__init__] *)
Definition init : DynamicPricingManager :=
  {| pricing_history := [];
     peak_hours := [9; 10; 11; 14; 15; 16]%N;
     off_peak_discount := 1 # 10 |}.

(** [h in self.peak_hours] *)
Definition in_peak_hours (h : N) (self : DynamicPricingManager) : bool :=
  existsb (N.eqb h) (peak_hours self).

(** The [for hour_offset in range(1, 24)] loop of
    [_get_next_off_peak_hour], up to its [return]. *)
Fixpoint first_off_peak (offsets : list nat) (now : datetime)
    (self : DynamicPricingManager) : option datetime :=
  match offsets with
  | [] => None
  | hour_offset :: rest =>
      let check_time := plus_hours hour_offset now in
      if negb (in_peak_hours (hour check_time) self) then Some check_time
      else first_off_peak rest now self
  end.

(** [_get_next_off_peak_hour], with [now] for [datetime.now()]. *)
Definition _get_next_off_peak_hour (now : datetime)
    (self : DynamicPricingManager) : string :=
  match first_off_peak (seq 1 23) now self with
  | Some check_time => strftime_hour check_time +:+ ":00"
  | None =>
      let d := next_day now in
      let tomorrow_midnight :=
        {| year := year d; month := month d; day := day d; hour := 0%N |} in
      strftime_hour tomorrow_midnight +:+ ":00"
  end.

Record execution : Type := {
  execution_cost : Q;
  timing : string
}.

Record delayed : Type := {
  delayed_cost : Q;
  savings : Q;
  next_optimal_time : string;
  delayed_timing : string
}.

Record timing_advice : Type := {
  immediate_execution : execution;
  delayed_execution : option delayed;
  recommendation : string
}.

(** [get_optimal_timing(request, budget)], every float operation rounded
    by [fl].  Of the request only the entry [estimated_cost] is read, with
    [request.get('estimated_cost', 0)]; the budget is not read at all. *)
Definition get_optimal_timing (fl : Q -> Q) (now : datetime)
    (estimated_cost : option Q) (budget : CostBudget)
    (self : DynamicPricingManager) : timing_advice :=
  let current_hour := hour now in
  let is_peak_time := in_peak_hours current_hour self in
  let base_cost := default 0 estimated_cost in
  if is_peak_time then
    let off_peak_cost := fl (base_cost * fl (1 - off_peak_discount self)) in
    let savings := fl (base_cost - off_peak_cost) in
    let next_off_peak := _get_next_off_peak_hour now self in
    {| immediate_execution :=
         {| execution_cost := base_cost; timing := "peak_hours" |};
       delayed_execution :=
         Some {| delayed_cost := off_peak_cost; savings := savings;
                 next_optimal_time := next_off_peak;
                 delayed_timing := "off_peak" |};
       recommendation :=
         if Qgt_bool savings (fl (base_cost * fl (5 # 100))) then "delay"
         else "immediate" |}
  else
    {| immediate_execution :=
         {| execution_cost := base_cost; timing := "off_peak" |};
       delayed_execution := None;
       recommendation := "immediate" |}.

(** [track_pricing_performance] *)
Definition track_pricing_performance (execution_time : datetime)
    (cost quality : Q) (self : DynamicPricingManager)
  : DynamicPricingManager :=
  let history :=
    pricing_history self
    ++ [ {| execution_time := execution_time;
            record_hour := hour execution_time;
            is_peak := in_peak_hours (hour execution_time) self;
            cost := cost;
            quality := quality;
            efficiency := if Qgt_bool cost 0 then quality / cost else 0 |} ] in
  {| pricing_history :=
       if (1000 <? length history)%nat then lastn 1000 history else history;
     peak_hours := peak_hours self;
     off_peak_discount := off_peak_discount self |}.

Record hours_analysis : Type := {
  average_cost : Q;
  average_quality : Q;
  analysis_efficiency : Q;
  sample_size : nat
}.

Record recommendations : Type := {
  cost_savings : Q;
  quality_difference : Q;
  optimal_timing : string
}.

Inductive pricing_analysis : Type :=
| insufficient_data
| Analysed (peak_hours_analysis off_peak_analysis : hours_analysis)
    (recommended : recommendations).

(** [analyze_pricing_patterns] *)
Definition analyze_pricing_patterns (self : DynamicPricingManager)
  : pricing_analysis :=
  if (length (pricing_history self) <? 10)%nat then insufficient_data
  else
    let peak_records := List.filter is_peak (pricing_history self) in
    let off_peak_records :=
      List.filter (fun r => negb (is_peak r)) (pricing_history self) in
    match peak_records, off_peak_records with
    | [], _ | _, [] => insufficient_data
    | _, _ =>
        let peak_avg_cost := np_mean_floats (map cost peak_records) in
        let off_peak_avg_cost := np_mean_floats (map cost off_peak_records) in
        let peak_avg_quality := np_mean_floats (map quality peak_records) in
        let off_peak_avg_quality :=
          np_mean_floats (map quality off_peak_records) in
        Analysed
          {| average_cost := peak_avg_cost;
             average_quality := peak_avg_quality;
             analysis_efficiency :=
               if Qgt_bool peak_avg_cost 0
               then peak_avg_quality / peak_avg_cost else 0;
             sample_size := length peak_records |}
          {| average_cost := off_peak_avg_cost;
             average_quality := off_peak_avg_quality;
             analysis_efficiency :=
               if Qgt_bool off_peak_avg_cost 0
               then off_peak_avg_quality / off_peak_avg_cost else 0;
             sample_size := length off_peak_records |}
          {| cost_savings := peak_avg_cost - off_peak_avg_cost;
             quality_difference := peak_avg_quality - off_peak_avg_quality;
             optimal_timing :=
               if Qlt_bool off_peak_avg_cost peak_avg_cost
               then "off_peak" else "peak" |}
    end.

End Pricing.

(** * cost_optimizer.py: model selection and performance tracking *)
Module ModelSelection.
Import CostOptimizer.

Inductive OptimizationStrategy : Type :=
| COST_FIRST
| QUALITY_FIRST
| BALANCED
| ADAPTIVE.

(** An entry of [cost_history] and [quality_history]. *)
Record performance_record : Type := {
  record_model_key : string;
  record_request : request;
  actual_cost : Q;
  actual_quality : Q;
  actual_time : Q;
  record_timestamp : datetime
}.

(** An entry of [optimization_rules[model_key]['performance_history']]. *)
Record history_entry : Type := {
  entry_quality : Q;
  entry_cost : Q;
  entry_timestamp : datetime
}.

Record IntelligentCostOptimizer : Type := {
  model_profiles : profiles;
  cost_history : list performance_record;
  quality_history : list performance_record;
  optimization_rules : gmap string (list history_entry);
  budget_tracker : BudgetTracker;
  dynamic_pricing : Pricing.DynamicPricingManager
}.

(** [IntelligentCostOptimizer.__init__] *)
Definition init : IntelligentCostOptimizer :=
  {| model_profiles := [];
     cost_history := [];
     quality_history := [];
     optimization_rules := ∅;
     budget_tracker := CostOptimizer.init;
     dynamic_pricing := Pricing.init |}.

(** [_meets_budget_constraints] *)
Definition _meets_budget_constraints (estimate : GenerationCostEstimate)
    (budget : CostBudget) : bool :=
  if Qgt_bool (estimated_cost estimate) (total_budget budget) then false
  else if
    match cost_per_item_limit budget with
    | Some lim =>
        truthy (Some lim)
        && Qgt_bool
             (estimated_cost estimate
              / inject_Z (Z.max 1 (estimated_output_tokens estimate / 50)))
             lim
    | None => false
    end
  then false
  else if
    negb (Qeq_bool (quality_cost_ratio_min budget) 0)
    && Qlt_bool
         (quality_expectation estimate
          / (if Qgt_bool (estimated_cost estimate) (1 # 1000)
             then estimated_cost estimate else 1 # 1000))
         (quality_cost_ratio_min budget)
  then false
  else true.

(** [_calculate_adaptive_score] *)
Definition _calculate_adaptive_score (history : list performance_record)
    (estimate : GenerationCostEstimate) : outcome Q :=
  if Qeq_bool (estimated_cost estimate + (1 # 1000)) 0
  then Raised ZeroDivisionError
  else
    let base_score :=
      quality_expectation estimate / (estimated_cost estimate + (1 # 1000)) in
    if (10 <? length history)%nat then
      let recent_performance := lastn 10 history in
      let avg_quality :=
        np_mean_floats (map actual_quality recent_performance) in
      let avg_cost := np_mean_floats (map actual_cost recent_performance) in
      if Qlt_bool avg_quality (7 # 10) then
        Returned (base_score * (1 + quality_expectation estimate))
      else if Qgt_bool avg_cost
                (np_percentile (map actual_cost recent_performance) 75) then
        Returned
          (base_score * (1 + 1 / (estimated_cost estimate + (1 # 1000))))
      else Returned base_score
    else Returned base_score.

(** [_calculate_optimization_score]: the two reciprocals are computed
    before the strategy is looked at, so either can raise under any
    strategy. *)
Definition _calculate_optimization_score (history : list performance_record)
    (estimate : GenerationCostEstimate) (strategy : OptimizationStrategy)
  : outcome Q :=
  if Qeq_bool (estimated_cost estimate + (1 # 1000)) 0
  then Raised ZeroDivisionError
  else
    let cost_score := 1 / (estimated_cost estimate + (1 # 1000)) in
    let quality_score := quality_expectation estimate in
    if Qeq_bool (estimated_time estimate + (1 # 1000)) 0
    then Raised ZeroDivisionError
    else
      let speed_score := 1 / (estimated_time estimate + (1 # 1000)) in
      let confidence_score := confidence estimate in
      match strategy with
      | COST_FIRST =>
          Returned (cost_score * (7 # 10) + quality_score * (2 # 10)
                    + confidence_score * (1 # 10))
      | QUALITY_FIRST =>
          Returned (quality_score * (7 # 10) + confidence_score * (2 # 10)
                    + cost_score * (1 # 10))
      | BALANCED =>
          Returned (cost_score * (3 # 10) + quality_score * (3 # 10)
                    + speed_score * (2 # 10) + confidence_score * (2 # 10))
      | ADAPTIVE => _calculate_adaptive_score history estimate
      end.

(** An element of [candidates]. *)
Record candidate : Type := {
  model_key : string;
  profile : ModelCostProfile;
  estimate : GenerationCostEstimate;
  score : Q
}.

Record alternative : Type := {
  alternative_model : string;
  alternative_cost : Q;
  alternative_quality : Q;
  alternative_score : Q
}.

Record selection : Type := {
  recommended_model : string;
  selection_cost : Q;
  estimated_quality : Q;
  selection_time : Q;
  alternatives : list alternative;
  strategy_used : OptimizationStrategy;
  budget_utilization : Q
}.

(** The body of the loop over [model_profiles.items()]: [None] when the
    model is skipped, by [continue] or by the [except] clause. *)
Definition evaluate_model (self : IntelligentCostOptimizer) (req : request)
    (budget : CostBudget) (strategy : OptimizationStrategy)
    (item : string * ModelCostProfile) : option candidate :=
  match estimate_generation_cost (model_profiles self) req (fst item) with
  | Raised _ => None
  | Returned est =>
      if negb (_meets_budget_constraints est budget) then None
      else
        match _calculate_optimization_score (cost_history self) est strategy with
        | Raised _ => None
        | Returned s =>
            Some {| model_key := fst item; profile := snd item;
                    estimate := est; score := s |}
        end
  end.

(** [candidates] after [candidates.sort(key=score, reverse=True)]. *)
Definition ranked_candidates (self : IntelligentCostOptimizer) (req : request)
    (budget : CostBudget) (strategy : OptimizationStrategy) : list candidate :=
  sorted_by (fun y x => Qgt_bool (score y) (score x))
    (omap (evaluate_model self req budget strategy) (model_profiles self)).

(** [optimize_model_selection]: [ValueError] when no model is left, and
    [ZeroDivisionError] from the last entry of the result when the total
    budget is zero. *)
Definition optimize_model_selection (self : IntelligentCostOptimizer)
    (req : request) (budget : CostBudget) (strategy : OptimizationStrategy)
  : outcome selection :=
  match ranked_candidates self req budget strategy with
  | [] => Raised ValueError
  | best_candidate :: others =>
      let alternatives :=
        map (fun c =>
               {| alternative_model := model_key c;
                  alternative_cost := estimated_cost (estimate c);
                  alternative_quality := quality_expectation (estimate c);
                  alternative_score := score c |})
          (firstn 4 others) in
      if Qeq_bool (total_budget budget) 0 then Raised ZeroDivisionError
      else
        Returned
          {| recommended_model := model_key best_candidate;
             selection_cost := estimated_cost (estimate best_candidate);
             estimated_quality := quality_expectation (estimate best_candidate);
             selection_time := estimated_time (estimate best_candidate);
             alternatives := alternatives;
             strategy_used := strategy;
             budget_utilization :=
               estimated_cost (estimate best_candidate) / total_budget budget |}
  end.

(** [_update_model_profile]: the profile object registered under the key
    is updated in place; [last_updated] is not part of the profile record
    here. *)
Fixpoint update_profile (key : string)
    (f : ModelCostProfile -> ModelCostProfile) (ps : profiles) : profiles :=
  match ps with
  | [] => []
  | (k, p) :: rest =>
      if String.eqb k key then (k, f p) :: rest
      else (k, p) :: update_profile key f rest
  end.

Definition _update_model_profile (model_key : string)
    (performance : performance_record) (ps : profiles) : profiles :=
  update_profile model_key
    (fun p =>
       {| provider := provider p;
          model_name := model_name p;
          input_cost_per_token := input_cost_per_token p;
          output_cost_per_token := output_cost_per_token p;
          quality_rating :=
            (9 # 10) * quality_rating p
            + (1 # 10) * actual_quality performance;
          speed_rating := speed_rating p;
          reliability_rating :=
            (95 # 100) * reliability_rating p + (5 # 100) * 1 |})
    ps.

(** [_update_optimization_rules] *)
Definition _update_optimization_rules (performance : performance_record)
    (rules : gmap string (list history_entry))
  : gmap string (list history_entry) :=
  let model_key := record_model_key performance in
  let rules :=
    match rules !! model_key with
    | None => <[model_key := []]> rules
    | Some _ => rules
    end in
  let history :=
    default [] (rules !! model_key)
    ++ [ {| entry_quality := actual_quality performance;
            entry_cost := actual_cost performance;
            entry_timestamp := record_timestamp performance |} ] in
  let rules := <[model_key := history]> rules in
  if (100 <? length history)%nat
  then <[model_key := lastn 100 history]> rules
  else rules.

(** [track_actual_performance], with [now] for [datetime.now()]. *)
Definition track_actual_performance (now : datetime) (model_key : string)
    (req : request) (actual_cost actual_quality actual_time : Q)
    (self : IntelligentCostOptimizer) : IntelligentCostOptimizer :=
  let performance :=
    {| record_model_key := model_key; record_request := req;
       actual_cost := actual_cost; actual_quality := actual_quality;
       actual_time := actual_time; record_timestamp := now |} in
  {| model_profiles :=
       _update_model_profile model_key performance (model_profiles self);
     cost_history := cost_history self ++ [performance];
     quality_history := quality_history self ++ [performance];
     optimization_rules :=
       _update_optimization_rules performance (optimization_rules self);
     budget_tracker := budget_tracker self;
     dynamic_pricing := dynamic_pricing self |}.

(** [register_model_profile] on the optimizer itself. *)
Definition register (p : ModelCostProfile) (self : IntelligentCostOptimizer)
  : IntelligentCostOptimizer :=
  {| model_profiles := register_model_profile p (model_profiles self);
     cost_history := cost_history self;
     quality_history := quality_history self;
     optimization_rules := optimization_rules self;
     budget_tracker := budget_tracker self;
     dynamic_pricing := dynamic_pricing self |}.

End ModelSelection.

(** * transfer.py: the transfer engine, its tracker and the adaptive
    manager *)
Module TransferEngine.
Import Core Transfer.

(** [example.context.get("keywords", [])] *)
Definition keywords_of (ex : TeacherExample) : list string :=
  default [] (ctx_keywords (context ex)).

(** ** KnowledgeTransferEngine *)

(** [set(pattern.keywords) & set(example_keywords)] is not empty. *)
Definition shares_keyword (pattern_keywords example_keywords : list string)
  : bool :=
  existsb (fun k => existsb (String.eqb k) example_keywords) pattern_keywords.

(** The inner loop of [_calculate_coverage]: some pattern covers the
    example. *)
Definition is_covered (patterns : list KnowledgePattern) (ex : TeacherExample)
  : bool :=
  existsb (fun p => shares_keyword (keywords p) (keywords_of ex)) patterns.

(** [_calculate_coverage] *)
Definition _calculate_coverage (patterns : list KnowledgePattern)
    (teacher_examples : list TeacherExample) : Q :=
  match teacher_examples with
  | [] => 0
  | _ =>
      let covered := length (List.filter (is_covered patterns) teacher_examples) in
      inject_Z (Z.of_nat covered)
      / inject_Z (Z.of_nat (length teacher_examples))
  end.

(** [a == b] on two examples: the equality a [dataclass] generates, field
    by field, floats by value. *)
Definition example_eqb (a b : TeacherExample) : bool :=
  String.eqb (input a) (input b)
  && String.eqb (output a) (output b)
  && Qeq_bool (Core.confidence a) (Core.confidence b)
  && Z.eqb (tokens_used a) (tokens_used b)
  && String.eqb (model a) (model b)
  && Qeq_bool (timestamp a) (timestamp b)
  && bool_decide (ctx_keywords (context a) = ctx_keywords (context b))
  && bool_decide (ctx_iteration (context a) = ctx_iteration (context b)).

(** The first pass of [_select_diverse_examples]: one example per sorted
    keyword tuple, until [count] examples are selected. *)
Fixpoint first_pass (count : Z) (examples selected : list TeacherExample)
    (used_keywords : list (list string)) : list TeacherExample :=
  match examples with
  | [] => selected
  | example :: rest =>
      let keywords := sorted_strings (keywords_of example) in
      if existsb (fun used => bool_decide (used = keywords)) used_keywords
      then first_pass count rest selected used_keywords
      else
        let selected := selected ++ [example] in
        if (count <=? Z.of_nat (length selected))%Z then selected
        else first_pass count rest selected (keywords :: used_keywords)
  end.

(** [_select_diverse_examples] *)
Definition _select_diverse_examples (examples : list TeacherExample)
    (count : Z) : list TeacherExample :=
  if (Z.of_nat (length examples) <=? count)%Z then examples
  else
    let selected := first_pass count examples [] [] in
    if (Z.of_nat (length selected) <? count)%Z then
      let remaining :=
        List.filter (fun ex => negb (existsb (example_eqb ex) selected))
          examples in
      let remaining :=
        sorted_by
          (fun y x => Qgt_bool (Core.confidence y) (Core.confidence x))
          remaining in
      selected
      ++ firstn (Z.to_nat (count - Z.of_nat (length selected))) remaining
    else selected.

Record benchmark : Type := {
  benchmark_input : string;
  expected_output : string;
  benchmark_quality_threshold : Q;
  benchmark_keywords : list string
}.

(** [_create_evaluation_benchmarks] *)
Definition _create_evaluation_benchmarks
    (teacher_examples : list TeacherExample) : list benchmark :=
  map (fun example =>
         {| benchmark_input := input example;
            expected_output := output example;
            benchmark_quality_threshold := Core.confidence example;
            benchmark_keywords := keywords_of example |})
    (_select_diverse_examples teacher_examples 10).

Record type_instructions : Type := {
  instruction_count : nat;
  instruction_templates : list string;
  instruction_keywords : gset string
}.

Definition general_guidelines : list string :=
  [ "Follow the patterns learned from high-quality teacher examples";
    "Maintain consistency in style and structure";
    "Use appropriate formality level based on context";
    "Include relevant details while staying concise" ].

(** The [defaultdict(list)] [pattern_groups], in the order in which the
    types first occur. *)
Definition pattern_groups (patterns : list KnowledgePattern)
  : list (string * list KnowledgePattern) :=
  fold_left (fun groups p => group_append (pattern_type p) p groups)
    patterns [].

(** [_generate_transfer_instructions]: the guidelines and the entries of
    [pattern_specific]; the keywords of an entry are built from a [set],
    so their order means nothing. *)
Definition _generate_transfer_instructions (patterns : list KnowledgePattern)
  : list string * list (string * type_instructions) :=
  (general_guidelines,
   omap (fun group : string * list KnowledgePattern =>
           let high_confidence :=
             List.filter (fun p => Qgt_bool (confidence p) (7 # 10))
               (snd group) in
           match high_confidence with
           | [] => None
           | _ =>
               Some (fst group,
                     {| instruction_count := length high_confidence;
                        instruction_templates :=
                          map template (firstn 3 high_confidence);
                        instruction_keywords :=
                          ⋃ (map (fun p => list_to_set (keywords p))
                               high_confidence) |})
           end)
     (pattern_groups patterns)).

(** ** PerformanceTracker *)

Record TransferMetrics : Type := {
  patterns_extracted : Z;
  transfer_accuracy : Q;
  student_improvement : Q;
  cost_reduction : Q;
  time_to_learn : Q
}.

Record PerformanceTracker : Type := {
  metrics_history : list TransferMetrics;
  student_performance : gmap string (list Q)
}.

(** [PerformanceTracker.__init__] *)
Definition init : PerformanceTracker :=
  {| metrics_history := []; student_performance := ∅ |}.

(** [track_transfer_performance] *)
Definition track_transfer_performance (before_quality after_quality : Q)
    (patterns_count : Z) (transfer_time : Q) (self : PerformanceTracker)
  : TransferMetrics * PerformanceTracker :=
  let metrics :=
    {| patterns_extracted := patterns_count;
       transfer_accuracy := after_quality;
       student_improvement := after_quality - before_quality;
       cost_reduction := 0;
       time_to_learn := transfer_time |} in
  (metrics,
   {| metrics_history := metrics_history self ++ [metrics];
      student_performance := student_performance self |}).

(** [track_student_performance]: subscripting the [defaultdict(list)]
    creates the entry of a new student. *)
Definition track_student_performance (student_id : string) (quality_score : Q)
    (self : PerformanceTracker) : PerformanceTracker :=
  {| metrics_history := metrics_history self;
     student_performance :=
       <[student_id :=
           default [] (student_performance self !! student_id)
           ++ [quality_score]]> (student_performance self) |}.

(** [get_learning_curve]: a read with [.get], which creates nothing. *)
Definition get_learning_curve (student_id : string) (self : PerformanceTracker)
  : list Q :=
  default [] (student_performance self !! student_id).

Record effectiveness : Type := {
  average_improvement : Q;
  average_patterns : Q;
  average_transfer_time : Q;
  success_rate : Q
}.

(** [calculate_transfer_effectiveness]: [None] stands for the empty
    [dict]. *)
Definition calculate_transfer_effectiveness (self : PerformanceTracker)
  : option effectiveness :=
  match metrics_history self with
  | [] => None
  | history =>
      Some
        {| average_improvement :=
             np_mean_floats (map student_improvement history);
           average_patterns := np_mean (map patterns_extracted history);
           average_transfer_time := np_mean_floats (map time_to_learn history);
           success_rate :=
             inject_Z
               (Z.of_nat
                  (length (List.filter
                             (fun m => Qgt_bool (student_improvement m) 0)
                             history)))
             / inject_Z (Z.of_nat (length history)) |}
  end.

(** ** AdaptiveLearningManager *)

(** An item of [performance_feedback]; every item is taken to carry its
    [performance]. *)
Record feedback : Type := {
  feedback_pattern_id : option string;
  performance : Q
}.

(** The patterns a caller hands over are objects, and the loop assigns to
    their [confidence]: a list of patterns is a list of references into a
    store of objects, and one object may be listed more than once. *)
Definition pattern_store : Type := nat -> KnowledgePattern.

Definition store_update (store : pattern_store) (ref : nat)
    (pattern : KnowledgePattern) : pattern_store :=
  fun r => if Nat.eqb r ref then pattern else store r.

(** The body of the loop of [adapt_patterns], for one reference.  The
    arithmetic is that of floats: [fl] rounds each result, and [np_mean] is
    [np.mean] on a list of floats. *)
Definition adapt_pattern (fl : Q -> Q) (np_mean : list Q -> Q)
    (performance_feedback : list feedback)
    (store : pattern_store) (ref : nat) : pattern_store :=
  let pattern := store ref in
  let pattern_feedback :=
    List.filter
      (fun f => bool_decide (feedback_pattern_id f = Some (pattern_id pattern)))
      performance_feedback in
  match pattern_feedback with
  | [] => store
  | _ =>
      let avg_performance := np_mean (map performance pattern_feedback) in
      let new_confidence := fl (fl (confidence pattern + avg_performance) / 2) in
      store_update store ref
        {| pattern_id := pattern_id pattern;
           pattern_type := pattern_type pattern;
           keywords := keywords pattern;
           template := template pattern;
           examples := examples pattern;
           confidence := Qmax (fl (1 # 10)) (Qmin 1 new_confidence);
           frequency := frequency pattern;
           last_updated := last_updated pattern |}
  end.

(** [adapt_patterns]: the list it returns holds the references it was
    given, sorted by the confidence their objects have after the loop.
    The entry it appends to [adaptation_history] is not modelled. *)
Definition adapt_patterns (fl : Q -> Q) (np_mean : list Q -> Q)
    (patterns : list nat) (performance_feedback : list feedback)
    (store : pattern_store) : list nat * pattern_store :=
  let store :=
    fold_left (adapt_pattern fl np_mean performance_feedback) patterns store in
  (sorted_by
     (fun y x => Qgt_bool (confidence (store y)) (confidence (store x)))
     patterns,
   store).

End TransferEngine.

(** * providers.py: what the providers report, and the cost optimizer *)

(** [sub in s] on strings. *)
Fixpoint str_in (sub s : string) : bool :=
  String.prefix sub s
  || match s with
     | String _ rest => str_in sub rest
     | EmptyString => false
     end.

(** A [dict] in insertion order: [d.get(key)], and [d[key] = value], where
    a key that is already there keeps its place. *)
Fixpoint dict_lookup {A} (key : string) (d : list (string * A)) : option A :=
  match d with
  | [] => None
  | (k, v) :: rest => if String.eqb k key then Some v else dict_lookup key rest
  end.

Fixpoint dict_store {A} (key : string) (value : A) (d : list (string * A))
  : list (string * A) :=
  match d with
  | [] => [(key, value)]
  | (k, v) :: rest =>
      if String.eqb k key then (k, value) :: rest
      else (k, v) :: dict_store key value rest
  end.

(** [sum(xs)] on integers. *)
Definition Zsum (xs : list Z) : Z := fold_right Z.add 0%Z xs.

Module ProviderCosts.

(** The provider classes of the file. *)
Inductive provider_class : Type :=
| OpenAIProvider
| AnthropicProvider
| GoogleProvider
| LocalLlamaProvider.

(** The fields of [ProviderConfig] that the figures of a provider depend
    on. *)
Record ProviderConfig : Type := {
  model_name : string;
  max_tokens : Z
}.

(** A provider, as far as its figures go: its class and its [config]. *)
Record provider : Type := {
  class_of : provider_class;
  config : ProviderConfig
}.

(** The class attribute [PRICING]: cost per 1K tokens, input and output. *)
Definition PRICING (c : provider_class) : list (string * (Q * Q)) :=
  match c with
  | OpenAIProvider =>
      [ ("gpt-4o", (5 # 1000, 15 # 1000));
        ("gpt-4", (3 # 100, 6 # 100));
        ("gpt-3.5-turbo", (1 # 1000, 2 # 1000)) ]
  | AnthropicProvider =>
      [ ("claude-3.5-sonnet", (3 # 1000, 15 # 1000));
        ("claude-3-opus", (15 # 1000, 75 # 1000));
        ("claude-3-haiku", (25 # 100000, 125 # 100000)) ]
  | GoogleProvider =>
      [ ("gemini-pro", (5 # 10000, 15 # 10000));
        ("gemini-ultra", (1 # 100, 3 # 100)) ]
  | LocalLlamaProvider =>
      [ ("llama2", (0, 0)); ("llama3", (0, 0)); ("mistral", (0, 0)) ]
  end.

(** [get_cost_per_token]: a local model does not consult its table. *)
Definition get_cost_per_token (self : provider) : Q * Q :=
  let priced otherwise :=
    default otherwise
      (dict_lookup (model_name (config self)) (PRICING (class_of self))) in
  match class_of self with
  | OpenAIProvider => priced (1 # 100, 2 # 100)
  | AnthropicProvider => priced (1 # 100, 3 # 100)
  | GoogleProvider => priced (1 # 1000, 3 # 1000)
  | LocalLlamaProvider => (0, 0)
  end.

(** The [dict] with the keys ["teacher"] and ["student"]. *)
Record role_suitability : Type := {
  teacher : Q;
  student : Q
}.

(** [_get_role_suitability]; for a local model, the literal of its
    [get_model_info]. *)
Definition _get_role_suitability (self : provider) : role_suitability :=
  let name := model_name (config self) in
  match class_of self with
  | OpenAIProvider =>
      if str_in "gpt-4" name then {| teacher := 95 # 100; student := 6 # 10 |}
      else if str_in "gpt-3.5" name then {| teacher := 7 # 10; student := 9 # 10 |}
      else {| teacher := 8 # 10; student := 8 # 10 |}
  | AnthropicProvider =>
      if str_in "opus" name then {| teacher := 1; student := 5 # 10 |}
      else if str_in "sonnet" name then {| teacher := 9 # 10; student := 7 # 10 |}
      else if str_in "haiku" name then {| teacher := 6 # 10; student := 95 # 100 |}
      else {| teacher := 8 # 10; student := 8 # 10 |}
  | GoogleProvider =>
      if str_in "ultra" name then {| teacher := 9 # 10; student := 6 # 10 |}
      else {| teacher := 75 # 100; student := 85 # 100 |}
  | LocalLlamaProvider => {| teacher := 6 # 10; student := 9 # 10 |}
  end.

Record model_info : Type := {
  info_provider : string;
  info_model : string;
  info_max_tokens : Z;
  pricing : Q * Q;
  info_role_suitability : role_suitability
}.

(** [get_model_info] *)
Definition get_model_info (self : provider) : model_info :=
  {| info_provider :=
       match class_of self with
       | OpenAIProvider => "openai"
       | AnthropicProvider => "anthropic"
       | GoogleProvider => "google"
       | LocalLlamaProvider => "local_llama"
       end;
     info_model := model_name (config self);
     info_max_tokens := max_tokens (config self);
     pricing := get_cost_per_token self;
     info_role_suitability := _get_role_suitability self |}.

(** ** CostOptimizer *)

(** An entry of [usage_stats]. *)
Record usage : Type := {
  tokens : Z;
  cost : Q;
  requests : Z
}.

Record CostOptimizer : Type := {
  providers : list (string * provider);
  usage_stats : gmap string usage
}.

(** [CostOptimizer.__init__] *)
Definition init (providers : list (string * provider)) : CostOptimizer :=
  {| providers := providers; usage_stats := ∅ |}.

(** The list [suitable_providers] that the loop of
    [get_cheapest_provider_for_task] builds. *)
Definition suitable_providers (task_complexity : Q) (self : CostOptimizer)
  : list (string * Q) :=
  omap (fun entry : string * provider =>
          let info := get_model_info (snd entry) in
          let capability :=
            Qmax (teacher (info_role_suitability info))
                 (student (info_role_suitability info)) in
          if Qge_bool capability task_complexity then
            let cost_per_token :=
              (0 + fst (pricing info) + snd (pricing info)) / 2 in
            Some (fst entry, cost_per_token)
          else None)
    (providers self).

(** [get_cheapest_provider_for_task]: subscripting an empty list raises
    [IndexError]. *)
Definition get_cheapest_provider_for_task (task_complexity : Q)
    (self : CostOptimizer) : outcome string :=
  match suitable_providers task_complexity self with
  | [] =>
      match providers self with
      | [] => Raised IndexError
      | (name, _) :: _ => Returned name
      end
  | suitable =>
      match sorted_by (fun y x => Qlt_bool (snd y) (snd x)) suitable with
      | [] => Raised IndexError
      | (name, _) :: _ => Returned name
      end
  end.

(** [estimate_cost] *)
Definition estimate_cost (provider_name : string)
    (input_tokens output_tokens : Z) (self : CostOptimizer) : Q :=
  match dict_lookup provider_name (providers self) with
  | None => 0
  | Some p =>
      let '(input_cost, output_cost) := get_cost_per_token p in
      inject_Z input_tokens * input_cost / 1000
      + inject_Z output_tokens * output_cost / 1000
  end.

(** [track_usage] *)
Definition track_usage (provider_name : string) (tokens_used : Z) (cost' : Q)
    (self : CostOptimizer) : CostOptimizer :=
  let stats :=
    default {| tokens := 0; cost := 0; requests := 0 |}
      (usage_stats self !! provider_name) in
  {| providers := providers self;
     usage_stats :=
       <[provider_name :=
           {| tokens := tokens stats + tokens_used;
              cost := cost stats + cost';
              requests := requests stats + 1 |}]> (usage_stats self) |}.

Record usage_report : Type := {
  total_cost : Q;
  total_tokens : Z;
  by_provider : gmap string usage;
  average_cost_per_token : Q
}.

(** [get_usage_report]: the sums run over the values of [usage_stats];
    on exact amounts their order means nothing. *)
Definition get_usage_report (self : CostOptimizer) : usage_report :=
  let stats := map snd (map_to_list (usage_stats self)) in
  let total_cost := Qsum (map cost stats) in
  let total_tokens := Zsum (map tokens stats) in
  {| total_cost := total_cost;
     total_tokens := total_tokens;
     by_provider := usage_stats self;
     average_cost_per_token :=
       if (0 <? total_tokens)%Z then total_cost / inject_Z total_tokens
       else 0 |}.

End ProviderCosts.

(** * integration.py: the manager's choice of an orchestrator *)
Module Integration.
Import Core.

(** The literal [complexity_map]. *)
Definition complexity_map : list (string * Q) :=
  [ ("classification", 3 # 10); ("qa", 6 # 10); ("generation", 8 # 10);
    ("code", 9 # 10); ("translation", 7 # 10) ].

(** [_estimate_task_complexity] *)
Definition _estimate_task_complexity (request : GenerationRequest) : Q :=
  let complexity :=
    default (5 # 10) (dict_lookup (data_type request) complexity_map) in
  let complexity :=
    if (1000 <? quantity request)%Z then complexity + (1 # 10)
    else complexity in
  let complexity :=
    if Qgt_bool (quality_threshold request) (9 # 10) then complexity + (2 # 10)
    else complexity in
  Qmin 1 complexity.

(** An orchestrator, as far as the manager's choice goes: the model names
    of its teacher and of its student, which are their provider keys. *)
Record orchestrator : Type := {
  teacher_key : string;
  student_key : string
}.

(** The manager once [__init__] has run.  [cost_optimizer] is built on the
    [providers] of the manager, which nothing changes afterwards. *)
Record DistillationManager : Type := {
  providers : list (string * ProviderCosts.provider);
  orchestrators : list (string * orchestrator);
  cost_optimizer : option ProviderCosts.CostOptimizer
}.

Definition teacher_keys (providers : list (string * ProviderCosts.provider))
  : list string :=
  List.filter (startswith "teacher_") (map fst providers).

Definition student_keys (providers : list (string * ProviderCosts.provider))
  : list string :=
  List.filter (startswith "student_") (map fst providers).

(** [_initialize_orchestrators]: one orchestrator per pair of a teacher and
    a student key, stored under [f"{teacher_key}_{student_key}"]. *)
Definition _initialize_orchestrators
    (providers : list (string * ProviderCosts.provider))
  : list (string * orchestrator) :=
  fold_left
    (fun orchestrators teacher_key =>
       fold_left
         (fun orchestrators student_key =>
            dict_store (teacher_key +:+ "_" +:+ student_key)
              {| teacher_key := teacher_key; student_key := student_key |}
              orchestrators)
         (student_keys providers) orchestrators)
    (teacher_keys providers) [].

(** [DistillationManager.__init__], from the providers that
    [_initialize_providers] has created and the [cost_optimization] flag of
    the configuration. *)
Definition init (providers : list (string * ProviderCosts.provider))
    (cost_optimization : bool) : DistillationManager :=
  {| providers := providers;
     orchestrators := _initialize_orchestrators providers;
     cost_optimizer :=
       if cost_optimization then Some (ProviderCosts.init providers)
       else None |}.

(** [list(self.orchestrators.keys())[0]] *)
Definition first_orchestrator (self : DistillationManager) : outcome string :=
  match orchestrators self with
  | [] => Raised IndexError
  | (key, _) :: _ => Returned key
  end.

(** [_select_optimal_orchestrator]: a [CostOptimizer] object is always
    true in a condition. *)
Definition _select_optimal_orchestrator (request : GenerationRequest)
    (self : DistillationManager) : outcome string :=
  match cost_optimizer self with
  | Some optimizer =>
      let complexity := _estimate_task_complexity request in
      match ProviderCosts.get_cheapest_provider_for_task complexity optimizer with
      | Raised e => Raised e
      | Returned best_provider =>
          match List.find (str_in best_provider)
                  (map fst (orchestrators self)) with
          | Some key => Returned key
          | None => first_orchestrator self
          end
      end
  | None => first_orchestrator self
  end.

End Integration.

(** * Statements

    The predicates and sample inputs the properties below are stated
    with. *)

Module BudgetSpec.
Import CostOptimizer.

(** The three ceilings as the tracker reads them at clock [now]: a daily
    or hourly ceiling counts only when it is set and not zero. *)
Definition exceeds_total (b : CostBudget) (c : Q) (s : BudgetTracker) : Prop :=
  total_budget b < total_spending s + c.

Definition exceeds_daily (now : datetime) (b : CostBudget) (c : Q)
    (s : BudgetTracker) : Prop :=
  exists lim, daily_budget b = Some lim /\ ~ lim == 0
    /\ lim < dict_get0 (strftime_day now) (daily_spending s) + c.

Definition exceeds_hourly (now : datetime) (b : CostBudget) (c : Q)
    (s : BudgetTracker) : Prop :=
  exists lim, hourly_budget b = Some lim /\ ~ lim == 0
    /\ lim < dict_get0 (strftime_hour now) (hourly_spending s) + c.

(** The tracker a check leaves behind: the entry of the current day (hour)
    exists afterwards when the daily (hourly) ceiling was read. *)
Definition after_check (now : datetime) (b : CostBudget) (s : BudgetTracker)
  : BudgetTracker :=
  {| daily_spending :=
       if truthy (daily_budget b)
       then snd (defaultdict_getitem (strftime_day now) (daily_spending s))
       else daily_spending s;
     hourly_spending :=
       if truthy (hourly_budget b)
       then snd (defaultdict_getitem (strftime_hour now) (hourly_spending s))
       else hourly_spending s;
     total_spending := total_spending s;
     budget_alerts := budget_alerts s |}.

(** The issue each ceiling contributes. *)
Definition total_issue (b : CostBudget) (c : Q) (s : BudgetTracker)
  : list issue :=
  if Qgt_bool (total_spending s + c) (total_budget b)
  then [ {| type := total_budget_exceeded; current := total_spending s;
            limit := total_budget b; additional := c |} ]
  else [].

Definition sub_issue (ty : issue_type) (ceiling : option Q) (spent c : Q)
  : list issue :=
  match ceiling with
  | Some lim =>
      if truthy (Some lim) && Qgt_bool (spent + c) lim
      then [ {| type := ty; current := spent; limit := lim; additional := c |} ]
      else []
  | None => []
  end.

Definition all_issues (now : datetime) (b : CostBudget) (c : Q)
    (s : BudgetTracker) : list issue :=
  total_issue b c s
  ++ sub_issue daily_budget_exceeded (daily_budget b)
       (dict_get0 (strftime_day now) (daily_spending s)) c
  ++ sub_issue hourly_budget_exceeded (hourly_budget b)
       (dict_get0 (strftime_hour now) (hourly_spending s)) c.

(** Sample inputs. *)
Definition sample_now : datetime :=
  {| year := 2026; month := 11; day := 3; hour := 9 |}.

Definition budget_of (total : Q) (daily hourly : option Q) : CostBudget :=
  {| total_budget := total; daily_budget := daily; hourly_budget := hourly;
     cost_per_item_limit := None; quality_cost_ratio_min := 1 |}.

End BudgetSpec.

Module AllocationSpec.
Import CostOptimizer.

(** The profiles of the repository's test fixture, registered in order. *)
Definition gpt4 : ModelCostProfile :=
  {| provider := "openai"; model_name := "gpt-4";
     input_cost_per_token := 3 # 100; output_cost_per_token := 6 # 100;
     quality_rating := 95 # 100; speed_rating := 30;
     reliability_rating := 99 # 100 |}.

Definition gpt35 : ModelCostProfile :=
  {| provider := "openai"; model_name := "gpt-3.5-turbo";
     input_cost_per_token := 1 # 1000; output_cost_per_token := 2 # 1000;
     quality_rating := 8 # 10; speed_rating := 60;
     reliability_rating := 95 # 100 |}.

Definition fixture_profiles : profiles :=
  register_model_profile gpt35 (register_model_profile gpt4 []).

(** A request for 100 items with a given quality threshold. *)
Definition request_with_threshold (threshold : Q) : request :=
  {| keywords := Some ["AI"]; data_type := Some "qa"; quantity := Some 100%Z;
     quality_threshold := Some threshold; context := None |}.

(** What it means for an allocation to respect the budget and the
    request's quality threshold. *)
Definition respects (req : request) (budget : CostBudget) (a : allocation)
  : Prop :=
  total_cost a <= total_budget budget
  /\ default (8 # 10) (quality_threshold req) <= expected_quality a.

(** The expected quality is the ratio-weighted average of the quality
    ratings of the two models the allocation names. *)
Definition quality_is_weighted_average (ps : profiles) (a : allocation)
  : Prop :=
  exists pt pst,
    lookup_profile (teacher_model a) ps = Some pt
    /\ lookup_profile (student_model a) ps = Some pst
    /\ expected_quality a
       = quality_rating pt * teacher_ratio a
         + quality_rating pst * (1 - teacher_ratio a).

End AllocationSpec.

Module RateLimiterSpec.
Import Providers.

(** The timestamps still inside the 60-second window at clock reading
    [clock]. *)
Definition window (clock : Q) (self : RateLimiter) : list Q :=
  prune (clock - 60) (request_times self).

(** A burst: every call follows the previous one after a pause that is not
    negative, and all pauses after the first call add up to less than the
    window. *)
Definition rapid_succession (calls : list (Q * Q)) : Prop :=
  Forall (fun call => 0 <= fst call) calls
  /\ Qsum (map fst (tl calls)) < 60.

End RateLimiterSpec.

Module CoreSpec.
Import Core.

Section Observed.
Context {W : Type}.

(** A tally of the calls made to a provider, and of those that returned. *)
Record tally : Type := { calls : nat; successes : nat }.

(** The same provider, with every call tallied next to the world. *)
Definition counting (p : LLMProvider W) : LLMProvider (W * tally) :=
  {| generate := fun prompt temperature max_tokens '(w, t) =>
       match generate p prompt temperature max_tokens w with
       | (Returned r, w') =>
           (Returned r,
            (w', {| calls := S (calls t); successes := S (successes t) |}))
       | (Raised e, w') =>
           (Raised e, (w', {| calls := S (calls t); successes := successes t |}))
       end;
     get_cost_per_token := get_cost_per_token p |}.

Definition observed (teacher : TeacherModel W) : TeacherModel (W * tally) :=
  {| t_provider := counting (t_provider teacher);
     t_model_name := t_model_name teacher;
     examples_cache := examples_cache teacher |}.

(** The same request for another quantity. *)
Definition for_quantity (request : GenerationRequest) (q : Z)
  : GenerationRequest :=
  {| keywords := keywords request; data_type := data_type request;
     quantity := q; quality_threshold := quality_threshold request;
     strategy := strategy request |}.

(** The number of teacher calls one run of [generate_seed_data] issues. *)
Definition seed_calls (clock : W -> Q) (request : GenerationRequest)
    (teacher : TeacherModel W) (w : W) : nat :=
  calls (snd (snd (generate_seed_data (fun wt => clock (fst wt)) request
                     (observed teacher) (w, {| calls := 0; successes := 0 |})))).

(** The number of those calls that returned. *)
Definition seed_successes (clock : W -> Q) (request : GenerationRequest)
    (teacher : TeacherModel W) (w : W) : nat :=
  successes
    (snd (snd (generate_seed_data (fun wt => clock (fst wt)) request
                 (observed teacher) (w, {| calls := 0; successes := 0 |})))).

(** The student items the pipeline hands to the validator. *)
Definition student_output (clock : W -> Q) (uuid4 : W -> string * W)
    (request : GenerationRequest) (self : KnowledgeDistillationOrchestrator W)
    (w : W) : list student_item :=
  let '(_, w) := uuid4 w in
  let '(teacher_examples, _, w) :=
    generate_seed_data clock request (teacher self) w in
  let '(_, student') := learn_from_teacher teacher_examples (student self) in
  fst (generate_bulk_data request student' w).

(** The teacher examples the pipeline seeds. *)
Definition seed_examples (clock : W -> Q) (uuid4 : W -> string * W)
    (request : GenerationRequest) (self : KnowledgeDistillationOrchestrator W)
    (w : W) : list TeacherExample :=
  let '(_, w) := uuid4 w in
  fst (fst (generate_seed_data clock request (teacher self) w)).

End Observed.

(** Sample inputs: a world that only counts calls, a provider that always
    answers and one that always fails. *)
Definition answering (text : string) : LLMProvider nat :=
  {| generate := fun _ _ _ w =>
       (Returned {| r_content := Some text; r_confidence := Some (9 # 10);
                    r_tokens_used := Some 12%Z |}, S w);
     get_cost_per_token := (3 # 100, 6 # 100) |}.

Definition failing : LLMProvider nat :=
  {| generate := fun _ _ _ w => (Raised (ProviderError "unreachable"), S w);
     get_cost_per_token := (0, 0) |}.

Definition sample_clock (w : nat) : Q := inject_Z (Z.of_nat w).
Definition sample_uuid4 (w : nat) : string * nat := ("sample-id", w).

Definition sample_request (quantity : Z) : GenerationRequest :=
  {| keywords := ["AI"]; data_type := "qa"; quantity := quantity;
     quality_threshold := 8 # 10; strategy := RESPONSE_BASED |}.

Definition sample_teacher (p : LLMProvider nat) : TeacherModel nat :=
  {| t_provider := p; t_model_name := "mock-teacher"; examples_cache := [] |}.

Definition sample_student (p : LLMProvider nat) : StudentModel nat :=
  {| s_provider := p; s_model_name := "mock-student"; learned_patterns := [];
     performance_metrics := [] |}.

Definition sample_orchestrator (t s : LLMProvider nat)
  : KnowledgeDistillationOrchestrator nat :=
  {| teacher := sample_teacher t; student := sample_student s |}.

End CoreSpec.

Module TransferSpec.
Import Core Transfer.

(** The key under which each pass files an example, if it files it. *)
Definition structure_key (ex : TeacherExample) : option string :=
  Some (_get_structure_signature (output ex)).

Definition style_key (count_capitalised_terms : string -> Z)
    (ex : TeacherExample) : option string :=
  Some (_classify_style (features_of count_capitalised_terms ex)).



(** The examples a pass files under [key], in their order. *)
Definition supporting {A} (key_of : A -> option string) (key : string)
    (xs : list A) : list A :=
  List.filter
    (fun x => match key_of x with
              | Some k => String.eqb k key
              | None => false
              end) xs.

(** Filing the elements of a list one by one. *)
Definition file {A B} (key_of : A -> option string) (entry : A -> B)
    (groups : list (string * list B)) (x : A) : list (string * list B) :=
  match key_of x with
  | Some k => group_append k (entry x) groups
  | None => groups
  end.

(** Sample inputs. *)
Definition sample_md5 (s : string) : string :=
  "0cc175b9c0f1b6a831c399e269772661".

Definition sample_example (text : string) : TeacherExample :=
  {| input := "prompt"; output := text; Core.confidence := 9 # 10;
     tokens_used := 12; model := "mock-teacher"; timestamp := 0;
     context := {| ctx_keywords := Some ["AI"]; ctx_iteration := Some 0%Z |} |}.

End TransferSpec.


Module RoundedSpec.

Section Ceilings.
Import CostOptimizer.
Variable fl : Q -> Q.

(** The three ceilings as the check reads them at clock [now], against the
    sum the check computes: a daily or hourly ceiling counts only when it
    is set and not zero. *)
Definition exceeds_total (b : CostBudget) (c : Q) (s : BudgetTracker) : Prop :=
  total_budget b < fl (total_spending s + c).

Definition exceeds_daily (now : datetime) (b : CostBudget) (c : Q)
    (s : BudgetTracker) : Prop :=
  exists lim, daily_budget b = Some lim /\ ~ lim == 0
    /\ lim < fl (dict_get0 (strftime_day now) (daily_spending s) + c).

Definition exceeds_hourly (now : datetime) (b : CostBudget) (c : Q)
    (s : BudgetTracker) : Prop :=
  exists lim, hourly_budget b = Some lim /\ ~ lim == 0
    /\ lim < fl (dict_get0 (strftime_hour now) (hourly_spending s) + c).

(** The issue each ceiling contributes. *)
Definition total_issue (b : CostBudget) (c : Q) (s : BudgetTracker)
  : list issue :=
  if Qgt_bool (fl (total_spending s + c)) (total_budget b)
  then [ {| type := total_budget_exceeded; current := total_spending s;
            limit := total_budget b; additional := c |} ]
  else [].

Definition sub_issue (ty : issue_type) (ceiling : option Q) (spent c : Q)
  : list issue :=
  match ceiling with
  | Some lim =>
      if truthy (Some lim) && Qgt_bool (fl (spent + c)) lim
      then [ {| type := ty; current := spent; limit := lim; additional := c |} ]
      else []
  | None => []
  end.

Definition all_issues (now : datetime) (b : CostBudget) (c : Q)
    (s : BudgetTracker) : list issue :=
  total_issue b c s
  ++ sub_issue daily_budget_exceeded (daily_budget b)
       (dict_get0 (strftime_day now) (daily_spending s)) c
  ++ sub_issue hourly_budget_exceeded (hourly_budget b)
       (dict_get0 (strftime_hour now) (hourly_spending s)) c.

End Ceilings.

(** Sample inputs: a tracker that has spent [spent] in all, items to
    validate, and a teacher that gives the listed answers in turn. *)
Definition spent_in_all (spent : Q) : CostOptimizer.BudgetTracker :=
  {| CostOptimizer.daily_spending := ∅;
     CostOptimizer.hourly_spending := ∅;
     CostOptimizer.total_spending := spent;
     CostOptimizer.budget_alerts := [] |}.



End RoundedSpec.
(** ** Statements for the further classes *)

(** A list in which every element is related to all the later ones. *)
Fixpoint ordered {A} (R : A -> A -> Prop) (l : list A) : Prop :=
  match l with
  | [] => True
  | x :: rest => Forall (R x) rest /\ ordered R rest
  end.

(** [not_after before a b]: the order [before] does not put [b] before
    [a]. *)
Definition not_after {A} (before : A -> A -> bool) (a b : A) : Prop :=
  before b a = false.

Module LedgerSpec.
Import CostOptimizer.

(** What a caller can do with a tracker. *)
Inductive operation : Type :=
| Track (amount : Q) (timestamp : datetime)
| Check (now : datetime) (budget : CostBudget) (additional_cost : Q).

Definition apply (self : BudgetTracker) (o : operation) : BudgetTracker :=
  match o with
  | Track amount timestamp => track_spending amount timestamp self
  | Check now budget additional_cost =>
      snd (check_budget_constraints now budget additional_cost self)
  end.

(** A fresh tracker after a sequence of operations. *)
Definition replay (ops : list operation) : BudgetTracker :=
  fold_left apply ops init.

(** The amounts tracked under [key], when timestamps are keyed by [fmt]. *)
Definition tracked_under (fmt : datetime -> string) (key : string)
    (ops : list operation) : list Q :=
  omap (fun o => match o with
                 | Track amount timestamp =>
                     if String.eqb (fmt timestamp) key then Some amount
                     else None
                 | Check _ _ _ => None
                 end) ops.

(** All the amounts tracked. *)
Definition tracked (ops : list operation) : list Q :=
  omap (fun o => match o with
                 | Track amount _ => Some amount
                 | Check _ _ _ => None
                 end) ops.

End LedgerSpec.

Module SelectionSpec.
Import CostOptimizer.

(** The score the scan compares: the efficiency weighted by the distance
    of the teacher ratio from 20%. *)
Definition score_of (a : allocation) : npfloat :=
  np_mul (efficiency_score a) (1 - Qabs (teacher_ratio a - (2 # 10))).

(** A float that is not a NaN. *)
Definition is_number (x : npfloat) : bool :=
  match x with NaN => false | _ => true end.

(** The quality rating and the input rate registered under a key. *)
Definition quality_of (ps : profiles) (k : string) : Q :=
  profile_field quality_rating ps k.

Definition input_rate_of (ps : profiles) (k : string) : Q :=
  profile_field input_cost_per_token ps k.

(** The key a profile is registered under. *)
Definition key_of (p : ModelCostProfile) : string :=
  provider p +:+ "_" +:+ model_name p.

(** The exceptions of one iteration do not depend on the ratio. *)
Definition raises (ps : profiles) (e : exn) : Prop :=
  (ps = [] /\ e = IndexError)
  \/ (e = ZeroDivisionError
      /\ exists tm sm,
           _select_best_teacher_model ps = Returned tm
           /\ _select_best_student_model ps = Returned sm
           /\ (profile_field speed_rating ps tm == 0
               \/ profile_field speed_rating ps sm == 0)).

End SelectionSpec.

Module TrackingSpec.
Import CostOptimizer ModelSelection AllocationSpec.

(** What a caller can do with an optimizer. *)
Inductive call : Type :=
| Register (p : ModelCostProfile)
| TrackPerformance (now : datetime) (model_key : string) (req : request)
    (cost quality time : Q).

Definition apply_call (self : IntelligentCostOptimizer) (c : call)
  : IntelligentCostOptimizer :=
  match c with
  | Register p => register p self
  | TrackPerformance now model_key req cost quality time =>
      track_actual_performance now model_key req cost quality time self
  end.

(** A fresh optimizer after a sequence of calls. *)
Definition run (calls : list call) : IntelligentCostOptimizer :=
  fold_left apply_call calls init.

(** The history entry a performance record leaves. *)
Definition entry_of (r : performance_record) : history_entry :=
  {| entry_quality := actual_quality r; entry_cost := actual_cost r;
     entry_timestamp := record_timestamp r |}.

(** The entries of the records tracked for one model, oldest first. *)
Definition entries_for (k : string) (history : list performance_record)
  : list history_entry :=
  map entry_of
    (List.filter (fun r => String.eqb (record_model_key r) k) history).

(** Ratings on the 0-1 scale. *)
Definition on_scale (p : ModelCostProfile) : Prop :=
  0 <= quality_rating p <= 1 /\ 0 <= reliability_rating p <= 1.

(** Sample inputs: the optimizer and the budget of the repository's
    tests. *)
Definition sample_optimizer : IntelligentCostOptimizer :=
  register gpt35 (register gpt4 init).

Definition sample_budget : CostBudget :=
  {| total_budget := 10; daily_budget := Some 5; hourly_budget := None;
     cost_per_item_limit := Some (1 # 10); quality_cost_ratio_min := 1 |}.

End TrackingSpec.

Module PricingSpec.
Import CostOptimizer Pricing.

(** A fresh manager after tracking a sequence of executions, each given by
    its time, cost and quality. *)
Definition tracking (executions : list (datetime * Q * Q))
  : DynamicPricingManager :=
  fold_left
    (fun self e => track_pricing_performance (fst (fst e)) (snd (fst e))
                     (snd e) self)
    executions init.

(** The record one execution leaves, by the business hours of
    [__init__]. *)
Definition record_of (e : datetime * Q * Q) : pricing_record :=
  let '(t, c, q) := e in
  {| execution_time := t;
     record_hour := hour t;
     is_peak := in_peak_hours (hour t) init;
     cost := c;
     quality := q;
     efficiency := if Qgt_bool c 0 then q / c else 0 |}.

(** The first offset, in hours, at which the hour of the day is outside
    [peak], counted from hour [h]. *)
Definition off_peak_offset (peak : list N) (h : N) : option nat :=
  find (fun k => negb (existsb (N.eqb ((h + N.of_nat k) mod 24)) peak))
    (seq 1 23).

(** What is required of the offset found from hour [h]: it is between one
    and four hours, at most three from a business hour, and every earlier
    hour is a business hour. *)
Definition near_offset (peak : list N) (h : N) : bool :=
  match off_peak_offset peak h with
  | Some k =>
      (1 <=? k)%nat && (k <=? 4)%nat
      && implb (existsb (N.eqb h) peak) (k <=? 3)%nat
      && negb (existsb (N.eqb ((h + N.of_nat k) mod 24)) peak)
      && forallb (fun j => existsb (N.eqb ((h + N.of_nat j) mod 24)) peak)
           (seq 1 (k - 1))
  | None => false
  end.

(** The five float operations of one call of [get_optimal_timing] in
    business hours, on the discount of [__init__], are each accurate to
    [eps]. *)
Definition accurate_timing (fl : Q -> Q) (eps base_cost : Q) : Prop :=
  let kept := fl (1 - off_peak_discount init) in
  let off_peak_cost := fl (base_cost * kept) in
  accurate fl eps (1 - off_peak_discount init)
  /\ accurate fl eps (base_cost * kept)
  /\ accurate fl eps (base_cost - off_peak_cost)
  /\ accurate fl eps (5 # 100)
  /\ accurate fl eps (base_cost * fl (5 # 100)).

End PricingSpec.

Module ThrottleSpec.
Import Providers.

(** The clock readings at which the calls of a single caller are let
    through: before each call the caller spends [gap] seconds, and [lag]
    is the lateness of that call's sleep, if it sleeps. *)
Fixpoint admitted (calls : list (Q * Q)) (clock : Q) (self : RateLimiter)
  : outcome (list Q * RateLimiter) :=
  match calls with
  | [] => Returned ([], self)
  | (gap, lag) :: rest =>
      match wait_if_needed lag (clock + gap) self with
      | Raised e => Raised e
      | Returned w =>
          match admitted rest (clock_after w) (limiter_after w) with
          | Raised e => Raised e
          | Returned (times, self') => Returned (clock_after w :: times, self')
          end
      end
  end.

(** Any two readings that are [n] calls apart are at least 60 seconds
    apart. *)
Definition spaced (n : nat) (times : list Q) : Prop :=
  forall i a b,
    times !! i = Some a -> times !! (i + n)%nat = Some b -> a + 60 <= b.

(** Pauses and latenesses that are not negative. *)
Definition forward (calls : list (Q * Q)) : Prop :=
  Forall (fun call => 0 <= fst call /\ 0 <= snd call) calls.

End ThrottleSpec.

Module BulkSpec.
Import Core CoreSpec.

Section Observed.
Context {W : Type}.

(** The same student, with every call to its provider tallied next to the
    world. *)
Definition observed_student (self : StudentModel W)
  : StudentModel (W * tally) :=
  {| s_provider := counting (s_provider self);
     s_model_name := s_model_name self;
     learned_patterns := learned_patterns self;
     performance_metrics := performance_metrics self |}.

End Observed.

(** The number of responses that are not exceptions. *)
Definition returned_count {A} (responses : list (outcome A)) : nat :=
  length (List.filter is_returned responses).

(** The number of calls the batches starting at [starts] issue. *)
Definition batch_total (quantity : Z) (starts : list Z) : nat :=
  fold_right
    (fun batch_start total =>
       (length (range_list batch_start
                  (Z.min (batch_start + 20) quantity) 1) + total)%nat)
    0%nat starts.

End BulkSpec.

Module EngineSpec.
Import Core Transfer TransferEngine.

(** The feedback items addressed to a pattern. *)
Definition feedback_for (performance_feedback : list feedback)
    (pattern : KnowledgePattern) : list feedback :=
  List.filter
    (fun f => bool_decide (feedback_pattern_id f = Some (pattern_id pattern)))
    performance_feedback.

(** One adaptation of a pattern to the feedback that names it: the
    confidence becomes the mean of itself and the average performance, as
    floats compute it, kept between 0.1 and 1; without feedback nothing
    changes. *)
Definition adapted (fl : Q -> Q) (np_mean : list Q -> Q)
    (performance_feedback : list feedback)
    (pattern : KnowledgePattern) : KnowledgePattern :=
  match feedback_for performance_feedback pattern with
  | [] => pattern
  | items =>
      {| pattern_id := pattern_id pattern;
         pattern_type := pattern_type pattern;
         keywords := keywords pattern;
         template := template pattern;
         examples := examples pattern;
         confidence :=
           Qmax (fl (1 # 10))
             (Qmin 1
                (fl (fl (confidence pattern + np_mean (map performance items))
                     / 2)));
         frequency := frequency pattern;
         last_updated := last_updated pattern |}
  end.

(** Two patterns that differ at most in their confidence. *)
Definition same_pattern (p q : KnowledgePattern) : Prop :=
  pattern_id p = pattern_id q /\ pattern_type p = pattern_type q
  /\ keywords p = keywords q /\ template p = template q
  /\ examples p = examples q /\ frequency p = frequency q
  /\ last_updated p = last_updated q.

(** The patterns of one type whose confidence is above 0.7, in their
    order. *)
Definition confident_of_type (pattern_type' : string)
    (patterns : list KnowledgePattern) : list KnowledgePattern :=
  List.filter (fun p => Qgt_bool (confidence p) (7 # 10))
    (List.filter (fun p => String.eqb (pattern_type p) pattern_type') patterns).

(** What a caller can do with a performance tracker. *)
Inductive tracking : Type :=
| TrackTransfer (before_quality after_quality : Q) (patterns_count : Z)
    (transfer_time : Q)
| TrackStudent (student_id : string) (quality_score : Q).

Definition track (self : PerformanceTracker) (t : tracking)
  : PerformanceTracker :=
  match t with
  | TrackTransfer before_quality after_quality patterns_count transfer_time =>
      snd (track_transfer_performance before_quality after_quality
             patterns_count transfer_time self)
  | TrackStudent student_id quality_score =>
      track_student_performance student_id quality_score self
  end.

Definition tracked (ts : list tracking) : PerformanceTracker :=
  fold_left track ts init.

(** The scores tracked for one student, in their order. *)
Definition scores_of (student_id : string) (ts : list tracking) : list Q :=
  omap (fun t => match t with
                 | TrackStudent id score =>
                     if String.eqb id student_id then Some score else None
                 | TrackTransfer _ _ _ _ => None
                 end) ts.

(** Sample inputs. *)
Definition sample_pattern (id : string) (c : Q) : KnowledgePattern :=
  {| pattern_id := id; pattern_type := "structure"; keywords := ["AI"];
     template := "HEADER"; examples := []; confidence := c;
     frequency := 2; last_updated := 0 |}.

(** A store all of whose objects are the sample pattern of confidence
    0.5, and feedback of performance 1 for it. *)
Definition sample_store : pattern_store := fun _ => sample_pattern "p" (1 # 2).

Definition sample_feedback : list feedback :=
  [ {| feedback_pattern_id := Some "p"; performance := 1 |} ].

End EngineSpec.

Module UsageSpec.
Import ProviderCosts.

(** A call of [track_usage]. *)
Record tracked_call : Type := {
  call_provider : string;
  call_tokens : Z;
  call_cost : Q
}.

Definition apply_call (self : CostOptimizer) (c : tracked_call)
  : CostOptimizer :=
  track_usage (call_provider c) (call_tokens c) (call_cost c) self.

(** A fresh optimizer after a sequence of [track_usage] calls. *)
Definition used (providers : list (string * provider))
    (calls : list tracked_call) : CostOptimizer :=
  fold_left apply_call calls (init providers).

(** The calls made under one name, in their order. *)
Definition calls_for (name : string) (calls : list tracked_call)
  : list tracked_call :=
  List.filter (fun c => String.eqb (call_provider c) name) calls.

(** The better of the two suitabilities a provider reports. *)
Definition capability (p : provider) : Q :=
  Qmax (teacher (_get_role_suitability p)) (student (_get_role_suitability p)).

(** The mean of the input and the output price of a provider. *)
Definition average_price (p : provider) : Q :=
  (fst (get_cost_per_token p) + snd (get_cost_per_token p)) / 2.

End UsageSpec.

Module OrchestratorSpec.
Import ProviderCosts.

(** What [_initialize_providers] establishes: every provider key starts
    with [teacher_] or with [student_]. *)
Definition role_prefixed (providers : list (string * provider)) : Prop :=
  Forall (fun entry : string * provider =>
            startswith "teacher_" (fst entry)
            || startswith "student_" (fst entry) = true)
    providers.

(** Sample inputs. *)
Definition sample_providers : list (string * provider) :=
  [ ("teacher_gpt4",
     {| class_of := OpenAIProvider;
        config := {| model_name := "gpt-4"; max_tokens := 4000 |} |});
    ("student_llama",
     {| class_of := LocalLlamaProvider;
        config := {| model_name := "llama3"; max_tokens := 4000 |} |}) ].

End OrchestratorSpec.

(** * Properties *)

(** ** Comparisons and sums *)

Lemma Qgt_bool_iff x y : Qgt_bool x y = true <-> y < x.
Proof.
  unfold Qgt_bool. rewrite negb_true_iff, <- not_true_iff_false, Qle_bool_iff.
  split; [apply Qnot_le_lt | apply Qlt_not_le].
Qed.

Lemma Qgt_bool_false x y : Qgt_bool x y = false <-> x <= y.
Proof.
  unfold Qgt_bool. rewrite negb_false_iff. apply Qle_bool_iff.
Qed.

Lemma Qlt_bool_iff x y : Qlt_bool x y = true <-> x < y.
Proof. apply Qgt_bool_iff. Qed.

Lemma Qlt_bool_false x y : Qlt_bool x y = false <-> y <= x.
Proof. apply Qgt_bool_false. Qed.

Lemma Qge_bool_iff x y : Qge_bool x y = true <-> y <= x.
Proof. apply Qle_bool_iff. Qed.

Lemma Qeq_bool_false x y : Qeq_bool x y = false <-> ~ x == y.
Proof.
  rewrite <- not_true_iff_false. split; intros H E; apply H.
  - now apply Qeq_eq_bool.
  - now apply Qeq_bool_eq.
Qed.

Lemma Qsum_nonneg xs : Forall (fun x => 0 <= x) xs -> 0 <= Qsum xs.
Proof.
  induction 1 as [| x rest Hx _ IH]; [apply Qle_refl |].
  change (0 <= x + Qsum rest). clear - Hx IH. lra.
Qed.

Lemma truthy_Some x : truthy (Some x) = true <-> ~ x == 0.
Proof. simpl. rewrite negb_true_iff. apply Qeq_bool_false. Qed.

Lemma defaultdict_getitem_value k d :
  fst (defaultdict_getitem k d) = dict_get0 k d.
Proof.
  unfold defaultdict_getitem, dict_get0. now destruct (d !! k).
Qed.

Lemma defaultdict_getitem_keeps k d k' :
  dict_get0 k' (snd (defaultdict_getitem k d)) = dict_get0 k' d.
Proof.
  unfold defaultdict_getitem, dict_get0.
  destruct (d !! k) eqn:E; simpl; [done |].
  destruct (decide (k = k')) as [-> | Hne].
  - now rewrite lookup_insert_eq, E.
  - now rewrite lookup_insert_ne.
Qed.

Lemma defaultdict_getitem_again k d :
  defaultdict_getitem k (snd (defaultdict_getitem k d))
  = (fst (defaultdict_getitem k d), snd (defaultdict_getitem k d)).
Proof.
  unfold defaultdict_getitem.
  destruct (d !! k) eqn:E; simpl.
  - now rewrite E.
  - now rewrite lookup_insert_eq.
Qed.

(** ** The budget tracker *)
Module BudgetFacts.
Import CostOptimizer BudgetSpec.

Ltac split_getitem :=
  repeat match goal with
  | |- context [defaultdict_getitem ?k ?d] =>
      let E := fresh "E" in
      let v := fresh "v" in
      let d' := fresh "d" in
      pose proof (defaultdict_getitem_value k d) as E;
      destruct (defaultdict_getitem k d) as [v d'] eqn:?; simpl in E; subst v
  end.

(** [check_budget_constraints] in one piece. *)
Lemma check_unfold now b c s :
  check_budget_constraints now b c s
  = (if Qeq_bool (total_budget b) 0 then Raised ZeroDivisionError
     else Returned
            {| within_budget := Nat.eqb (length (all_issues now b c s)) 0;
               issues := all_issues now b c s;
               remaining_total := total_budget b - total_spending s;
               utilization := total_spending s / total_budget b |},
     after_check now b s).
Proof.
  unfold check_budget_constraints, after_check, all_issues, total_issue,
    sub_issue.
  destruct (daily_budget b) as [dl |], (hourly_budget b) as [hl |];
    cbn [truthy];
    repeat match goal with
    | |- context [Qeq_bool ?x 0] => destruct (Qeq_bool x 0)
    end; cbn [negb]; split_getitem; simpl;
    repeat match goal with
    | |- context [Qgt_bool ?x ?y] => destruct (Qgt_bool x y)
    end; simpl; rewrite ?app_nil_r; reflexivity.
Qed.

Lemma total_issue_nil b c s :
  total_issue b c s = [] <-> ~ exceeds_total b c s.
Proof.
  unfold total_issue, exceeds_total.
  destruct (Qgt_bool _ _) eqn:E.
  - apply Qgt_bool_iff in E. split; [discriminate | tauto].
  - apply Qgt_bool_false in E. split; [intros _ | reflexivity].
    now apply Qle_not_lt.
Qed.

Lemma sub_issue_nil ty ceiling spent c :
  sub_issue ty ceiling spent c = []
  <-> ~ exists lim, ceiling = Some lim /\ ~ lim == 0 /\ lim < spent + c.
Proof.
  unfold sub_issue. destruct ceiling as [lim |].
  - destruct (truthy (Some lim)) eqn:Et; simpl.
    + apply truthy_Some in Et.
      destruct (Qgt_bool (spent + c) lim) eqn:E.
      * apply Qgt_bool_iff in E. split; [discriminate |].
        intros H. exfalso. apply H. eauto.
      * apply Qgt_bool_false in E. split; [intros _ | reflexivity].
        intros (l & [= <-] & _ & Hlt). exact (Qle_not_lt _ _ E Hlt).
    + split; [intros _ | reflexivity].
      intros (l & [= <-] & Hnz & _). apply truthy_Some in Hnz. congruence.
  - split; [intros _ | reflexivity]. intros (l & [=] & _).
Qed.

Lemma all_issues_nil now b c s :
  all_issues now b c s = []
  <-> ~ exceeds_total b c s /\ ~ exceeds_daily now b c s
      /\ ~ exceeds_hourly now b c s.
Proof.
  unfold all_issues, exceeds_daily, exceeds_hourly.
  rewrite <- total_issue_nil, <- (sub_issue_nil daily_budget_exceeded),
    <- (sub_issue_nil hourly_budget_exceeded).
  split.
  - intros H. apply List.app_eq_nil in H as [H1 H2].
    apply List.app_eq_nil in H2 as [H2 H3]. repeat split; assumption.
  - intros (-> & -> & ->). reflexivity.
Qed.

(** C10.  The utilization is computed as [total_spending / total_budget]
    without a guard: the call raises [ZeroDivisionError] exactly when the
    budget's [total_budget] is zero, and otherwise returns a result whose
    utilization is that quotient. *)
Theorem check_budget_raises_iff_zero_total now b c s :
  (fst (check_budget_constraints now b c s) = Raised ZeroDivisionError
   <-> total_budget b == 0)
  /\ (is_returned (fst (check_budget_constraints now b c s)) = true
      <-> ~ total_budget b == 0)
  /\ (forall r, fst (check_budget_constraints now b c s) = Returned r ->
       utilization r = total_spending s / total_budget b).
Proof.
  rewrite check_unfold. cbn [fst].
  destruct (Qeq_bool (total_budget b) 0) eqn:Ez.
  - apply Qeq_bool_eq in Ez. repeat split; try tauto; try discriminate.
  - apply Qeq_bool_false in Ez. repeat split; try tauto; try discriminate.
    intros r [= <-]. reflexivity.
Qed.


Lemma after_check_amounts now b s :
  total_spending (after_check now b s) = total_spending s
  /\ budget_alerts (after_check now b s) = budget_alerts s
  /\ (forall k, dict_get0 k (daily_spending (after_check now b s))
                = dict_get0 k (daily_spending s))
  /\ (forall k, dict_get0 k (hourly_spending (after_check now b s))
                = dict_get0 k (hourly_spending s)).
Proof.
  unfold after_check. cbn.
  repeat split; intros k.
  - destruct (truthy (daily_budget b));
      [apply defaultdict_getitem_keeps | reflexivity].
  - destruct (truthy (hourly_budget b));
      [apply defaultdict_getitem_keeps | reflexivity].
Qed.

Lemma after_check_again now b s :
  after_check now b (after_check now b s) = after_check now b s.
Proof.
  unfold after_check. cbn.
  destruct (truthy (daily_budget b)), (truthy (hourly_budget b));
    rewrite ?defaultdict_getitem_again; reflexivity.
Qed.

Lemma all_issues_after_check now b c s :
  all_issues now b c (after_check now b s) = all_issues now b c s.
Proof.
  destruct (after_check_amounts now b s) as (Ht & _ & Hd & Hh).
  unfold all_issues, total_issue. now rewrite Ht, Hd, Hh.
Qed.

(** C7, as the code has it.  A second check at the same clock reading,
    with the same budget and additional cost, returns what the first one
    returned and leaves the tracker as the first one left it.  A check
    changes no amount: the all-time total, the alerts and the amount
    recorded for every day and every hour (a missing entry reads as zero)
    are what they were; all a check can do to the tracker is to create
    the entry of the current day (hour), with amount zero, when it reads a
    daily (hourly) ceiling.  [track_spending] is what moves the amounts, by
    the amount tracked. *)
Theorem check_is_idempotent_and_keeps_amounts now b c s :
  let first := check_budget_constraints now b c s in
  let second := check_budget_constraints now b c (snd first) in
  fst second = fst first
  /\ snd second = snd first
  /\ snd first = after_check now b s
  /\ total_spending (snd first) = total_spending s
  /\ budget_alerts (snd first) = budget_alerts s
  /\ (forall k, dict_get0 k (daily_spending (snd first))
                = dict_get0 k (daily_spending s))
  /\ (forall k, dict_get0 k (hourly_spending (snd first))
                = dict_get0 k (hourly_spending s))
  /\ (forall amount t,
        let s' := track_spending amount t s in
        total_spending s' = total_spending s + amount
        /\ dict_get0 (strftime_day t) (daily_spending s')
           = dict_get0 (strftime_day t) (daily_spending s) + amount
        /\ dict_get0 (strftime_hour t) (hourly_spending s')
           = dict_get0 (strftime_hour t) (hourly_spending s) + amount).
Proof.
  cbv zeta. rewrite !check_unfold. cbn [fst snd].
  destruct (after_check_amounts now b s) as (Ht & Ha & Hd & Hh).
  rewrite all_issues_after_check, after_check_again, Ht.
  repeat split; try assumption; unfold track_spending;
    pose proof (defaultdict_getitem_value (strftime_day t) (daily_spending s));
    pose proof (defaultdict_getitem_value (strftime_hour t) (hourly_spending s));
    destruct (defaultdict_getitem (strftime_day t) (daily_spending s)) as [d m];
    destruct (defaultdict_getitem (strftime_hour t) (hourly_spending s)) as [h m'];
    cbn [daily_spending hourly_spending total_spending fst snd] in *;
    subst d h; [reflexivity | |];
    unfold dict_get0 at 1; rewrite lookup_insert_eq; reflexivity.
Qed.

(** C7 as stated fails on the tracker's dictionaries: the first check of
    a day with a daily ceiling creates that day's entry. *)
Lemma check_creates_todays_entry :
  daily_spending init !! strftime_day sample_now = None
  /\ daily_spending
       (snd (check_budget_constraints sample_now (budget_of 10 (Some 5) None)
               0 init))
     !! strftime_day sample_now = Some 0
  /\ snd (check_budget_constraints sample_now (budget_of 10 (Some 5) None)
            0 init) <> init.
Proof.
  split; [reflexivity |]. split; [reflexivity |].
  intros H.
  apply (f_equal (fun t => daily_spending t !! strftime_day sample_now)) in H.
  discriminate H.
Qed.

End BudgetFacts.

(** ** The teacher/student allocation *)
Module AllocationFacts.
Import CostOptimizer BudgetSpec AllocationSpec.

Lemma estimate_returns ps req key e :
  estimate_generation_cost ps req key = Returned e ->
  exists p, lookup_profile key ps = Some p
    /\ quality_expectation e = quality_rating p.
Proof.
  unfold estimate_generation_cost.
  destruct (lookup_profile key ps) as [p |]; [| discriminate].
  destruct (Qeq_bool (speed_rating p) 0); [discriminate |].
  intros [= <-]. eauto.
Qed.

(** A candidate that survives one iteration of the scan respects the budget
    and the threshold. *)
Lemma evaluate_ratio_sound ps req budget r a score :
  evaluate_ratio ps req budget r = Returned (Some (a, score)) ->
  respects req budget a /\ teacher_ratio a = r
  /\ quality_is_weighted_average ps a.
Proof.
  unfold evaluate_ratio, respects, quality_is_weighted_average.
  destruct (_select_best_teacher_model ps) as [tm | ]; [| discriminate].
  destruct (_select_best_student_model ps) as [sm | ]; [| discriminate].
  destruct (estimate_generation_cost ps _ tm) as [te | ] eqn:Et; [| discriminate].
  destruct (estimate_generation_cost ps _ sm) as [se | ] eqn:Es; [| discriminate].
  destruct (Qgt_bool _ (total_budget budget)) eqn:Ecost; [discriminate |].
  destruct (Qlt_bool _ _) eqn:Equal; [discriminate |].
  intros [= <- <-]. cbn.
  apply Qgt_bool_false in Ecost. apply Qlt_bool_false in Equal.
  apply estimate_returns in Et as (pt & Hpt & Hqt).
  apply estimate_returns in Es as (pst & Hpst & Hqs).
  rewrite Hqt, Hqs in *.
  repeat split; try assumption. eauto.
Qed.

(** The loop keeps any property that every surviving candidate has. *)
Lemma scan_ratios_invariant (P : allocation -> Prop) ps req budget ratios :
  (forall r a score, In r ratios ->
     evaluate_ratio ps req budget r = Returned (Some (a, score)) -> P a) ->
  forall best best_score a,
    (forall a0, best = Some a0 -> P a0) ->
    scan_ratios ps req budget ratios best best_score = Returned (Some a) ->
    P a.
Proof.
  induction ratios as [| r rest IH]; intros Hstep best best_score a Hbest; cbn.
  - intros [= ->]. now apply Hbest.
  - destruct (evaluate_ratio ps req budget r) as [[[a1 score] |] |] eqn:E;
      [| | discriminate].
    + destruct (np_gt score best_score).
      * apply IH; [intros; eapply Hstep; eauto; now right |].
        intros a0 [= <-]. eapply Hstep; [now left | exact E].
      * apply IH; [intros; eapply Hstep; eauto; now right | exact Hbest].
    + apply IH; [intros; eapply Hstep; eauto; now right | exact Hbest].
Qed.

(** Every allocation the optimizer returns costs no more than the total
    budget, reaches the request's quality threshold with the ratio-weighted
    average of the two quality ratings, and uses one of the scanned
    ratios. *)
Lemma allocation_respects_budget_and_quality ps req budget a :
  optimize_teacher_student_allocation ps req budget = Returned (Allocated a) ->
  respects req budget a
  /\ In (teacher_ratio a) teacher_ratios
  /\ quality_is_weighted_average ps a.
Proof.
  unfold optimize_teacher_student_allocation.
  destruct (scan_ratios _ _ _ _ _ _) as [[a' |] |] eqn:E; try discriminate.
  intros [= ->].
  eapply (scan_ratios_invariant
            (fun a => respects req budget a
                      /\ In (teacher_ratio a) teacher_ratios
                      /\ quality_is_weighted_average ps a)); [| | exact E].
  - intros r a0 score Hin He.
    apply evaluate_ratio_sound in He as (H1 & <- & H3). auto.
  - discriminate.
Qed.

(** The scan reports a failure, as a value, when every ratio is rejected. *)
Lemma scan_ratios_all_rejected ps req budget ratios best best_score :
  Forall (fun r => evaluate_ratio ps req budget r = Returned None) ratios ->
  scan_ratios ps req budget ratios best best_score = Returned best.
Proof.
  induction 1 as [| r rest Hr _ IH]; cbn; [reflexivity |].
  now rewrite Hr.
Qed.

Lemma no_viable_ratio_is_reported ps req budget :
  Forall (fun r => evaluate_ratio ps req budget r = Returned None)
    teacher_ratios ->
  optimize_teacher_student_allocation ps req budget
  = Returned (AllocationError "No viable allocation found").
Proof.
  intros H. unfold optimize_teacher_student_allocation.
  now rewrite scan_ratios_all_rejected.
Qed.

(** The selected models are registered. *)
Lemma lookup_profile_in k (ps : profiles) :
  In k (map fst ps) ->
  exists p, lookup_profile k ps = Some p /\ In (k, p) ps.
Proof.
  induction ps as [| [k' p'] rest IH]; cbn; [tauto |].
  intros Hin. destruct (String.eqb k' k) eqn:E.
  - apply String.eqb_eq in E as ->. eauto.
  - destruct Hin as [-> | Hin]; [now rewrite String.eqb_refl in E |].
    destruct (IH Hin) as (p & Hp & Hq). eauto.
Qed.

Lemma max_by_in f best ks : In (max_by f best ks) (best :: ks).
Proof.
  revert best. induction ks as [| k rest IH]; intros best; cbn; [auto |].
  destruct (IH (if Qgt_bool (f k) (f best) then k else best)) as [H | H];
    [| auto].
  rewrite <- H. destruct (Qgt_bool (f k) (f best)); auto.
Qed.

Lemma min_by_in f best ks : In (min_by f best ks) (best :: ks).
Proof.
  revert best. induction ks as [| k rest IH]; intros best; cbn; [auto |].
  destruct (IH (if Qlt_bool (f k) (f best) then k else best)) as [H | H];
    [| auto].
  rewrite <- H. destruct (Qlt_bool (f k) (f best)); auto.
Qed.

Lemma select_teacher_registered (ps : profiles) :
  ps <> [] ->
  exists k, _select_best_teacher_model ps = Returned k /\ In k (map fst ps).
Proof.
  intros Hne. unfold _select_best_teacher_model.
  destruct (List.filter _ (map fst ps)) as [| k rest] eqn:E.
  - destruct ps as [| [k p] ps']; [congruence |]. cbn. eauto.
  - eexists. split; [reflexivity |].
    pose proof (max_by_in (profile_field quality_rating ps) k rest) as Hin.
    rewrite <- E in Hin. now apply List.filter_In in Hin.
Qed.

Lemma select_student_registered (ps : profiles) :
  ps <> [] ->
  exists k, _select_best_student_model ps = Returned k /\ In k (map fst ps).
Proof.
  intros Hne. unfold _select_best_student_model.
  destruct (List.filter _ (map fst ps)) as [| k rest] eqn:E.
  - destruct ps as [| [k p] ps']; [congruence |]. cbn. eauto.
  - eexists. split; [reflexivity |].
    pose proof (min_by_in (profile_field input_cost_per_token ps) k rest) as Hin.
    rewrite <- E in Hin. now apply List.filter_In in Hin.
Qed.

Lemma estimate_total (ps : profiles) req k :
  In k (map fst ps) ->
  Forall (fun kp => ~ speed_rating (snd kp) == 0) ps ->
  is_returned (estimate_generation_cost ps req k) = true.
Proof.
  intros Hin Hspeed. unfold estimate_generation_cost.
  destruct (lookup_profile_in k ps Hin) as (p & -> & Hp).
  rewrite List.Forall_forall in Hspeed. specialize (Hspeed _ Hp). cbn in Hspeed.
  apply Qeq_bool_false in Hspeed. now rewrite Hspeed.
Qed.

(** With at least one registered profile and no zero speed rating the
    optimizer raises nothing: it returns an allocation or the failure
    value. *)
Lemma evaluate_ratio_total (ps : profiles) req budget r :
  ps <> [] ->
  Forall (fun kp => ~ speed_rating (snd kp) == 0) ps ->
  is_returned (evaluate_ratio ps req budget r) = true.
Proof.
  intros Hne Hspeed. unfold evaluate_ratio.
  destruct (select_teacher_registered ps Hne) as (tm & -> & Htm).
  destruct (select_student_registered ps Hne) as (sm & -> & Hsm).
  pose proof (estimate_total ps
    (with_quantity req
       (Qtruncate (inject_Z (default 100%Z (quantity req)) * r))) tm Htm Hspeed).
  destruct (estimate_generation_cost ps _ tm); [| discriminate].
  pose proof (estimate_total ps
    (with_quantity req
       (default 100%Z (quantity req)
        - Qtruncate (inject_Z (default 100%Z (quantity req)) * r))) sm Hsm Hspeed).
  destruct (estimate_generation_cost ps _ sm); [| discriminate].
  destruct (Qgt_bool _ _); [reflexivity |].
  destruct (Qlt_bool _ _); reflexivity.
Qed.

Lemma scan_ratios_total (ps : profiles) req budget ratios best best_score :
  ps <> [] ->
  Forall (fun kp => ~ speed_rating (snd kp) == 0) ps ->
  is_returned (scan_ratios ps req budget ratios best best_score) = true.
Proof.
  intros Hne Hspeed. revert best best_score.
  induction ratios as [| r rest IH]; intros best best_score; cbn;
    [reflexivity |].
  pose proof (evaluate_ratio_total ps req budget r Hne Hspeed).
  destruct (evaluate_ratio ps req budget r) as [[[a score] |] |];
    [| | discriminate]; [destruct (np_gt score best_score) |]; apply IH.
Qed.

Lemma optimizer_total (ps : profiles) req budget :
  ps <> [] ->
  Forall (fun kp => ~ speed_rating (snd kp) == 0) ps ->
  is_returned (optimize_teacher_student_allocation ps req budget) = true.
Proof.
  intros Hne Hspeed. unfold optimize_teacher_student_allocation.
  pose proof (scan_ratios_total ps req budget teacher_ratios None (Finite (-1))
                Hne Hspeed).
  destruct (scan_ratios _ _ _ _ _ _) as [[a |] |]; [| | discriminate];
    reflexivity.
Qed.

(** Without a registered profile the selection of the teacher model
    subscripts an empty list. *)
Example empty_registry_raises req budget :
  optimize_teacher_student_allocation [] req budget = Raised IndexError.
Proof. reflexivity. Qed.

(** C3, at an input where the last candidate of the stated scan matters.
    The scan built by [np.arange(0.05, 0.5, 0.05)] stops at 45%: its nine
    ratios are 5%, 10%, ..., 45%.  With the fixture's two profiles, a budget
    of 10 and a quality threshold of 0.87, a teacher share of 50% respects
    the budget and reaches the threshold (expected quality 0.875), every
    scanned ratio falls short of the threshold, and the optimizer reports
    that no allocation is viable. *)
Theorem half_teacher_share_is_never_tried :
  let req := request_with_threshold (87 # 100) in
  let budget := budget_of 10 None None in
  map Qred teacher_ratios
  = [1 # 20; 1 # 10; 3 # 20; 1 # 5; 1 # 4; 3 # 10; 7 # 20; 2 # 5; 9 # 20]
  /\ (exists a score,
        evaluate_ratio fixture_profiles req budget (1 # 2)
        = Returned (Some (a, score))
        /\ respects req budget a
        /\ teacher_quantity a = 50%Z /\ student_quantity a = 50%Z
        /\ expected_quality a == 875 # 1000)
  /\ Forall (fun r => evaluate_ratio fixture_profiles req budget r
                      = Returned None) teacher_ratios
  /\ optimize_teacher_student_allocation fixture_profiles req budget
     = Returned (AllocationError "No viable allocation found").
Proof.
  cbv zeta. split; [reflexivity |]. split.
  - do 2 eexists. split; [reflexivity |].
    split; [split; discriminate |]. repeat split.
  - split.
    + repeat constructor.
    + reflexivity.
Qed.

End AllocationFacts.

(** ** The rate limiter *)
Module RateLimiterFacts.
Import Providers RateLimiterSpec.

Lemma prune_keeps_recent cutoff times :
  Forall (fun t => cutoff < t) times -> prune cutoff times = times.
Proof.
  unfold prune.
  induction 1 as [| t rest Ht _ IH]; cbn; [reflexivity |].
  apply Qgt_bool_iff in Ht. now rewrite Ht, IH.
Qed.

Lemma prune_recent cutoff times : Forall (fun t => cutoff < t) (prune cutoff times).
Proof.
  unfold prune.
  induction times as [| t rest IH]; cbn; [constructor |].
  destruct (Qgt_bool t cutoff) eqn:E; [| exact IH].
  constructor; [now apply Qgt_bool_iff | exact IH].
Qed.

Lemma prune_drops_old cutoff times t :
  t <= cutoff -> ~ In t (prune cutoff times).
Proof.
  intros Hold Hin.
  pose proof (prune_recent cutoff times) as Hall.
  rewrite List.Forall_forall in Hall. specialize (Hall t Hin).
  clear - Hold Hall. lra.
Qed.

(** What one call does.  The window is what is left of the recorded
    timestamps after those older than 60 seconds are discarded. *)
Lemma wait_if_needed_spec lag clock self :
  (1 <= requests_per_minute self)%Z ->
  exists w,
    wait_if_needed lag clock self = Returned w
    /\ requests_per_minute (limiter_after w) = requests_per_minute self
    /\ ((requests_per_minute self <= Z.of_nat (length (window clock self)))%Z
        <-> slept w <> None)
    /\ (slept w = None ->
        clock_after w = clock
        /\ request_times (limiter_after w) = window clock self ++ [clock])
    /\ (forall d, slept w = Some d ->
        exists oldest rest,
          window clock self = oldest :: rest
          /\ 0 < d /\ clock + d == oldest + 60
          /\ clock_after w = clock + d + lag
          /\ request_times (limiter_after w)
             = prune (clock_after w - 60) (window clock self) ++ [clock_after w]
          /\ (0 <= lag -> ~ In oldest (prune (clock_after w - 60)
                                         (window clock self)))).
Proof.
  intros HN. unfold wait_if_needed, window.
  pose proof (prune_recent (clock - 60) (request_times self)) as Hrecent.
  destruct (Z.leb_spec (requests_per_minute self)
              (Z.of_nat (length (prune (clock - 60) (request_times self)))))
    as [Hfull | Hroom].
  - destruct (prune (clock - 60) (request_times self)) as [| oldest rest] eqn:E.
    + cbn in Hfull. lia.
    + inversion Hrecent as [| ? ? Hold _]; subst.
      assert (Hw : 0 < 60 - (clock - oldest)) by (clear - Hold; lra).
      assert (Hout : clock + (60 - (clock - oldest)) == oldest + 60)
        by (clear; lra).
      assert (Haged : 0 <= lag ->
                oldest <= clock + (60 - (clock - oldest)) + lag - 60)
        by (intros Hlag; clear - Hlag; lra).
      apply Qgt_bool_iff in Hw. rewrite Hw. apply Qgt_bool_iff in Hw.
      eexists. split; [reflexivity |].
      cbn [slept clock_after limiter_after requests_per_minute request_times].
      split; [reflexivity |].
      split; [split; [discriminate | intros _; exact Hfull] |].
      split; [discriminate |].
      intros d [= <-]. exists oldest, rest.
      repeat split; try reflexivity; try assumption.
      intros Hlag. apply prune_drops_old. auto.
  - eexists. split; [reflexivity |].
    cbn [slept clock_after limiter_after requests_per_minute request_times].
    split; [reflexivity |]. split; [split; [lia | congruence] |].
    split; [auto | discriminate].
Qed.

(** A call that finds room in a window of recent timestamps goes through
    at once. *)
Lemma wait_with_room lag now N ts :
  (Z.of_nat (length ts) < N)%Z ->
  Forall (fun t => now - 60 < t) ts ->
  wait_if_needed lag now {| requests_per_minute := N; request_times := ts |}
  = Returned
      {| slept := None; clock_after := now;
         limiter_after :=
           {| requests_per_minute := N; request_times := ts ++ [now] |} |}.
Proof.
  intros Hroom Hrecent. unfold wait_if_needed. cbn [request_times requests_per_minute].
  rewrite (prune_keeps_recent _ _ Hrecent).
  destruct (Z.leb_spec N (Z.of_nat (length ts))); [lia | reflexivity].
Qed.

(** A call that finds the window full is suspended. *)
Lemma wait_when_full lag now N ts :
  (1 <= N <= Z.of_nat (length ts))%Z ->
  Forall (fun t => now - 60 < t) ts ->
  exists w d,
    wait_if_needed lag now {| requests_per_minute := N; request_times := ts |}
    = Returned w
    /\ slept w = Some d /\ 0 < d.
Proof.
  intros HN Hrecent. unfold wait_if_needed. cbn [request_times requests_per_minute].
  rewrite (prune_keeps_recent _ _ Hrecent).
  destruct (Z.leb_spec N (Z.of_nat (length ts))); [| lia].
  destruct Hrecent as [| oldest rest Hold _]; [cbn in *; lia |].
  assert (Hw : 0 < 60 - (now - oldest)) by (clear - Hold; lra).
  apply Qgt_bool_iff in Hw. rewrite Hw. apply Qgt_bool_iff in Hw.
  do 2 eexists. split; [reflexivity |]. split; [reflexivity | exact Hw].
Qed.

(** The burst, from any limiter whose recorded timestamps all stay inside
    the window until the last call: only the call that finds [N]
    timestamps is suspended. *)
Lemma burst_from N calls : forall clock ts,
  (1 <= N)%Z ->
  calls <> [] ->
  (Z.of_nat (length ts) + Z.of_nat (length calls) = N + 1)%Z ->
  rapid_succession calls ->
  Forall (fun t => clock + Qsum (map fst calls) - 60 < t) ts ->
  exists d clock' self',
    issue_calls calls clock {| requests_per_minute := N; request_times := ts |}
    = Returned (repeat None (length calls - 1) ++ [Some d], clock', self')
    /\ 0 < d.
Proof.
  induction calls as [| [gap lag] rest IH]; intros clock ts HN Hne Hlen
    [Hgaps Hsum] Hts; [congruence |].
  apply List.Forall_cons_iff in Hgaps as [Hgap Hgaps].
  change (0 <= gap) in Hgap.
  change (Qsum (map fst rest) < 60) in Hsum.
  change (Forall (fun t => clock + (gap + Qsum (map fst rest)) - 60 < t) ts)
    in Hts.
  assert (0 <= Qsum (map fst rest)) as Hpos.
  { apply Qsum_nonneg. clear - Hgaps. induction Hgaps; cbn; constructor; auto. }
  assert (Hrecent : Forall (fun t => clock + gap - 60 < t) ts).
  { eapply List.Forall_impl; [| exact Hts]. intros t Ht.
    cbv beta in Ht. clear - Ht Hpos. lra. }
  cbn [issue_calls].
  destruct rest as [| next rest'].
  - destruct (wait_when_full lag (clock + gap) N ts) as (w & d & -> & Hs & Hd);
      [cbn in Hlen; lia | exact Hrecent |].
    cbn. rewrite Hs. eauto.
  - rewrite wait_with_room; [| cbn in Hlen; lia | exact Hrecent].
    cbn [clock_after limiter_after slept].
    apply List.Forall_cons_iff in Hgaps as Hnext. destruct Hnext as [Hnext _].
    change (Qsum (map fst (next :: rest')))
      with (fst next + Qsum (map fst rest')) in *.
    destruct (IH (clock + gap) (ts ++ [clock + gap])) as (d & c' & s' & -> & Hd);
      [exact HN | discriminate | rewrite length_app; cbn in *; lia | |
       | ].
    + split; [exact Hgaps |].
      change (Qsum (map fst rest') < 60). clear - Hnext Hsum Hpos Hgaps.
      assert (0 <= Qsum (map fst rest')).
      { apply Qsum_nonneg. apply List.Forall_cons_iff in Hgaps as [_ Hg].
        clear - Hg. induction Hg; cbn; constructor; auto. }
      lra.
    + apply List.Forall_app. split.
      * eapply List.Forall_impl; [| exact Hts]. intros t Ht.
        cbv beta in Ht. clear - Ht. lra.
      * constructor; [| constructor]. clear - Hsum. lra.
    + cbn [length]. replace (S (S (length rest')) - 1)%nat
        with (S (S (length rest') - 1)) by lia.
      cbn [repeat app]. eauto.
Qed.

(** A limit of zero is outside the limiter's domain: the first call finds
    an empty window that already holds the limit, and reading its oldest
    timestamp raises. *)
Example zero_limit_raises lag clock :
  wait_if_needed lag clock (init 0) = Raised IndexError.
Proof. reflexivity. Qed.

(** C8.  For a limit [N >= 1] and a single caller.  Each call first
    discards the timestamps older than 60 seconds; it is suspended exactly
    when the window then holds at least [N] timestamps, it sleeps until
    the oldest of them is 60 seconds old (so that a sleep that is not cut
    short discards it), and the last timestamp it records is its own.
    Hence [N + 1] calls issued in rapid succession to a fresh limiter see
    exactly one suspension, at the last call. *)
Theorem rate_limiter_sliding_window (N : Z) :
  (1 <= N)%Z ->
  (forall lag clock self,
     requests_per_minute self = N ->
     exists w,
       wait_if_needed lag clock self = Returned w
       /\ ((N <= Z.of_nat (length (window clock self)))%Z <-> slept w <> None)
       /\ (slept w = None ->
           clock_after w = clock
           /\ request_times (limiter_after w) = window clock self ++ [clock])
       /\ (forall d, slept w = Some d ->
           exists oldest rest,
             window clock self = oldest :: rest
             /\ 0 < d /\ clock + d == oldest + 60
             /\ clock_after w = clock + d + lag
             /\ request_times (limiter_after w)
                = prune (clock_after w - 60) (window clock self)
                  ++ [clock_after w]
             /\ (0 <= lag ->
                 ~ In oldest (prune (clock_after w - 60) (window clock self)))))
  /\ (forall calls clock,
       length calls = S (Z.to_nat N) ->
       rapid_succession calls ->
       exists d clock' self',
         issue_calls calls clock (init N)
         = Returned (repeat None (Z.to_nat N) ++ [Some d], clock', self')
         /\ 0 < d).
Proof.
  intros HN. split.
  - intros lag clock self <-.
    destruct (wait_if_needed_spec lag clock self HN)
      as (w & Hw & _ & Hiff & Hnone & Hsome).
    exists w. auto.
  - intros calls clock Hlen Hrapid.
    destruct (burst_from N calls clock [] HN) as (d & c' & s' & Hrun & Hd).
    + intros ->. discriminate Hlen.
    + cbn. lia.
    + exact Hrapid.
    + constructor.
    + rewrite Hlen in Hrun. cbn [Nat.sub] in Hrun.
      rewrite Nat.sub_0_r in Hrun. eauto.
Qed.

Lemma rate_limiter_sliding_window_witness :
  (1 <= 2)%Z
  /\ rapid_succession [(0, 0); (1, 0); (1, 0)]
  /\ exists d clock' self',
       issue_calls [(0, 0); (1, 0); (1, 0)] 100 (init 2)
       = Returned ([None; None; Some d], clock', self')
       /\ 0 < d.
Proof.
  assert (Hrapid : rapid_succession [(0, 0); (1, 0); (1, 0)]).
  { split; [| reflexivity].
    repeat (constructor; [intros H; discriminate H |]). constructor. }
  split; [lia |]. split; [exact Hrapid |].
  exact (proj2 (rate_limiter_sliding_window 2 ltac:(lia))
           [(0, 0); (1, 0); (1, 0)] 100 eq_refl Hrapid).
Defined.

End RateLimiterFacts.

(** ** The pipeline *)
Module CoreFacts.
Import Core CoreSpec.

Lemma range_list_unit_length n : length (range_list 0 n 1) = Z.to_nat n.
Proof.
  unfold range_list. change (0 <? 1)%Z with true. cbv iota.
  rewrite length_map, length_seq. f_equal.
  rewrite Z.div_1_r. lia.
Qed.

Section Seeds.
Context {W : Type} (clock : W -> Q) (request : GenerationRequest).

Let tallied_clock : W * tally -> Q := fun wt => clock (fst wt).

(** Tallying the calls does not change what the seed loop computes; every
    iteration makes one call, and every call that returns adds one
    example. *)
Lemma seed_loop_observed iterations : forall examples self w t,
  exists added self' w' good,
    seed_loop clock request iterations examples self w
    = (examples ++ added, self', w')
    /\ seed_loop tallied_clock request iterations examples (observed self) (w, t)
       = (examples ++ added, observed self',
          (w', {| calls := calls t + length iterations;
                  successes := successes t + good |}))
    /\ length added = good
    /\ (good <= length iterations)%nat
    /\ examples_cache self' = examples_cache self ++ added.
Proof.
  induction iterations as [| i rest IH]; intros examples self w t.
  - exists [], self, w, 0%nat. cbn.
    rewrite !app_nil_r, !Nat.add_0_r. destruct t. auto with arith.
  - cbn [seed_loop observed t_provider counting generate].
    destruct (generate (t_provider self) (_create_seed_prompt request i)
                (8 # 10) 1000 w) as [[response | e] w1].
    + match goal with
      | |- context [seed_loop clock request rest (examples ++ [?ex]) ?s w1] =>
          destruct (IH (examples ++ [ex]) s w1
                      {| calls := S (calls t); successes := S (successes t) |})
            as (added & self' & w' & good & H1 & H2 & H3 & H4 & H5);
          exists (ex :: added), self', w', (S good)
      end.
      cbn [t_model_name t_provider examples_cache calls successes] in *.
      rewrite <- !app_assoc in *. cbn [app] in *.
      rewrite H1. unfold tallied_clock in *. cbn [fst] in *.
      unfold observed in *. cbn [t_model_name t_provider examples_cache] in *.
      rewrite H2. cbn [length].
      repeat split; try lia; try assumption.
      rewrite !Nat.add_succ_r. reflexivity.
    + destruct (IH examples self w1
                  {| calls := S (calls t); successes := successes t |})
        as (added & self' & w' & good & H1 & H2 & H3 & H4 & H5).
      exists added, self', w', good.
      cbn [calls successes] in *.
      rewrite H1, H2. cbn [length].
      repeat split; try lia; try assumption.
      rewrite !Nat.add_succ_r. reflexivity.
Qed.

Lemma seed_calls_eq (teacher : TeacherModel W) (w : W) :
  seed_calls clock request teacher w
  = Z.to_nat (Z.min (quantity request / 10) 50)
  /\ length (fst (fst (generate_seed_data clock request teacher w)))
     = seed_successes clock request teacher w
  /\ (seed_successes clock request teacher w
      <= seed_calls clock request teacher w)%nat.
Proof.
  unfold seed_calls, seed_successes, generate_seed_data.
  destruct (seed_loop_observed
              (range_list 0 (Z.min (quantity request / 10) 50) 1) [] teacher w
              {| calls := 0; successes := 0 |})
    as (added & self' & w' & good & H1 & H2 & H3 & H4 & H5).
  unfold tallied_clock in H2. rewrite H1, H2.
  cbn [fst snd calls successes app]. rewrite range_list_unit_length in *.
  repeat split; lia.
Qed.

End Seeds.

(** C4.  For a request with a positive quantity, [generate_seed_data]
    calls the teacher exactly [min(quantity // 10, 50)] times and returns
    one example per call that did not fail, so at most that many; for the
    quantities 1, 9, 10, 11, 500 and 10000 that is 0, 0, 1, 1, 50 and 50
    calls. *)
Theorem seed_data_call_count {W : Type} (clock : W -> Q)
    (request : GenerationRequest) (teacher : TeacherModel W) (w : W) :
  (0 < quantity request)%Z ->
  Z.of_nat (seed_calls clock request teacher w)
  = Z.min (quantity request / 10) 50
  /\ length (fst (fst (generate_seed_data clock request teacher w)))
     = seed_successes clock request teacher w
  /\ (seed_successes clock request teacher w
      <= seed_calls clock request teacher w)%nat
  /\ map (fun q => seed_calls clock (for_quantity request q) teacher w)
       [1; 9; 10; 11; 500; 10000]%Z
     = [0; 0; 1; 1; 50; 50]%nat.
Proof.
  intros Hq.
  destruct (seed_calls_eq clock request teacher w) as (Hcalls & Hlen & Hle).
  split; [| split; [exact Hlen | split; [exact Hle |]]].
  - rewrite Hcalls. apply Z2Nat.id.
    apply Z.min_glb; [apply Z.div_pos |]; lia.
  - cbn [map].
    repeat match goal with
    | |- context [seed_calls clock (for_quantity request ?q) teacher w] =>
        rewrite (proj1 (seed_calls_eq clock (for_quantity request q) teacher w))
    end.
    reflexivity.
Qed.

Lemma seed_data_call_count_witness :
  (0 < quantity (sample_request 25))%Z
  /\ Z.of_nat (seed_calls sample_clock (sample_request 25)
                 (sample_teacher (answering "ok")) 0%nat) = 2%Z.
Proof.
  split; [reflexivity |].
  exact (proj1 (seed_data_call_count sample_clock (sample_request 25)
                  (sample_teacher (answering "ok")) 0%nat eq_refl)).
Defined.

(** *** The validator's sample *)

Lemma Qtruncate_nonneg x : 0 <= x -> Qtruncate x = Qfloor x.
Proof.
  intros H. unfold Qtruncate. apply Qle_bool_iff in H. now rewrite H.
Qed.

Lemma sample_size_bounds (n : nat) ratio :
  (1 <= n)%nat -> 0 < ratio -> ratio <= 1 ->
  sample_size_of n ratio
  = Z.max 1 (Qfloor (inject_Z (Z.of_nat n) * ratio))
  /\ (1 <= sample_size_of n ratio <= Z.of_nat n)%Z.
Proof.
  intros Hn Hpos Hle. unfold sample_size_of.
  assert (Hn0 : 0 <= inject_Z (Z.of_nat n)).
  { change 0 with (inject_Z 0). rewrite <- Zle_Qle. lia. }
  assert (H0 : 0 <= inject_Z (Z.of_nat n) * ratio).
  { apply Qmult_le_0_compat; [exact Hn0 | now apply Qlt_le_weak]. }
  rewrite (Qtruncate_nonneg _ H0). split; [reflexivity |].
  assert (Hup : (Qfloor (inject_Z (Z.of_nat n) * ratio) <= Z.of_nat n)%Z).
  { rewrite <- (Qfloor_Z (Z.of_nat n)) at 2. apply Qfloor_resp_le.
    rewrite <- (Qmult_1_r (inject_Z (Z.of_nat n))) at 2.
    apply Qmult_le_compat_nonneg; split;
      [exact Hn0 | apply Qle_refl | now apply Qlt_le_weak | exact Hle]. }
  lia.
Qed.

(** The sampled indices are the first [size] multiples of the stride
    [n // size]. *)
Lemma sample_indices_spaced (n : nat) ratio :
  (1 <= n)%nat -> 0 < ratio -> ratio <= 1 ->
  let size := sample_size_of n ratio in
  sample_indices n ratio
  = Returned (map (fun i => (Z.of_nat i * (Z.of_nat n / size))%Z)
                (seq 0 (Z.to_nat size))).
Proof.
  intros Hn Hpos Hle size.
  destruct (sample_size_bounds n ratio Hn Hpos Hle) as [_ Hsize].
  fold size in Hsize. unfold sample_indices. fold size.
  set (stride := (Z.of_nat n / size)%Z).
  assert (Hstride : (1 <= stride)%Z).
  { apply Z.div_le_lower_bound; lia. }
  assert (Hfit : (size * stride <= Z.of_nat n)%Z).
  { apply Z.mul_div_le. lia. }
  unfold py_range, range_list.
  destruct (Z.eqb_spec stride 0); [lia |].
  destruct (Z.ltb_spec 0 stride); [| lia].
  rewrite firstn_map, take_seq. f_equal.
  rewrite Nat.min_l.
  - apply map_ext. intros i. lia.
  - apply Z2Nat.inj_le; [lia | |].
    + apply Z.div_pos; lia.
    + apply Z.div_le_lower_bound; lia.
Qed.

(** Reading the items at indices inside the list never raises. *)
Lemma pick_items_in_range data indices :
  Forall (fun i => (0 <= i < Z.of_nat (length data))%Z) indices ->
  exists sampled,
    pick_items data indices = Returned sampled
    /\ Forall2 (fun i item => nth_error data (Z.to_nat i) = Some item)
         indices sampled.
Proof.
  induction 1 as [| i rest Hi _ (sampled & IH & Hall)]; cbn [pick_items].
  - exists []. split; [reflexivity | constructor].
  - unfold getitem. destruct (Z.ltb_spec i 0); [lia |].
    destruct (Z.ltb_spec i 0); [lia |].
    destruct (nth_error data (Z.to_nat i)) as [item |] eqn:E.
    + rewrite IH. exists (item :: sampled).
      split; [reflexivity | now constructor].
    + apply nth_error_None in E. lia.
Qed.

Section Scores.
Context {W : Type} (teacher : TeacherModel W).

(** Every single validation scores inside [[0, 1]], whatever the teacher
    answers. *)
Lemma validate_single_in_range item (w : W) :
  0 <= v_quality_score (fst (_validate_single teacher item w)) <= 1.
Proof.
  unfold _validate_single.
  destruct (generate _ _ _ _ w) as [[response | e] w'].
  - destruct (if isdigit _ then _ else _) as [q | e]; cbn.
    + split; [apply Q.le_max_l |].
      apply Q.max_lub; [discriminate | apply Q.le_min_l].
    + split; discriminate.
  - cbn. split; discriminate.
Qed.

Lemma gather_validations_spec items : forall (w : W),
  length (fst (gather_validations teacher items w)) = length items
  /\ Forall (fun v => 0 <= v_quality_score v <= 1)
       (fst (gather_validations teacher items w)).
Proof.
  induction items as [| item rest IH]; intros w; cbn [gather_validations].
  - split; [reflexivity | constructor].
  - pose proof (validate_single_in_range item w) as Hv.
    destruct (_validate_single teacher item w) as [v w1].
    specialize (IH w1).
    destruct (gather_validations teacher rest w1) as [vs w2].
    cbn [fst length] in *. destruct IH as [IH1 IH2].
    split; [now rewrite IH1 | now constructor].
Qed.

End Scores.

(** On a list that is not empty and a ratio in (0, 1] the sample is read
    without an exception: the items at the first [size] multiples of the
    stride. *)
Lemma sample_is_picked (data : list student_item) ratio :
  data <> [] -> 0 < ratio -> ratio <= 1 ->
  let n := Z.of_nat (length data) in
  let size := Z.max 1 (Qfloor (inject_Z n * ratio)) in
  (1 <= size)%Z
  /\ exists indices sampled,
       sample_indices (length data) ratio = Returned indices
       /\ pick_items data indices = Returned sampled
       /\ length sampled = Z.to_nat size
       /\ Forall2 (fun i item =>
                     nth_error data (Z.to_nat (Z.of_nat i * (n / size)))
                     = Some item)
            (seq 0 (Z.to_nat size)) sampled.
Proof.
  intros Hdata Hpos Hle n size.
  assert (Hn : (1 <= length data)%nat) by (destruct data; [congruence | cbn; lia]).
  destruct (sample_size_bounds (length data) ratio Hn Hpos Hle) as [Hsz Hbounds].
  fold n size in Hsz. rewrite Hsz in Hbounds.
  pose proof (sample_indices_spaced (length data) ratio Hn Hpos Hle) as Hidx.
  cbv zeta in Hidx. fold n in Hidx. rewrite Hsz in Hidx.
  set (stride := (n / size)%Z) in *.
  assert (Hfit : (size * stride <= n)%Z) by (apply Z.mul_div_le; lia).
  assert (Hstride : (1 <= stride)%Z) by (apply Z.div_le_lower_bound; lia).
  destruct (pick_items_in_range data
              (map (fun i => (Z.of_nat i * stride)%Z) (seq 0 (Z.to_nat size))))
    as (sampled & Hpick & Hitems).
  { apply List.Forall_map, List.Forall_forall. intros i Hi.
    apply in_seq in Hi. fold n. nia. }
  split; [lia |]. do 2 eexists.
  split; [exact Hidx |]. split; [exact Hpick |].
  apply Forall2_fmap_l in Hitems. split; [| exact Hitems].
  apply Forall2_length in Hitems. now rewrite length_seq in Hitems.
Qed.

Section Validator.
Context {W : Type} (teacher : TeacherModel W).

Lemma validate_batch_returns data ratio (w : W) :
  data <> [] -> 0 < ratio -> ratio <= 1 ->
  is_returned (fst (validate_batch teacher data ratio w)) = true.
Proof.
  intros Hdata Hpos Hle.
  destruct (sample_is_picked data ratio Hdata Hpos Hle)
    as (Hsize & indices & sampled & Hidx & Hpick & Hlen & _).
  unfold validate_batch. rewrite Hidx, Hpick.
  pose proof (gather_validations_spec teacher sampled w) as [Hscored _].
  destruct (gather_validations teacher sampled w) as [[| v vs] w'];
    [cbn in Hscored; lia | reflexivity].
Qed.

(** An empty list makes the stride zero, and [range] rejects it. *)
Lemma validate_batch_empty ratio (w : W) :
  validate_batch teacher [] ratio w = (Raised ValueError, w).
Proof. reflexivity. Qed.

Lemma Qsum_unit_bounds xs :
  Forall (fun x => 0 <= x <= 1) xs ->
  0 <= Qsum xs <= inject_Z (Z.of_nat (length xs)).
Proof.
  induction 1 as [| x rest [Hx0 Hx1] _ [IH0 IH1]].
  - split; apply Qle_refl.
  - change (Qsum (x :: rest)) with (x + Qsum rest).
    cbn [length]. rewrite Nat2Z.inj_succ, <- Z.add_1_l, inject_Z_plus.
    change (inject_Z 1) with 1. clear - Hx0 Hx1 IH0 IH1. split; lra.
Qed.

(** Whatever [validate_batch] returns, its average is a score. *)
Lemma validate_batch_average_in_range data ratio (w : W) v w' :
  validate_batch teacher data ratio w = (Returned v, w') ->
  0 <= average_quality v <= 1.
Proof.
  unfold validate_batch.
  destruct (sample_indices (length data) ratio) as [indices |]; [| discriminate].
  destruct (pick_items data indices) as [sampled |]; [| discriminate].
  pose proof (gather_validations_spec teacher sampled w) as [_ Hrange].
  destruct (gather_validations teacher sampled w) as [scored w1].
  cbn [fst] in Hrange.
  destruct scored as [| v0 vs] eqn:Es; [discriminate |]. rewrite <- Es in *.
  intros [= <- <-]. cbn [average_quality].
  assert (Hlen : 0 < inject_Z (Z.of_nat (length scored))).
  { change 0 with (inject_Z 0). rewrite <- Zlt_Qlt. subst scored. cbn. lia. }
  pose proof (Qsum_unit_bounds (map v_quality_score scored)) as [H0 H1].
  { now apply List.Forall_map. }
  rewrite length_map in H1. split.
  - apply Qle_shift_div_l; [exact Hlen |]. now rewrite Qmult_0_l.
  - apply Qle_shift_div_r; [exact Hlen |]. now rewrite Qmult_1_l.
Qed.

End Validator.

Lemma total_cost_nonneg teacher_examples student_data :
  Forall (fun ex => (0 <= tokens_used ex)%Z) teacher_examples ->
  0 <= _calculate_total_cost teacher_examples student_data.
Proof.
  intros Htokens. unfold _calculate_total_cost.
  assert (H1 : 0 <= Qsum (map (fun ex => inject_Z (tokens_used ex) * (1 # 100))
                            teacher_examples)).
  { apply Qsum_nonneg, List.Forall_map.
    eapply List.Forall_impl; [| exact Htokens]. intros ex Hex. cbv beta.
    apply Qmult_le_0_compat; [| discriminate].
    change 0 with (inject_Z 0). now rewrite <- Zle_Qle. }
  assert (H2 : 0 <= inject_Z (Z.of_nat (length student_data)) * (1 # 1000)).
  { apply Qmult_le_0_compat; [| discriminate].
    change 0 with (inject_Z 0). rewrite <- Zle_Qle. lia. }
  clear - H1 H2. lra.
Qed.

Section Orchestrator.
Context {W : Type} (clock : W -> Q) (uuid4 : W -> string * W).
Context (request : GenerationRequest)
        (self : KnowledgeDistillationOrchestrator W) (w : W).

(** A returned response carries every seeded example and every student
    item, in that order, and counts them in its metadata. *)
Lemma response_carries_all_items response self' w' :
  generate_dataset clock uuid4 request self w = (Returned response, self', w') ->
  data response
  = map (fun ex => {| e_content := output ex; source := "teacher";
                      quality := confidence ex |})
      (seed_examples clock uuid4 request self w)
    ++ map (fun item => {| e_content := content item; source := "student";
                           quality := quality_estimate item |})
         (student_output clock uuid4 request self w)
  /\ teacher_examples (metadata response)
     = Z.of_nat (length (seed_examples clock uuid4 request self w))
  /\ student_generated (metadata response)
     = Z.of_nat (length (student_output clock uuid4 request self w)).
Proof.
  unfold student_output, seed_examples, generate_dataset.
  destruct (uuid4 w) as [response_id w0].
  destruct (generate_seed_data clock request (teacher self) w0)
    as [[teacher_examples teacher'] w1].
  destruct (learn_from_teacher teacher_examples (student self))
    as [learning student'].
  destruct (generate_bulk_data request student' w1) as [student_data w2].
  destruct (validate_batch teacher' student_data (1 # 10) w2)
    as [[validation_result |] w3]; [| discriminate].
  intros [= <- _ _]. cbn. auto.
Qed.

(** C6.  When the student stage produced at least one item the pipeline
    returns a response; if no seeded teacher example has a negative token
    count, that response has a quality score in [[0, 1]] and a cost that
    is not negative. *)
Theorem response_quality_and_cost_bounds :
  student_output clock uuid4 request self w <> [] ->
  Forall (fun ex => (0 <= tokens_used ex)%Z)
    (seed_examples clock uuid4 request self w) ->
  exists response,
    fst (fst (generate_dataset clock uuid4 request self w)) = Returned response
    /\ 0 <= quality_score response <= 1
    /\ 0 <= cost response.
Proof.
  unfold student_output, seed_examples, generate_dataset.
  destruct (uuid4 w) as [response_id w0].
  destruct (generate_seed_data clock request (teacher self) w0)
    as [[teacher_examples teacher'] w1].
  destruct (learn_from_teacher teacher_examples (student self))
    as [learning student'].
  destruct (generate_bulk_data request student' w1) as [student_data w2].
  cbn [fst]. intros Hdata Htokens.
  pose proof (validate_batch_returns teacher' student_data (1 # 10) w2 Hdata
                eq_refl ltac:(discriminate)) as Hret.
  destruct (validate_batch teacher' student_data (1 # 10) w2)
    as [[validation_result |] w3] eqn:Heq; [| discriminate].
  pose proof (validate_batch_average_in_range _ _ _ _ _ _ Heq) as Havg.
  eexists. split; [reflexivity |].
  cbn [quality_score cost]. split; [exact Havg |].
  now apply total_cost_nonneg.
Qed.

(** C2, at the pathological case.  When the student stage produces no
    item, [validate_batch] is handed an empty list and the pipeline ends
    with [ValueError] instead of a response, whatever the teacher seeded. *)
Theorem empty_student_output_raises :
  student_output clock uuid4 request self w = [] ->
  fst (fst (generate_dataset clock uuid4 request self w)) = Raised ValueError.
Proof.
  unfold student_output, generate_dataset.
  destruct (uuid4 w) as [response_id w0].
  destruct (generate_seed_data clock request (teacher self) w0)
    as [[teacher_examples teacher'] w1].
  destruct (learn_from_teacher teacher_examples (student self))
    as [learning student'].
  destruct (generate_bulk_data request student' w1) as [student_data w2].
  cbn [fst]. intros ->. reflexivity.
Qed.

End Orchestrator.

Lemma response_quality_and_cost_bounds_witness :
  student_output sample_clock sample_uuid4 (sample_request 25)
    (sample_orchestrator (answering "0.9") (answering "text")) 0%nat <> []
  /\ Forall (fun ex => (0 <= tokens_used ex)%Z)
       (seed_examples sample_clock sample_uuid4 (sample_request 25)
          (sample_orchestrator (answering "0.9") (answering "text")) 0%nat)
  /\ exists response,
       fst (fst (generate_dataset sample_clock sample_uuid4 (sample_request 25)
                   (sample_orchestrator (answering "0.9") (answering "text"))
                   0%nat)) = Returned response
       /\ 0 <= quality_score response <= 1
       /\ 0 <= cost response.
Proof.
  assert (H1 : student_output sample_clock sample_uuid4 (sample_request 25)
                 (sample_orchestrator (answering "0.9") (answering "text"))
                 0%nat <> []) by (vm_compute; discriminate).
  assert (H2 : Forall (fun ex => (0 <= tokens_used ex)%Z)
                 (seed_examples sample_clock sample_uuid4 (sample_request 25)
                    (sample_orchestrator (answering "0.9") (answering "text"))
                    0%nat)).
  { vm_compute. repeat constructor; discriminate. }
  split; [exact H1 |]. split; [exact H2 |].
  exact (response_quality_and_cost_bounds sample_clock sample_uuid4
           (sample_request 25)
           (sample_orchestrator (answering "0.9") (answering "text")) 0%nat
           H1 H2).
Defined.

(** The failing run: five items requested, so no seed is asked for, and a
    student endpoint that fails every call. *)
Lemma empty_student_output_raises_witness :
  seed_examples sample_clock sample_uuid4 (sample_request 5)
    (sample_orchestrator (answering "0.9") failing) 0%nat = []
  /\ student_output sample_clock sample_uuid4 (sample_request 5)
       (sample_orchestrator (answering "0.9") failing) 0%nat = []
  /\ fst (fst (generate_dataset sample_clock sample_uuid4 (sample_request 5)
                 (sample_orchestrator (answering "0.9") failing) 0%nat))
     = Raised ValueError.
Proof.
  split; [reflexivity |]. split; [reflexivity |].
  exact (empty_student_output_raises sample_clock sample_uuid4
           (sample_request 5) (sample_orchestrator (answering "0.9") failing)
           0%nat eq_refl).
Defined.

End CoreFacts.

(** ** The pattern extractor *)
Module TransferFacts.
Import Core Transfer TransferSpec.

Lemma In_omap {A B} (f : A -> option B) l y :
  In y (omap f l) <-> exists x, In x l /\ f x = Some y.
Proof.
  rewrite <- list_elem_of_In, list_elem_of_omap.
  split; intros (x & Hx & Hf); exists x; split; try assumption;
    now apply list_elem_of_In.
Qed.

(** [min(1.0, n / K)] grows with [n] and never exceeds one. *)
Lemma saturation_monotone (K : Z) (n m : nat) :
  (0 < K)%Z -> (n <= m)%nat ->
  Qmin 1 (inject_Z (Z.of_nat n) / inject_Z K)
  <= Qmin 1 (inject_Z (Z.of_nat m) / inject_Z K).
Proof.
  intros HK Hnm. apply Q.min_le_compat_l.
  apply Qmult_le_compat_r.
  - rewrite <- Zle_Qle. lia.
  - apply Qlt_le_weak, Qinv_lt_0_compat.
    change 0 with (inject_Z 0). rewrite <- Zlt_Qlt. exact HK.
Qed.

(** *** Groups

    Filing a list under keys yields, for every key that occurs, one group:
    the entries of the elements with that key, in their order. *)
Section Grouping.
Context {A B : Type} (key_of : A -> option string) (entry : A -> B).

Lemma group_append_keys k v (groups : list (string * list B)) k' :
  In k' (map fst (group_append k v groups))
  <-> k' = k \/ In k' (map fst groups).
Proof.
  induction groups as [| [k0 g] rest IH]; cbn [group_append map fst In].
  - intuition congruence.
  - destruct (String.eqb_spec k0 k) as [-> | Hne]; cbn [map fst In].
    + intuition congruence.
    + rewrite IH. intuition congruence.
Qed.

Lemma group_append_NoDup k v (groups : list (string * list B)) :
  NoDup (map fst groups) -> NoDup (map fst (group_append k v groups)).
Proof.
  induction groups as [| [k0 g] rest IH]; cbn [group_append map fst].
  - intros _. apply NoDup_singleton.
  - intros Hnd. apply NoDup_cons in Hnd as [Hfresh Hnd].
    destruct (String.eqb_spec k0 k) as [-> | Hne]; cbn [map fst].
    + now apply NoDup_cons.
    + apply NoDup_cons. split; [| auto].
      rewrite list_elem_of_In, group_append_keys.
      rewrite list_elem_of_In in Hfresh. intros [-> | Hin]; tauto.
Qed.

Lemma group_append_In k v (groups : list (string * list B)) k' g' :
  NoDup (map fst groups) ->
  In (k', g') (group_append k v groups) <->
  (k' <> k /\ In (k', g') groups)
  \/ (k' = k
      /\ ((exists g, In (k, g) groups /\ g' = g ++ [v])
          \/ (~ In k (map fst groups) /\ g' = [v]))).
Proof.
  induction groups as [| [k0 g0] rest IH]; cbn [group_append map fst];
    intros Hnd.
  - cbn. split.
    + intros [[= <- <-] | []]. right. split; [reflexivity |]. right. tauto.
    + intros [[_ []] | [-> [(g & [] & _) | [_ ->]]]]. now left.
  - apply NoDup_cons in Hnd as [Hfresh Hnd].
    rewrite list_elem_of_In in Hfresh. specialize (IH Hnd).
    assert (Hkey : forall g, In (k0, g) rest -> False).
    { intros g Hin. apply Hfresh, in_map_iff. now exists (k0, g). }
    destruct (String.eqb_spec k0 k) as [-> | Hne]; cbn [In].
    + split.
      * intros [[= <- <-] | Hin].
        -- right. split; [reflexivity |]. left. exists g0. auto.
        -- left. split; [| now right]. intros ->. eapply Hkey; eauto.
      * intros [[Hk [[= -> _] | Hin]]
               | [-> [(g & [[= ->] | Hin] & ->) | [Hno _]]]].
        -- congruence.
        -- now right.
        -- now left.
        -- exfalso. eapply Hkey; eauto.
        -- exfalso. apply Hno. now left.
    + rewrite IH. clear IH. split.
      * intros [[= <- <-] | [[Hk Hin] | [-> [(g & Hin & ->) | [Hno ->]]]]].
        -- left. split; [congruence | now left].
        -- left. split; [assumption | now right].
        -- right. split; [reflexivity |]. left. exists g.
           split; [now right | reflexivity].
        -- right. split; [reflexivity |]. right. split; [| reflexivity].
           intros [E | Hin]; [congruence | tauto].
      * intros [[Hk [[= <- <-] | Hin]]
               | [-> [(g & [[= -> _] | Hin] & ->) | [Hno ->]]]].
        -- now left.
        -- right. left. auto.
        -- congruence.
        -- right. right. split; [reflexivity |]. left. eauto.
        -- right. right. split; [reflexivity |]. right.
           split; [| reflexivity]. intros Hin. apply Hno. now right.
Qed.

Lemma supporting_snoc key xs x :
  supporting key_of key (xs ++ [x])
  = supporting key_of key xs
    ++ match key_of x with
       | Some k => if String.eqb k key then [x] else []
       | None => []
       end.
Proof.
  unfold supporting. rewrite List.filter_app. cbn [List.filter].
  destruct (key_of x) as [k |]; [destruct (String.eqb k key) |]; reflexivity.
Qed.

Lemma filed_groups xs :
  NoDup (map fst (fold_left (file key_of entry) xs []))
  /\ forall k g,
       In (k, g) (fold_left (file key_of entry) xs [])
       <-> g = map entry (supporting key_of k xs) /\ g <> [].
Proof.
  induction xs as [| x xs [IHnd IH]] using rev_ind.
  - cbn. split; [constructor |]. intros k g. split; [tauto |].
    intros [-> H]. congruence.
  - rewrite fold_left_app. cbn [fold_left]. unfold file at 1 3.
    destruct (key_of x) as [kx |] eqn:Ekey.
    + split; [now apply group_append_NoDup |]. intros k g.
      rewrite (group_append_In _ _ _ _ _ IHnd), supporting_snoc, Ekey, map_app.
      destruct (String.eqb_spec kx k) as [-> | Hne].
      * cbn [map]. split.
        -- intros [[Hk _] | [_ [(g0 & Hin & ->) | [Hno ->]]]]; [congruence | |].
           ++ apply IH in Hin as [-> _]. split; [reflexivity |].
              intros H. now apply List.app_eq_nil in H as [_ H].
           ++ split; [| discriminate].
              destruct (map entry (supporting key_of k xs)) as [| y ys] eqn:E;
                [reflexivity |].
              exfalso. apply Hno, in_map_iff. exists (k, y :: ys).
              split; [reflexivity |]. apply IH. now rewrite E.
        -- intros [-> _]. right. split; [reflexivity |].
           destruct (map entry (supporting key_of k xs)) as [| y ys] eqn:E.
           ++ right. split; [| reflexivity].
              intros Hin. apply in_map_iff in Hin as ([k0 g0] & Hk & Hin).
              cbn in Hk. subst k0. apply IH in Hin as [-> H]. congruence.
           ++ left. exists (y :: ys). split; [| reflexivity].
              apply IH. now rewrite E.
      * cbn [map]. rewrite app_nil_r, <- IH. split.
        -- intros [[_ Hin] | [-> _]]; [exact Hin | congruence].
        -- intros Hin. left. split; [| exact Hin]. congruence.
    + split; [exact IHnd |]. intros k g.
      now rewrite supporting_snoc, Ekey, app_nil_r.
Qed.

End Grouping.


Section Extractor.
Variable md5_hexdigest : string -> string.
Variable count_capitalised_terms : string -> Z.
Variable now : Q.





Lemma fold_left_pointwise {A B} (f g : B -> A -> B) xs : forall init,
  (forall b a, f b a = g b a) -> fold_left f xs init = fold_left g xs init.
Proof.
  induction xs as [| x xs IH]; intros init H; cbn; [reflexivity |].
  rewrite H. now apply IH.
Qed.











End Extractor.

(** Two examples that share a one-line header structure and the keyword
    set: one structural pattern of confidence 2/10 and one content pattern
    of confidence 2/8; too few for a style pattern, and no format. *)
Example two_examples_alike :
  map (fun p => (pattern_type p, frequency p, Qred (confidence p)))
    (fst (extract_patterns sample_md5 (fun _ => 0%Z) 0
            [sample_example "# Neural networks"; sample_example "# Search"] ∅))
  = [("structure", 2%Z, 1 # 5); ("content", 2%Z, 1 # 4)].
Proof. reflexivity. Qed.


End TransferFacts.

(** * Properties that depend on rounding *)
Module RoundedFacts.
Import RoundedSpec.

(** ** The arithmetic of CPython's floats *)

(** 0.1 + 0.2 is more than 0.3, and adding 1 to 1e16 changes nothing. *)
Example binary64_additions :
  binary64 (3 # 10) < binary64 (binary64 (1 # 10) + binary64 (2 # 10))
  /\ binary64 (10000000000000000 + 1) == 10000000000000000.
Proof. split; reflexivity. Qed.

(** With exact arithmetic the rounded checks are those of the modules
    [CostOptimizer] and [Core]. *)
Lemma check_budget_constraints_exact now b c s :
  Rounded.check_budget_constraints (fun q => q) now b c s
  = CostOptimizer.check_budget_constraints now b c s.
Proof. reflexivity. Qed.

Lemma validate_batch_exact {W} (teacher : Core.TeacherModel W) data ratio w :
  Rounded.validate_batch (fun q => q)
    (Rounded._validate_single (fun q => q) teacher) Qsum data ratio w
  = Core.validate_batch teacher data ratio w.
Proof.
  assert (Hsingle : forall item w0,
            Rounded._validate_single (fun q => q) teacher item w0
            = Core._validate_single teacher item w0).
  { intros item w0. unfold Rounded._validate_single, Core._validate_single.
    destruct (Core.generate _ _ _ _ w0) as [[response | e] w1];
      [| reflexivity].
    destruct (isdigit _); [| reflexivity].
    now destruct (py_float _). }
  assert (Hgather : forall items w0,
            Rounded.gather_validations
              (Rounded._validate_single (fun q => q) teacher) items w0
            = Core.gather_validations teacher items w0).
  { induction items as [| item rest IH]; intros w0; [reflexivity |].
    cbn [Rounded.gather_validations Core.gather_validations].
    rewrite Hsingle. destruct (Core._validate_single teacher item w0) as [v w1].
    now rewrite IH. }
  unfold Rounded.validate_batch, Core.validate_batch.
  change (Rounded.sample_indices (fun q => q) (length data) ratio)
    with (Core.sample_indices (length data) ratio).
  destruct (Core.sample_indices (length data) ratio) as [indices | e];
    [| reflexivity].
  destruct (Core.pick_items data indices) as [sampled | e]; [| reflexivity].
  now rewrite Hgather.
Qed.

(** ** The budget check *)
Section Budget.
Import CostOptimizer.
Variable fl : Q -> Q.





End Budget.


(** The sum decides, not the amounts: with 1e16 spent and a ceiling of
    1e16, one unit more is within budget, for the float sum is 1e16. *)
Example float_sum_hides_one_unit :
  match fst (Rounded.check_budget_constraints binary64 BudgetSpec.sample_now
               (BudgetSpec.budget_of 10000000000000000 None None) 1
               (spent_in_all 10000000000000000)) with
  | Returned r => CostOptimizer.within_budget r = true
  | Raised _ => False
  end.
Proof. vm_compute. reflexivity. Qed.

(** ** The validator's sample *)


(** The sample fits the data when the rounding keeps the order of numbers
    and does not move the number of items upwards, as the identity and
    the rounding to nearest do: for a list that is not empty and a ratio of
    at most 1 the size is at most the number of items. *)
Lemma rounded_sample_fits fl (n : nat) ratio :
  (forall x y, x <= y -> fl x <= fl y) ->
  fl (inject_Z (Z.of_nat n)) <= inject_Z (Z.of_nat n) ->
  (1 <= n)%nat -> ratio <= 1 ->
  (Rounded.sample_size_of fl n ratio <= Z.of_nat n)%Z.
Proof.
  intros Hmono Hfix Hn Hratio. unfold Rounded.sample_size_of.
  apply Z.max_lub; [lia |].
  set (product := fl (inject_Z (Z.of_nat n) * ratio)).
  assert (Hle : product <= inject_Z (Z.of_nat n)).
  { apply Qle_trans with (fl (inject_Z (Z.of_nat n))); [| exact Hfix].
    apply Hmono.
    assert (0 <= inject_Z (Z.of_nat n)) by (apply (Qle_trans _ (inject_Z 0));
      [apply Qle_refl | rewrite <- Zle_Qle; lia]).
    nra. }
  unfold Qtruncate. destruct (Qle_bool 0 product).
  - rewrite <- (Qfloor_Z (Z.of_nat n)). now apply Qfloor_resp_le.
  - rewrite <- (Qceiling_Z (Z.of_nat n)). now apply Qceiling_resp_le.
Qed.

Section Validator.
Import Core.
Context {W : Type} (fl : Q -> Q) (float_sum : list Q -> Q).
Context (validate_single : student_item -> W -> validation * W).



End Validator.



End RoundedFacts.

(** * Properties of the further classes *)

(** ** Slices, sorting and the calendar *)

Lemma lastn_length {A} n (l : list A) : length (lastn n l) = Nat.min n (length l).
Proof. unfold lastn. rewrite length_skipn. lia. Qed.

Lemma lastn_all {A} n (l : list A) : (length l <= n)%nat -> lastn n l = l.
Proof.
  intros H. unfold lastn. replace (length l - n)%nat with 0%nat by lia.
  reflexivity.
Qed.

Lemma lastn_snoc {A} n (l : list A) x :
  (0 < n)%nat -> lastn n (lastn n l ++ [x]) = lastn n (l ++ [x]).
Proof.
  intros Hn.
  destruct (Nat.le_gt_cases (length l) n) as [Hle | Hgt].
  - now rewrite (lastn_all n l).
  - unfold lastn at 1 3. rewrite !length_app, lastn_length. cbn [length].
    rewrite !drop_app_le by (rewrite ?lastn_length; lia).
    unfold lastn. rewrite drop_drop. do 2 f_equal. lia.
Qed.

Lemma In_firstn {A} n (l : list A) x : In x (firstn n l) -> In x l.
Proof.
  revert n. induction l as [| y rest IH]; intros [| n]; cbn; try tauto.
  intros [-> | H]; [now left | right; eapply IH; exact H].
Qed.

Section Sorting.
Context {A : Type} (before : A -> A -> bool).

Lemma insert_by_Permutation x l : Permutation (insert_by before x l) (x :: l).
Proof.
  induction l as [| y rest IH]; cbn; [reflexivity |].
  destruct (before y x); [| reflexivity].
  rewrite IH. apply perm_swap.
Qed.

Lemma sorted_by_Permutation l : Permutation (sorted_by before l) l.
Proof.
  induction l as [| x rest IH]; cbn; [reflexivity |].
  change (fold_right (insert_by before) [] rest) with (sorted_by before rest).
  rewrite insert_by_Permutation. now constructor.
Qed.

Lemma sorted_by_length l : length (sorted_by before l) = length l.
Proof. apply Permutation_length, sorted_by_Permutation. Qed.

Lemma sorted_by_In x l : In x (sorted_by before l) <-> In x l.
Proof.
  split; apply Permutation_in;
    [| symmetry]; apply sorted_by_Permutation.
Qed.

Hypothesis before_asym : forall a b, before a b = true -> before b a = false.
Hypothesis not_after_trans :
  forall a b c,
    not_after before a b -> not_after before b c -> not_after before a c.

Lemma insert_by_ordered x l :
  ordered (not_after before) l ->
  ordered (not_after before) (insert_by before x l).
Proof.
  induction l as [| y rest IH]; cbn; [auto |].
  intros [Hy Hrest]. destruct (before y x) eqn:E; cbn.
  - split; [| now apply IH].
    apply List.Forall_forall. intros z Hz.
    apply (Permutation_in _ (insert_by_Permutation x rest)) in Hz.
    destruct Hz as [<- | Hz].
    + now apply before_asym.
    + now apply (proj1 (List.Forall_forall _ _) Hy).
  - repeat split; try assumption.
    constructor; [exact E |].
    apply List.Forall_forall. intros z Hz.
    apply (not_after_trans x y z); [exact E |].
    now apply (proj1 (List.Forall_forall _ _) Hy).
Qed.

Lemma sorted_by_ordered l :
  ordered (not_after before) (sorted_by before l).
Proof.
  induction l as [| x rest IH]; cbn; [exact I |].
  now apply insert_by_ordered.
Qed.

End Sorting.

(** Sorting by a float key, largest first. *)
Lemma sorted_descending {A} (key : A -> Q) l :
  ordered (fun a b => key b <= key a)
    (sorted_by (fun y x => Qgt_bool (key y) (key x)) l).
Proof.
  pose proof (sorted_by_ordered (fun y x => Qgt_bool (key y) (key x))) as H.
  unfold not_after in H.
  assert (E : forall l', ordered (fun a b => Qgt_bool (key b) (key a) = false) l'
                    -> ordered (fun a b => key b <= key a) l').
  { induction l' as [| x rest IH]; cbn; [auto |].
    intros [H1 H2]. split; [| now apply IH].
    eapply Forall_impl; [exact H1 |]. intros b Hb. now apply Qgt_bool_false. }
  apply E, H.
  - intros a b Hab. apply Qgt_bool_iff in Hab. apply Qgt_bool_false.
    now apply Qlt_le_weak.
  - intros a b c Hab Hbc. apply Qgt_bool_false in Hab, Hbc.
    apply Qgt_bool_false. eapply Qle_trans; eassumption.
Qed.

(** The hour of the day after [k] hours. *)
Lemma next_hour_hour t :
  (hour t < 24)%N -> hour (next_hour t) = ((hour t + 1) mod 24)%N.
Proof.
  intros H. unfold next_hour. destruct (N.ltb_spec (hour t) 23) as [Hlt | Hge]; cbn.
  - rewrite N.mod_small; lia.
  - replace (hour t) with 23%N by lia. reflexivity.
Qed.

Lemma plus_hours_hour k t :
  (hour t < 24)%N ->
  hour (plus_hours k t) = ((hour t + N.of_nat k) mod 24)%N.
Proof.
  intros H. induction k as [| k IH].
  - cbn. rewrite N.add_0_r, N.mod_small; [reflexivity | exact H].
  - change (plus_hours (S k) t) with (next_hour (plus_hours k t)).
    rewrite next_hour_hour.
    + rewrite IH, Nnat.Nat2N.inj_succ.
      rewrite N.Div0.add_mod_idemp_l. f_equal. lia.
    + rewrite IH. apply N.mod_upper_bound. lia.
Qed.

(** ** The budget ledger over time *)
Module LedgerFacts.
Import CostOptimizer BudgetSpec LedgerSpec.

(** What one [track_spending] does to every entry. *)
Lemma track_spending_entries amount t s :
  total_spending (track_spending amount t s) = total_spending s + amount
  /\ (forall k, dict_get0 k (daily_spending (track_spending amount t s))
                = if String.eqb (strftime_day t) k
                  then dict_get0 k (daily_spending s) + amount
                  else dict_get0 k (daily_spending s))
  /\ (forall k, dict_get0 k (hourly_spending (track_spending amount t s))
                = if String.eqb (strftime_hour t) k
                  then dict_get0 k (hourly_spending s) + amount
                  else dict_get0 k (hourly_spending s)).
Proof.
  unfold track_spending.
  pose proof (defaultdict_getitem_value (strftime_day t) (daily_spending s)) as Hd.
  pose proof (defaultdict_getitem_value (strftime_hour t) (hourly_spending s)) as Hh.
  pose proof (defaultdict_getitem_keeps (strftime_day t) (daily_spending s)) as Kd.
  pose proof (defaultdict_getitem_keeps (strftime_hour t) (hourly_spending s)) as Kh.
  destruct (defaultdict_getitem (strftime_day t) (daily_spending s)) as [d m].
  destruct (defaultdict_getitem (strftime_hour t) (hourly_spending s)) as [h m'].
  cbn [daily_spending hourly_spending total_spending fst snd] in *.
  subst d h. split; [reflexivity |].
  split; intros k; unfold dict_get0 at 1.
  - destruct (String.eqb_spec (strftime_day t) k) as [<- | Hne].
    + now rewrite lookup_insert_eq.
    + rewrite lookup_insert_ne by exact Hne. apply Kd.
  - destruct (String.eqb_spec (strftime_hour t) k) as [<- | Hne].
    + now rewrite lookup_insert_eq.
    + rewrite lookup_insert_ne by exact Hne. apply Kh.
Qed.

Lemma check_entries now b c s :
  let s' := snd (check_budget_constraints now b c s) in
  total_spending s' = total_spending s
  /\ (forall k, dict_get0 k (daily_spending s') = dict_get0 k (daily_spending s))
  /\ (forall k, dict_get0 k (hourly_spending s')
                = dict_get0 k (hourly_spending s)).
Proof.
  cbv zeta. rewrite BudgetFacts.check_unfold. cbn [snd].
  destruct (BudgetFacts.after_check_amounts now b s) as (Ht & _ & Hd & Hh).
  auto.
Qed.

Lemma Qsum_cons x l : Qsum (x :: l) = x + Qsum l.
Proof. reflexivity. Qed.

Lemma tracked_under_Track fmt k amount t rest :
  tracked_under fmt k (Track amount t :: rest)
  = if String.eqb (fmt t) k then amount :: tracked_under fmt k rest
    else tracked_under fmt k rest.
Proof.
  unfold tracked_under. cbn [omap list_omap].
  destruct (String.eqb (fmt t) k); reflexivity.
Qed.

Lemma replay_from ops : forall s,
  total_spending (fold_left apply ops s) == total_spending s + Qsum (tracked ops)
  /\ (forall k, dict_get0 k (daily_spending (fold_left apply ops s))
                == dict_get0 k (daily_spending s)
                   + Qsum (tracked_under strftime_day k ops))
  /\ (forall k, dict_get0 k (hourly_spending (fold_left apply ops s))
                == dict_get0 k (hourly_spending s)
                   + Qsum (tracked_under strftime_hour k ops)).
Proof.
  induction ops as [| o rest IH]; intros s.
  - cbn [fold_left]. repeat split; intros;
      change (Qsum _) with 0; lra.
  - destruct (IH (apply s o)) as (Ht & Hd & Hh).
    cbn [fold_left]. destruct o as [amount t | now b c].
    + destruct (track_spending_entries amount t s) as (Et & Ed & Eh).
      cbn [apply] in *. rewrite Et in Ht.
      split; [| split].
      * rewrite Ht. change (tracked (Track amount t :: rest))
          with (amount :: tracked rest).
        rewrite Qsum_cons. lra.
      * intros k. rewrite (Hd k), (Ed k), tracked_under_Track.
        destruct (String.eqb (strftime_day t) k);
          rewrite ?Qsum_cons; lra.
      * intros k. rewrite (Hh k), (Eh k), tracked_under_Track.
        destruct (String.eqb (strftime_hour t) k);
          rewrite ?Qsum_cons; lra.
    + destruct (check_entries now b c s) as (Et & Ed & Eh).
      cbn [apply] in *. rewrite Et in Ht.
      split; [| split].
      * exact Ht.
      * intros k. rewrite (Hd k), (Ed k). reflexivity.
      * intros k. rewrite (Hh k), (Eh k). reflexivity.
Qed.

(** The ledger is the sum of what was tracked.  After any sequence of
    [track_spending] and [check_budget_constraints] calls on a fresh
    tracker, the all-time total is the sum of all tracked amounts, and the
    amount read for any day (hour) is the sum of the amounts tracked with a
    timestamp of that day (hour); checks, and the entries they create,
    contribute nothing. *)
Theorem ledger_is_sum_of_tracked ops :
  total_spending (replay ops) == Qsum (tracked ops)
  /\ (forall day, dict_get0 day (daily_spending (replay ops))
                  == Qsum (tracked_under strftime_day day ops))
  /\ (forall hour, dict_get0 hour (hourly_spending (replay ops))
                   == Qsum (tracked_under strftime_hour hour ops)).
Proof.
  destruct (replay_from ops init) as (Ht & Hd & Hh). unfold replay.
  split; [| split].
  - rewrite Ht. cbn [init total_spending]. lra.
  - intros k. rewrite (Hd k). unfold dict_get0 at 1. cbn [init daily_spending].
    rewrite lookup_empty. cbn [default]. lra.
  - intros k. rewrite (Hh k). unfold dict_get0 at 1. cbn [init hourly_spending].
    rewrite lookup_empty. cbn [default]. lra.
Qed.

Lemma nil_iff_eqb {A} (l1 l2 : list A) :
  (l1 = [] <-> l2 = []) -> Nat.eqb (length l1) 0 = Nat.eqb (length l2) 0.
Proof.
  destruct l1, l2; cbn; try reflexivity; intros [H1 H2];
    [discriminate (H1 eq_refl) | discriminate (H2 eq_refl)].
Qed.

(** The check predicts the ledger.  With a non-zero total budget, checking
    an additional cost, tracking that cost at the same clock reading and
    checking again with no additional cost gives the same within-budget
    verdict as the first check: a spend the check accepts leaves the
    tracker within every ceiling, and a spend it rejects takes the tracker
    over one. *)
Theorem check_predicts_tracking now b c s :
  ~ total_budget b == 0 ->
  exists before after,
    fst (check_budget_constraints now b c s) = Returned before
    /\ fst (check_budget_constraints now b 0
              (track_spending c now
                 (snd (check_budget_constraints now b c s))))
       = Returned after
    /\ within_budget after = within_budget before
    /\ remaining_total after == remaining_total before - c.
Proof.
  intros Hnz. apply Qeq_bool_false in Hnz.
  destruct (check_entries now b c s) as (Et & Ed & Eh).
  set (s1 := snd (check_budget_constraints now b c s)) in *.
  destruct (track_spending_entries c now s1) as (Tt & Td & Th).
  set (s2 := track_spending c now s1) in *.
  rewrite !BudgetFacts.check_unfold, Hnz. cbn [fst].
  do 2 eexists. split; [reflexivity |]. split; [reflexivity |].
  cbn [within_budget remaining_total]. split.
  - apply nil_iff_eqb. rewrite !BudgetFacts.all_issues_nil.
    unfold exceeds_total, exceeds_daily, exceeds_hourly.
    rewrite Tt, Et, (Td (strftime_day now)), (Th (strftime_hour now)),
      !String.eqb_refl, Ed, Eh.
    assert (Hl : forall x lim : Q, lim < x + c + 0 <-> lim < x + c).
    { intros x lim. split; intros H; lra. }
    rewrite Hl.
    split; intros (H1 & H2 & H3); (split; [exact H1 |]); split.
    + intros (lim & E1 & E2 & E3). apply H2. exists lim.
      rewrite Hl in *. auto.
    + intros (lim & E1 & E2 & E3). apply H3. exists lim.
      rewrite Hl in *. auto.
    + intros (lim & E1 & E2 & E3). apply H2. exists lim.
      rewrite Hl in *. auto.
    + intros (lim & E1 & E2 & E3). apply H3. exists lim.
      rewrite Hl in *. auto.
  - rewrite Tt, Et. lra.
Qed.

Lemma check_predicts_tracking_witness :
  ~ total_budget (budget_of 10 (Some 5) None) == 0
  /\ exists before after,
       fst (check_budget_constraints sample_now (budget_of 10 (Some 5) None)
              6 init) = Returned before
       /\ fst (check_budget_constraints sample_now
                 (budget_of 10 (Some 5) None) 0
                 (track_spending 6 sample_now
                    (snd (check_budget_constraints sample_now
                            (budget_of 10 (Some 5) None) 6 init))))
          = Returned after
       /\ within_budget after = within_budget before
       /\ remaining_total after == remaining_total before - 6.
Proof.
  assert (H : ~ total_budget (budget_of 10 (Some 5) None) == 0).
  { intros E. discriminate E. }
  split; [exact H |].
  exact (check_predicts_tracking sample_now (budget_of 10 (Some 5) None) 6
           init H).
Defined.

End LedgerFacts.

(** ** More on the teacher/student allocation *)
Module SelectionFacts.
Import CostOptimizer BudgetSpec AllocationSpec SelectionSpec.

Lemma teacher_ratios_range r :
  In r teacher_ratios -> 0 < r /\ r < 1 # 2.
Proof.
  intros H. vm_compute in H.
  repeat (destruct H as [<- | H]; [split; reflexivity |]).
  destruct H.
Qed.

Lemma evaluate_ratio_fields ps req budget r a score :
  evaluate_ratio ps req budget r = Returned (Some (a, score)) ->
  teacher_ratio a = r
  /\ teacher_quantity a
     = Qtruncate (inject_Z (default 100%Z (quantity req)) * r)
  /\ (teacher_quantity a + student_quantity a)%Z
     = default 100%Z (quantity req)
  /\ total_cost a = teacher_cost a + student_cost a
  /\ _select_best_teacher_model ps = Returned (teacher_model a)
  /\ _select_best_student_model ps = Returned (student_model a)
  /\ score = score_of a.
Proof.
  unfold evaluate_ratio, score_of.
  destruct (_select_best_teacher_model ps) as [tm | ]; [| discriminate].
  destruct (_select_best_student_model ps) as [sm | ]; [| discriminate].
  destruct (estimate_generation_cost ps _ tm) as [te | ]; [| discriminate].
  destruct (estimate_generation_cost ps _ sm) as [se | ]; [| discriminate].
  destruct (Qgt_bool _ (total_budget budget)); [discriminate |].
  destruct (Qlt_bool _ _); [discriminate |].
  intros [= <- <-]. cbn. repeat split. lia.
Qed.

Lemma truncated_share (n : Z) r :
  (0 <= n)%Z -> 0 < r -> r < 1 # 2 ->
  (0 <= Qtruncate (inject_Z n * r)
   /\ Qtruncate (inject_Z n * r) <= n - Qtruncate (inject_Z n * r))%Z.
Proof.
  intros Hn Hr0 Hr1.
  assert (H0 : 0 <= inject_Z n * r).
  { apply Qmult_le_0_compat; [| now apply Qlt_le_weak].
    change 0 with (inject_Z 0). now rewrite <- Zle_Qle. }
  rewrite CoreFacts.Qtruncate_nonneg by exact H0.
  pose proof (Qfloor_le (inject_Z n * r)) as Hfl.
  assert (H1 : (0 <= Qfloor (inject_Z n * r))%Z).
  { change 0%Z with (Qfloor 0). now apply Qfloor_resp_le. }
  split; [exact H1 |].
  set (f := Qfloor (inject_Z n * r)) in *.
  assert (Hn' : 0 <= inject_Z n).
  { change 0 with (inject_Z 0). now rewrite <- Zle_Qle. }
  assert (H2 : inject_Z f * 2 <= inject_Z n).
  { assert (Hhalf : 0 <= inject_Z n * ((1 # 2) - r)).
    { apply Qmult_le_0_compat; [exact Hn' | lra]. }
    clear - Hfl Hhalf. nra. }
  assert (H3 : (f * 2 <= n)%Z).
  { rewrite Zle_Qle, inject_Z_mult. exact H2. }
  lia.
Qed.

(** Every allocation the optimizer returns is a consistent split of the
    request.  Its cost is within the total budget and is the sum of the
    teacher's and the student's cost; its expected quality reaches the
    request's threshold; its two quantities add up to the quantity asked
    for; for a quantity that is not negative the teacher's share is not
    negative and never larger than the student's; and its two models are
    the ones the two selection functions return. *)
Theorem allocation_is_consistent_split ps req budget a :
  (0 <= default 100%Z (quantity req))%Z ->
  optimize_teacher_student_allocation ps req budget = Returned (Allocated a) ->
  respects req budget a
  /\ total_cost a = teacher_cost a + student_cost a
  /\ (teacher_quantity a + student_quantity a)%Z = default 100%Z (quantity req)
  /\ (0 <= teacher_quantity a <= student_quantity a)%Z
  /\ _select_best_teacher_model ps = Returned (teacher_model a)
  /\ _select_best_student_model ps = Returned (student_model a).
Proof.
  intros Hq.
  unfold optimize_teacher_student_allocation.
  destruct (scan_ratios _ _ _ _ _ _) as [[a' |] |] eqn:E; try discriminate.
  intros [= ->].
  eapply (AllocationFacts.scan_ratios_invariant
            (fun a => respects req budget a
               /\ total_cost a = teacher_cost a + student_cost a
               /\ (teacher_quantity a + student_quantity a)%Z
                  = default 100%Z (quantity req)
               /\ (0 <= teacher_quantity a <= student_quantity a)%Z
               /\ _select_best_teacher_model ps = Returned (teacher_model a)
               /\ _select_best_student_model ps = Returned (student_model a)));
    [| | exact E].
  - intros r a0 score Hin He.
    pose proof (AllocationFacts.evaluate_ratio_sound _ _ _ _ _ _ He)
      as (Hres & _ & _).
    apply evaluate_ratio_fields in He as (Hr & Htq & Hsum & Hcost & Ht & Hs & _).
    destruct (teacher_ratios_range r Hin) as [Hr0 Hr1].
    pose proof (truncated_share _ r Hq Hr0 Hr1) as Hshare.
    rewrite <- Htq in Hshare.
    split; [exact Hres |]. repeat split; try assumption; lia.
  - discriminate.
Qed.

Lemma allocation_is_consistent_split_witness :
  match optimize_teacher_student_allocation fixture_profiles
          (request_with_threshold (8 # 10)) (budget_of 10 None None) with
  | Returned (Allocated a) =>
      (teacher_quantity a + student_quantity a)%Z = 100%Z
      /\ (0 <= teacher_quantity a <= student_quantity a)%Z
  | _ => False
  end.
Proof.
  destruct (optimize_teacher_student_allocation fixture_profiles
              (request_with_threshold (8 # 10)) (budget_of 10 None None))
    as [[a | e] | e] eqn:E.
  - destruct (allocation_is_consistent_split fixture_profiles
                (request_with_threshold (8 # 10)) (budget_of 10 None None) a
                ltac:(cbn; lia) E) as (_ & _ & Hsum & Hshare & _).
    split; [exact Hsum | exact Hshare].
  - vm_compute in E. discriminate E.
  - vm_compute in E. discriminate E.
Defined.

(** Comparisons of NumPy floats that are numbers. *)
Lemma np_gt_number x y : np_gt x y = true -> is_number x = true.
Proof. destruct x, y; cbn; congruence. Qed.

Lemma np_gt_asym x y : np_gt x y = true -> np_gt y x = false.
Proof.
  destruct x as [a | | |], y as [b | | |]; cbn; try congruence.
  rewrite Qgt_bool_iff, Qgt_bool_false. apply Qlt_le_weak.
Qed.

Lemma np_not_gt_trans x y z :
  is_number y = true ->
  np_gt x y = false -> np_gt y z = false -> np_gt x z = false.
Proof.
  destruct x as [a | | |], y as [b | | |], z as [c | | |]; cbn;
    try congruence.
  rewrite !Qgt_bool_false. intros _ H1 H2. eapply Qle_trans; eassumption.
Qed.

Lemma np_gt_irrefl x : np_gt x x = false.
Proof.
  destruct x as [a | | |]; cbn; try reflexivity.
  apply Qgt_bool_false, Qle_refl.
Qed.

(** What the scan's [best_score] is at its end. *)
Lemma scan_ratios_best ps req budget ratios : forall best best_score a,
  is_number best_score = true ->
  (forall a0, best = Some a0 -> score_of a0 = best_score) ->
  scan_ratios ps req budget ratios best best_score = Returned (Some a) ->
  is_number (score_of a) = true
  /\ np_gt best_score (score_of a) = false
  /\ (best = None -> np_gt (score_of a) best_score = true)
  /\ (forall r a' s', In r ratios ->
        evaluate_ratio ps req budget r = Returned (Some (a', s')) ->
        np_gt s' (score_of a) = false).
Proof.
  induction ratios as [| r rest IH]; intros best best_score a Hnum Hbest; cbn.
  - intros [= ->]. rewrite (Hbest a eq_refl).
    repeat split; try assumption.
    + apply np_gt_irrefl.
    + discriminate.
    + intros r a' s' [].
  - destruct (evaluate_ratio ps req budget r) as [[[a1 score] |] |] eqn:E;
      [| | discriminate].
    + pose proof (evaluate_ratio_fields _ _ _ _ _ _ E) as (_ & _ & _ & _ & _ & _ & Hs).
      destruct (np_gt score best_score) eqn:Egt.
      * intros Hscan.
        pose proof (np_gt_number _ _ Egt) as Hnum1.
        destruct (IH (Some a1) score a Hnum1) as (H1 & H2 & _ & H4);
          [intros a0 [= <-]; now symmetry | exact Hscan |].
        repeat split.
        -- exact H1.
        -- apply (np_not_gt_trans _ score); [exact Hnum1 | | exact H2].
           now apply np_gt_asym.
        -- intros _. destruct (np_gt (score_of a) best_score) eqn:Ea;
             [reflexivity |].
           pose proof (np_not_gt_trans _ _ _ H1 H2 Ea). congruence.
        -- intros r0 a' s' [<- | Hin] He.
           ++ rewrite E in He. injection He as <- <-. exact H2.
           ++ eapply H4; eassumption.
      * intros Hscan.
        destruct (IH best best_score a Hnum Hbest Hscan) as (H1 & H2 & H3 & H4).
        repeat split; try assumption.
        intros r0 a' s' [<- | Hin] He.
        -- rewrite E in He. injection He as <- <-.
           apply (np_not_gt_trans _ best_score); assumption.
        -- eapply H4; eassumption.
    + intros Hscan.
      destruct (IH best best_score a Hnum Hbest Hscan) as (H1 & H2 & H3 & H4).
      repeat split; try assumption.
      intros r0 a' s' [<- | Hin] He; [congruence |].
      eapply H4; eassumption.
Qed.

(** The allocation returned has the best score of the scan.  Its score,
    the efficiency weighted by the distance of its teacher ratio from 20%,
    is a number above the initial [-1], and no scanned ratio that passes
    the budget and the quality threshold has a score above it. *)
Theorem allocation_has_best_score ps req budget a :
  optimize_teacher_student_allocation ps req budget = Returned (Allocated a) ->
  np_gt (score_of a) (Finite (-1)) = true
  /\ forall r a' s',
       In r teacher_ratios ->
       evaluate_ratio ps req budget r = Returned (Some (a', s')) ->
       np_gt s' (score_of a) = false.
Proof.
  unfold optimize_teacher_student_allocation.
  destruct (scan_ratios _ _ _ _ _ _) as [[a' |] |] eqn:E; try discriminate.
  intros [= ->].
  destruct (scan_ratios_best _ _ _ _ None (Finite (-1)) a eq_refl
              ltac:(discriminate) E) as (_ & _ & H3 & H4).
  split; [now apply H3 | exact H4].
Qed.

Lemma allocation_has_best_score_witness :
  match optimize_teacher_student_allocation fixture_profiles
          (request_with_threshold (8 # 10)) (budget_of 10 None None) with
  | Returned (Allocated a) =>
      np_gt (score_of a) (Finite (-1)) = true
      /\ forall r a' s',
           In r teacher_ratios ->
           evaluate_ratio fixture_profiles (request_with_threshold (8 # 10))
             (budget_of 10 None None) r = Returned (Some (a', s')) ->
           np_gt s' (score_of a) = false
  | _ => False
  end.
Proof.
  destruct (optimize_teacher_student_allocation fixture_profiles
              (request_with_threshold (8 # 10)) (budget_of 10 None None))
    as [[a | e] | e] eqn:E.
  - exact (allocation_has_best_score fixture_profiles
             (request_with_threshold (8 # 10)) (budget_of 10 None None) a E).
  - vm_compute in E. discriminate E.
  - vm_compute in E. discriminate E.
Defined.

Lemma estimate_raises ps req k :
  In k (map fst ps) ->
  (profile_field speed_rating ps k == 0
   /\ estimate_generation_cost ps req k = Raised ZeroDivisionError)
  \/ (~ profile_field speed_rating ps k == 0
      /\ is_returned (estimate_generation_cost ps req k) = true).
Proof.
  intros Hin. unfold estimate_generation_cost, profile_field.
  destruct (AllocationFacts.lookup_profile_in k ps Hin) as (p & -> & _).
  destruct (Qeq_bool (speed_rating p) 0) eqn:E.
  - left. split; [now apply Qeq_bool_eq | reflexivity].
  - right. split; [now apply Qeq_bool_false | reflexivity].
Qed.

Lemma evaluate_ratio_raises ps req budget r e :
  evaluate_ratio ps req budget r = Raised e <-> raises ps e.
Proof.
  unfold raises. destruct ps as [| kp ps'] eqn:Eps.
  - cbn. split.
    + intros [= <-]. now left.
    + intros [[_ ->] | (_ & tm & sm & [=] & _)]. reflexivity.
  - rewrite <- Eps.
    assert (Hne : ps <> []) by (rewrite Eps; discriminate).
    unfold evaluate_ratio.
    destruct (AllocationFacts.select_teacher_registered ps Hne) as (tm & -> & Htm).
    destruct (AllocationFacts.select_student_registered ps Hne) as (sm & -> & Hsm).
    destruct (estimate_raises ps
                (with_quantity req
                   (Qtruncate (inject_Z (default 100%Z (quantity req)) * r)))
                tm Htm) as [[Ht0 ->] | [Ht0 Ht]].
    { split.
      - intros [= <-]. right. split; [reflexivity |]. eauto 10.
      - intros [[? _] | [-> _]]; [congruence | reflexivity]. }
    destruct (estimate_generation_cost ps _ tm) as [te |]; [| discriminate].
    destruct (estimate_raises ps
                (with_quantity req
                   (default 100%Z (quantity req)
                    - Qtruncate (inject_Z (default 100%Z (quantity req)) * r)))
                sm Hsm) as [[Hs0 ->] | [Hs0 Hs]].
    { split.
      - intros [= <-]. right. split; [reflexivity |]. eauto 10.
      - intros [[? _] | [-> _]]; [congruence | reflexivity]. }
    destruct (estimate_generation_cost ps _ sm) as [se |]; [| discriminate].
    split.
    + destruct (Qgt_bool _ _); [discriminate |].
      destruct (Qlt_bool _ _); discriminate.
    + intros [[? _] | (_ & tm' & sm' & [= <-] & [= <-] & [H | H])];
        [congruence | now elim Ht0 | now elim Hs0].
Qed.

Lemma scan_ratios_raises ps req budget ratios e : forall best best_score,
  scan_ratios ps req budget ratios best best_score = Raised e ->
  exists r, In r ratios /\ evaluate_ratio ps req budget r = Raised e.
Proof.
  induction ratios as [| r rest IH]; intros best best_score; cbn;
    [discriminate |].
  destruct (evaluate_ratio ps req budget r) as [[[a score] |] |] eqn:E.
  - destruct (np_gt score best_score); intros H;
      destruct (IH _ _ H) as (r' & Hin & Hr); eauto.
  - intros H. destruct (IH _ _ H) as (r' & Hin & Hr); eauto.
  - intros [= <-]. eauto.
Qed.

(** The only ways the allocation optimizer raises.  It raises [IndexError]
    exactly when no profile is registered, and [ZeroDivisionError] exactly
    when the teacher or the student model it selects has a speed rating of
    zero; it raises nothing else, and in every other case it returns an
    allocation or the value that reports that none is viable. *)
Theorem allocation_raises_exactly ps req budget e :
  optimize_teacher_student_allocation ps req budget = Raised e
  <-> (ps = [] /\ e = IndexError)
      \/ (e = ZeroDivisionError
          /\ exists tm sm,
               _select_best_teacher_model ps = Returned tm
               /\ _select_best_student_model ps = Returned sm
               /\ (profile_field speed_rating ps tm == 0
                   \/ profile_field speed_rating ps sm == 0)).
Proof.
  change (optimize_teacher_student_allocation ps req budget = Raised e
          <-> raises ps e).
  unfold optimize_teacher_student_allocation. split.
  - destruct (scan_ratios _ _ _ _ _ _) as [[a |] |] eqn:E; try discriminate.
    intros [= <-].
    destruct (scan_ratios_raises _ _ _ _ _ _ _ E) as (r & _ & Hr).
    now apply evaluate_ratio_raises in Hr.
  - intros H.
    apply (evaluate_ratio_raises ps req budget (5 # 100)) in H.
    change teacher_ratios with (np_arange (5 # 100) (5 # 10) (5 # 100)).
    unfold np_arange.
    change (Z.to_nat (Qceiling (((5 # 10) - (5 # 100)) / (5 # 100))))
      with 9%nat.
    cbn [seq map scan_ratios].
    assert (E : evaluate_ratio ps req budget
                  ((5 # 100) + inject_Z (Z.of_nat 0) * (5 # 100)) = Raised e).
    { rewrite evaluate_ratio_raises.
      now apply (evaluate_ratio_raises ps req budget (5 # 100)). }
    now rewrite E.
Qed.

(** [max] and [min] with a key return an extremum. *)
Lemma max_by_max f ks : forall best k,
  In k (best :: ks) -> f k <= f (max_by f best ks).
Proof.
  induction ks as [| k0 rest IH]; intros best k; cbn [max_by].
  - intros [<- | []]. apply Qle_refl.
  - intros Hin.
    assert (Hb : f best <= f (if Qgt_bool (f k0) (f best) then k0 else best)
                 /\ f k0 <= f (if Qgt_bool (f k0) (f best) then k0 else best)).
    { destruct (Qgt_bool (f k0) (f best)) eqn:E.
      - apply Qgt_bool_iff in E. split; [now apply Qlt_le_weak | apply Qle_refl].
      - apply Qgt_bool_false in E. split; [apply Qle_refl | exact E]. }
    destruct Hb as [Hb Hk0].
    destruct Hin as [<- | [<- | Hin]].
    + eapply Qle_trans; [exact Hb |]. apply IH. now left.
    + eapply Qle_trans; [exact Hk0 |]. apply IH. now left.
    + apply IH. now right.
Qed.

Lemma min_by_min f ks : forall best k,
  In k (best :: ks) -> f (min_by f best ks) <= f k.
Proof.
  induction ks as [| k0 rest IH]; intros best k; cbn [min_by].
  - intros [<- | []]. apply Qle_refl.
  - intros Hin.
    assert (Hb : f (if Qlt_bool (f k0) (f best) then k0 else best) <= f best
                 /\ f (if Qlt_bool (f k0) (f best) then k0 else best) <= f k0).
    { destruct (Qlt_bool (f k0) (f best)) eqn:E.
      - apply Qlt_bool_iff in E. split; [now apply Qlt_le_weak | apply Qle_refl].
      - apply Qlt_bool_false in E. split; [apply Qle_refl | exact E]. }
    destruct Hb as [Hb Hk0].
    destruct Hin as [<- | [<- | Hin]].
    + eapply Qle_trans; [| exact Hb]. apply IH. now left.
    + eapply Qle_trans; [| exact Hk0]. apply IH. now left.
    + apply IH. now right.
Qed.

Lemma select_teacher_spec ps t :
  _select_best_teacher_model ps = Returned t ->
  In t (map fst ps)
  /\ (forall k, In k (map fst ps) -> 8 # 10 < quality_of ps k ->
        8 # 10 < quality_of ps t
        /\ forall k', In k' (map fst ps) -> quality_of ps k' <= quality_of ps t)
  /\ ((forall k, In k (map fst ps) -> quality_of ps k <= 8 # 10) ->
      head (map fst ps) = Some t).
Proof.
  unfold _select_best_teacher_model, quality_of.
  set (q := profile_field quality_rating ps).
  assert (Hf : forall k, In k (List.filter (fun k => Qgt_bool (q k) (8 # 10))
                                 (map fst ps))
                         <-> In k (map fst ps) /\ 8 # 10 < q k).
  { intros k. rewrite List.filter_In, Qgt_bool_iff. reflexivity. }
  destruct (List.filter (fun k => Qgt_bool (q k) (8 # 10)) (map fst ps))
    as [| tk trest] eqn:Et.
  - destruct (map fst ps) as [| k0 ks] eqn:Ek; [discriminate |].
    intros [= <-]. split; [now left |]. split.
    + intros k Hk Hq. destruct (proj2 (Hf k) (conj Hk Hq)).
    + reflexivity.
  - intros [= <-].
    pose proof (AllocationFacts.max_by_in q tk trest) as Hin. apply Hf in Hin as [Hin Hq].
    pose proof (max_by_max q trest tk) as Hmax.
    split; [exact Hin |]. split.
    + intros _ _ _. split; [exact Hq |]. intros k' Hk'.
      destruct (Qlt_le_dec (8 # 10) (q k')) as [Hgt | Hle].
      * apply Hmax, Hf. auto.
      * eapply Qle_trans; [exact Hle |]. now apply Qlt_le_weak.
    + intros Hall. exfalso. exact (Qlt_not_le _ _ Hq (Hall _ Hin)).
Qed.

Lemma select_student_spec ps s :
  _select_best_student_model ps = Returned s ->
  In s (map fst ps)
  /\ (forall k, In k (map fst ps) -> input_rate_of ps k < 1 # 100 ->
        input_rate_of ps s < 1 # 100
        /\ forall k', In k' (map fst ps) ->
             input_rate_of ps s <= input_rate_of ps k')
  /\ ((forall k, In k (map fst ps) -> 1 # 100 <= input_rate_of ps k) ->
      head (map fst ps) = Some s).
Proof.
  unfold _select_best_student_model, input_rate_of.
  set (c := profile_field input_cost_per_token ps).
  assert (Hf : forall k, In k (List.filter (fun k => Qlt_bool (c k) (1 # 100))
                                 (map fst ps))
                         <-> In k (map fst ps) /\ c k < 1 # 100).
  { intros k. rewrite List.filter_In, Qlt_bool_iff. reflexivity. }
  destruct (List.filter (fun k => Qlt_bool (c k) (1 # 100)) (map fst ps))
    as [| sk srest] eqn:Es.
  - destruct (map fst ps) as [| k0 ks] eqn:Ek; [discriminate |].
    intros [= <-]. split; [now left |]. split.
    + intros k Hk Hc. destruct (proj2 (Hf k) (conj Hk Hc)).
    + reflexivity.
  - intros [= <-].
    pose proof (AllocationFacts.min_by_in c sk srest) as Hin. apply Hf in Hin as [Hin Hc].
    pose proof (min_by_min c srest sk) as Hmin.
    split; [exact Hin |]. split.
    + intros _ _ _. split; [exact Hc |]. intros k' Hk'.
      destruct (Qlt_le_dec (c k') (1 # 100)) as [Hlt | Hge].
      * apply Hmin, Hf. auto.
      * eapply Qle_trans; [| exact Hge]. now apply Qlt_le_weak.
    + intros Hall. exfalso. exact (Qlt_not_le _ _ Hc (Hall _ Hin)).
Qed.

(** The two models the allocation uses.  The teacher is a registered model
    of the highest quality rating when some rating is above 0.8, and the
    student a registered model of the lowest input rate when some rate is
    below 0.01; when no model qualifies, the first registered model is
    taken, whatever its rating or rate. *)
Theorem selected_models_are_extremal ps t s :
  _select_best_teacher_model ps = Returned t ->
  _select_best_student_model ps = Returned s ->
  (In t (map fst ps) /\ In s (map fst ps))
  /\ (forall k, In k (map fst ps) -> 8 # 10 < quality_of ps k ->
        8 # 10 < quality_of ps t
        /\ forall k', In k' (map fst ps) -> quality_of ps k' <= quality_of ps t)
  /\ (forall k, In k (map fst ps) -> input_rate_of ps k < 1 # 100 ->
        input_rate_of ps s < 1 # 100
        /\ forall k', In k' (map fst ps) ->
             input_rate_of ps s <= input_rate_of ps k')
  /\ ((forall k, In k (map fst ps) -> quality_of ps k <= 8 # 10) ->
      head (map fst ps) = Some t)
  /\ ((forall k, In k (map fst ps) -> 1 # 100 <= input_rate_of ps k) ->
      head (map fst ps) = Some s).
Proof.
  intros Ht Hs.
  destruct (select_teacher_spec ps t Ht) as (T1 & T2 & T3).
  destruct (select_student_spec ps s Hs) as (S1 & S2 & S3).
  split; [split; assumption |].
  split; [exact T2 |]. split; [exact S2 |]. split; [exact T3 | exact S3].
Qed.

Lemma selected_models_are_extremal_witness :
  (In "openai_gpt-4" (map fst fixture_profiles)
   /\ In "openai_gpt-3.5-turbo" (map fst fixture_profiles))
  /\ (forall k', In k' (map fst fixture_profiles) ->
        quality_of fixture_profiles k'
        <= quality_of fixture_profiles "openai_gpt-4")
  /\ (forall k', In k' (map fst fixture_profiles) ->
        input_rate_of fixture_profiles "openai_gpt-3.5-turbo"
        <= input_rate_of fixture_profiles k').
Proof.
  destruct (selected_models_are_extremal fixture_profiles "openai_gpt-4"
              "openai_gpt-3.5-turbo" eq_refl eq_refl)
    as (Hin & Ht & Hs & _ & _).
  split; [exact Hin |]. split.
  - apply (Ht "openai_gpt-4"); [now left | reflexivity].
  - apply (Hs "openai_gpt-3.5-turbo"); [right; now left | reflexivity].
Defined.

End SelectionFacts.

(** ** Model selection and performance tracking *)
Module ModelSelectionFacts.
Import CostOptimizer ModelSelection AllocationSpec TrackingSpec.

Lemma evaluate_model_some self req budget strategy item c :
  evaluate_model self req budget strategy item = Some c ->
  model_key c = fst item /\ profile c = snd item
  /\ estimate_generation_cost (model_profiles self) req (fst item)
     = Returned (estimate c)
  /\ _meets_budget_constraints (estimate c) budget = true
  /\ _calculate_optimization_score (cost_history self) (estimate c) strategy
     = Returned (score c).
Proof.
  unfold evaluate_model.
  destruct (estimate_generation_cost _ _ _) as [est |]; [| discriminate].
  destruct (_meets_budget_constraints est budget) eqn:Em; [| discriminate].
  cbn [negb].
  destruct (_calculate_optimization_score _ _ _) as [s |] eqn:Es;
    [| discriminate].
  intros [= <-]. cbn. auto.
Qed.

Lemma meets_budget_cost est budget :
  _meets_budget_constraints est budget = true ->
  estimated_cost est <= total_budget budget.
Proof.
  unfold _meets_budget_constraints.
  destruct (Qgt_bool (estimated_cost est) (total_budget budget)) eqn:E;
    [discriminate |].
  intros _. now apply Qgt_bool_false.
Qed.

Lemma ranked_In self req budget strategy c :
  In c (ranked_candidates self req budget strategy)
  <-> exists item, In item (model_profiles self)
        /\ evaluate_model self req budget strategy item = Some c.
Proof.
  unfold ranked_candidates.
  rewrite sorted_by_In. apply TransferFacts.In_omap.
Qed.

Lemma ranked_ordered self req budget strategy :
  ordered (fun a b => score b <= score a)
    (ranked_candidates self req budget strategy).
Proof. apply sorted_descending. Qed.


Lemma ordered_firstn {A} (R : A -> A -> Prop) n l :
  ordered R l -> ordered R (firstn n l).
Proof.
  revert n. induction l as [| x rest IH]; intros [| n]; cbn; auto.
  intros [Hx Hrest]. split; [| now apply IH].
  apply List.Forall_forall. intros y Hy.
  apply (proj1 (List.Forall_forall _ _) Hx). eapply In_firstn. exact Hy.
Qed.

Lemma ordered_map {A B} (f : A -> B) (R : B -> B -> Prop) l :
  ordered (fun a b => R (f a) (f b)) l -> ordered R (map f l).
Proof.
  induction l as [| x rest IH]; cbn; [auto |].
  intros [Hx Hrest]. split; [| now apply IH].
  apply List.Forall_forall. intros y Hy. apply List.in_map_iff in Hy as (a & <- & Ha).
  now apply (proj1 (List.Forall_forall _ _) Hx).
Qed.

End ModelSelectionFacts.

(** ** What the model selection recommends, and what tracking keeps *)
Module RecommendationFacts.
Import CostOptimizer ModelSelection AllocationSpec TrackingSpec.
Import ModelSelectionFacts.

(** The recommended model meets the budget.  When
    [optimize_model_selection] returns, the model it recommends is
    registered, its estimate passes [_meets_budget_constraints], so its
    estimated cost is within the total budget, the figures of the result
    are those of that estimate, and the budget utilization is the
    estimated cost over a total budget that is not zero; with a positive
    total budget the utilization is at most one. *)
Theorem recommended_model_meets_budget self req budget strategy sel :
  optimize_model_selection self req budget strategy = Returned sel ->
  exists p est,
    In (recommended_model sel, p) (model_profiles self)
    /\ estimate_generation_cost (model_profiles self) req
         (recommended_model sel) = Returned est
    /\ _meets_budget_constraints est budget = true
    /\ selection_cost sel = estimated_cost est
    /\ estimated_quality sel = quality_expectation est
    /\ selection_time sel = estimated_time est
    /\ selection_cost sel <= total_budget budget
    /\ ~ total_budget budget == 0
    /\ budget_utilization sel = selection_cost sel / total_budget budget
    /\ (0 < total_budget budget -> budget_utilization sel <= 1).
Proof.
  unfold optimize_model_selection.
  destruct (ranked_candidates self req budget strategy) as [| best others] eqn:E;
    [discriminate |].
  destruct (Qeq_bool (total_budget budget) 0) eqn:Ez; [discriminate |].
  intros [= <-]. cbn.
  assert (Hbest : In best (ranked_candidates self req budget strategy))
    by (rewrite E; now left).
  apply ranked_In in Hbest as ([k p] & Hin & Hc).
  apply evaluate_model_some in Hc as (Hk & _ & Hest & Hmeets & _).
  cbn [fst] in Hk, Hest. rewrite Hk.
  pose proof (meets_budget_cost _ _ Hmeets) as Hcost.
  exists p, (estimate best). repeat split; try assumption.
  - now apply Qeq_bool_false.
  - intros Hpos. apply Qle_shift_div_r; [exact Hpos |]. lra.
Qed.

Lemma recommended_model_meets_budget_witness :
  match optimize_model_selection sample_optimizer
          (request_with_threshold (8 # 10)) sample_budget BALANCED with
  | Returned sel =>
      recommended_model sel = "openai_gpt-3.5-turbo"
      /\ selection_cost sel <= total_budget sample_budget
  | Raised _ => False
  end.
Proof.
  destruct (optimize_model_selection sample_optimizer
              (request_with_threshold (8 # 10)) sample_budget BALANCED)
    as [sel | e] eqn:E.
  - destruct (recommended_model_meets_budget _ _ _ _ _ E)
      as (p & est & _ & _ & _ & _ & _ & _ & Hcost & _).
    split; [| exact Hcost].
    vm_compute in E. injection E as <-. reflexivity.
  - vm_compute in E. discriminate E.
Defined.

(** The recommended model is the best-scoring candidate.  When
    [optimize_model_selection] returns, the recommended model is a
    candidate whose score no candidate exceeds; the alternatives are at
    most four candidates, none of them scoring above the recommended
    model, listed from the highest score down. *)
Theorem recommended_model_scores_best self req budget strategy sel :
  optimize_model_selection self req budget strategy = Returned sel ->
  exists best,
    In best (ranked_candidates self req budget strategy)
    /\ model_key best = recommended_model sel
    /\ (forall item c,
          In item (model_profiles self) ->
          evaluate_model self req budget strategy item = Some c ->
          score c <= score best)
    /\ (length (alternatives sel) <= 4)%nat
    /\ Forall (fun alt =>
                 alternative_score alt <= score best
                 /\ exists c, In c (ranked_candidates self req budget strategy)
                      /\ alternative_model alt = model_key c
                      /\ alternative_score alt = score c
                      /\ alternative_cost alt = estimated_cost (estimate c))
         (alternatives sel)
    /\ ordered (fun a b => alternative_score b <= alternative_score a)
         (alternatives sel).
Proof.
  unfold optimize_model_selection.
  pose proof (ranked_ordered self req budget strategy) as Hord.
  destruct (ranked_candidates self req budget strategy) as [| best others] eqn:E;
    [discriminate |].
  destruct (Qeq_bool (total_budget budget) 0); [discriminate |].
  intros [= <-]. cbn [recommended_model alternatives].
  destruct Hord as [Hbest Hothers].
  rewrite List.Forall_forall in Hbest.
  exists best. split; [now left |]. split; [reflexivity |].
  split; [| split; [| split]].
  - intros item c Hin Hc.
    assert (Hr : In c (best :: others)).
    { rewrite <- E. apply ranked_In. eauto. }
    destruct Hr as [<- | Hr]; [apply Qle_refl | now apply Hbest].
  - rewrite length_map. apply firstn_le_length.
  - apply List.Forall_forall. intros alt Halt.
    apply List.in_map_iff in Halt as (c & <- & Hc).
    apply In_firstn in Hc. cbn. split; [now apply Hbest |].
    exists c. split; [now right |]. auto.
  - apply ordered_map. cbn. now apply ordered_firstn.
Qed.

Lemma recommended_model_scores_best_witness :
  match optimize_model_selection sample_optimizer
          (request_with_threshold (8 # 10)) sample_budget BALANCED with
  | Returned sel =>
      (length (alternatives sel) <= 4)%nat
      /\ ordered (fun a b => alternative_score b <= alternative_score a)
           (alternatives sel)
  | Raised _ => False
  end.
Proof.
  destruct (optimize_model_selection sample_optimizer
              (request_with_threshold (8 # 10)) sample_budget BALANCED)
    as [sel | e] eqn:E.
  - destruct (recommended_model_scores_best _ _ _ _ _ E)
      as (best & _ & _ & _ & Hlen & _ & Hord).
    split; [exact Hlen | exact Hord].
  - vm_compute in E. discriminate E.
Defined.


(** What tracking does to the registry. *)
Lemma lookup_update_profile key f (ps : profiles) k :
  lookup_profile k (update_profile key f ps)
  = if String.eqb key k then option_map f (lookup_profile k ps)
    else lookup_profile k ps.
Proof.
  induction ps as [| [k0 p0] rest IH]; cbn.
  - now destruct (String.eqb key k).
  - destruct (String.eqb_spec k0 key) as [-> | Hne]; cbn.
    + destruct (String.eqb_spec key k) as [-> | Hk]; reflexivity.
    + destruct (String.eqb_spec k0 k) as [-> | Hk0].
      * destruct (String.eqb_spec key k) as [-> | Hk];
          [congruence | reflexivity].
      * exact IH.
Qed.

Lemma update_profile_keys key f (ps : profiles) :
  map fst (update_profile key f ps) = map fst ps.
Proof.
  induction ps as [| [k0 p0] rest IH]; cbn; [reflexivity |].
  destruct (String.eqb k0 key); cbn; [reflexivity | now rewrite IH].
Qed.

(** Tracking never changes a cost or time estimate.  After
    [track_actual_performance], every estimate raises what it raised
    before or returns the token counts, the cost and the time it returned
    before, whatever cost and time were reported; only the quality
    expectation and the confidence of the tracked model move, each by its
    moving average. *)
Theorem tracking_keeps_cost_estimates now model_key req cost quality time
    self req' k :
  let self' :=
    track_actual_performance now model_key req cost quality time self in
  match estimate_generation_cost (model_profiles self) req' k,
        estimate_generation_cost (model_profiles self') req' k with
  | Returned before, Returned after =>
      estimated_input_tokens after = estimated_input_tokens before
      /\ estimated_output_tokens after = estimated_output_tokens before
      /\ estimated_cost after = estimated_cost before
      /\ estimated_time after = estimated_time before
      /\ (if String.eqb model_key k
          then quality_expectation after
               = (9 # 10) * quality_expectation before + (1 # 10) * quality
               /\ confidence after
                  = (95 # 100) * confidence before + (5 # 100) * 1
          else after = before)
  | Raised e, Raised e' => e = e'
  | _, _ => False
  end.
Proof.
  cbv zeta. unfold track_actual_performance, _update_model_profile.
  cbn [model_profiles]. unfold estimate_generation_cost.
  rewrite lookup_update_profile.
  destruct (lookup_profile k (model_profiles self)) as [p |];
    destruct (String.eqb model_key k); cbn [option_map];
    try reflexivity; cbn [speed_rating];
    destruct (Qeq_bool (speed_rating p) 0); try reflexivity;
    cbn; repeat split.
Qed.

Lemma on_scale_update quality p :
  0 <= quality <= 1 -> on_scale p ->
  on_scale
    {| provider := provider p; model_name := model_name p;
       input_cost_per_token := input_cost_per_token p;
       output_cost_per_token := output_cost_per_token p;
       quality_rating := (9 # 10) * quality_rating p + (1 # 10) * quality;
       speed_rating := speed_rating p;
       reliability_rating :=
         (95 # 100) * reliability_rating p + (5 # 100) * 1 |}
  /\ reliability_rating p
     <= (95 # 100) * reliability_rating p + (5 # 100) * 1.
Proof.
  unfold on_scale. cbn. intros [Hq0 Hq1] [[Hp0 Hp1] [Hr0 Hr1]].
  repeat split; lra.
Qed.

Lemma lookup_profile_Some k p (ps : profiles) :
  lookup_profile k ps = Some p -> exists k', In (k', p) ps.
Proof.
  induction ps as [| [k0 p0] rest IH]; cbn; [discriminate |].
  destruct (String.eqb k0 k).
  - intros [= ->]. exists k0. now left.
  - intros E. destruct (IH E) as (k' & Hk'). exists k'. now right.
Qed.

(** Ratings stay on their scale.  When every registered rating is between
    0 and 1 and the reported quality is too, [track_actual_performance]
    leaves every quality and reliability rating between 0 and 1, keeps the
    registered keys and their order, and lowers no reliability rating: the
    tracker has no way to record a failure. *)
Theorem ratings_stay_on_scale now model_key req cost quality time self :
  0 <= quality <= 1 ->
  Forall (fun kp => on_scale (snd kp)) (model_profiles self) ->
  let self' :=
    track_actual_performance now model_key req cost quality time self in
  Forall (fun kp => on_scale (snd kp)) (model_profiles self')
  /\ map fst (model_profiles self') = map fst (model_profiles self)
  /\ forall k,
       profile_field reliability_rating (model_profiles self) k
       <= profile_field reliability_rating (model_profiles self') k.
Proof.
  intros Hq Hall. cbv zeta.
  unfold track_actual_performance, _update_model_profile.
  cbn [model_profiles].
  split; [| split].
  - induction Hall as [| [k0 p0] rest Hp Hrest IH]; cbn; [constructor |].
    destruct (String.eqb k0 model_key).
    + constructor; [| exact Hrest]. cbn.
      now apply (on_scale_update quality p0).
    + constructor; [exact Hp | exact IH].
  - apply update_profile_keys.
  - intros k. unfold profile_field. rewrite lookup_update_profile.
    destruct (lookup_profile k (model_profiles self)) as [p |] eqn:E;
      destruct (String.eqb model_key k); cbn [option_map];
      try apply Qle_refl.
    cbn [reliability_rating].
    destruct (lookup_profile_Some _ _ _ E) as (k' & Hin).
    pose proof (proj1 (List.Forall_forall _ _) Hall (k', p) Hin) as Hp.
    now apply (on_scale_update quality p).
Qed.

Lemma ratings_stay_on_scale_witness :
  Forall (fun kp => on_scale (snd kp))
    (model_profiles
       (track_actual_performance BudgetSpec.sample_now "openai_gpt-4"
          (request_with_threshold (8 # 10)) (3 # 10) (1 # 2) 4
          sample_optimizer))
  /\ profile_field reliability_rating (model_profiles sample_optimizer)
       "openai_gpt-4"
     <= profile_field reliability_rating
          (model_profiles
             (track_actual_performance BudgetSpec.sample_now "openai_gpt-4"
                (request_with_threshold (8 # 10)) (3 # 10) (1 # 2) 4
                sample_optimizer))
          "openai_gpt-4".
Proof.
  assert (Hq : 0 <= 1 # 2 <= 1) by (split; discriminate).
  assert (Hall : Forall (fun kp => on_scale (snd kp))
                   (model_profiles sample_optimizer)).
  { repeat constructor; discriminate. }
  destruct (ratings_stay_on_scale BudgetSpec.sample_now "openai_gpt-4"
              (request_with_threshold (8 # 10)) (3 # 10) (1 # 2) 4
              sample_optimizer Hq Hall) as (H1 & _ & H3).
  split; [exact H1 | exact (H3 "openai_gpt-4")].
Defined.

Lemma update_rules_lookup performance rules k :
  default [] (_update_optimization_rules performance rules !! k)
  = if String.eqb (record_model_key performance) k
    then lastn 100 (default [] (rules !! k) ++ [entry_of performance])
    else default [] (rules !! k).
Proof.
  unfold _update_optimization_rules.
  set (key := record_model_key performance).
  set (rules0 := match rules !! key with
                 | Some _ => rules
                 | None => <[key := []]> rules
                 end).
  assert (H0 : default [] (rules0 !! key) = default [] (rules !! key)).
  { subst rules0. destruct (rules !! key) eqn:E; [now rewrite E |].
    now rewrite lookup_insert_eq. }
  assert (H1 : forall k', key <> k' -> rules0 !! k' = rules !! k').
  { intros k' Hne. subst rules0. destruct (rules !! key); [reflexivity |].
    now rewrite lookup_insert_ne. }
  rewrite H0. fold (entry_of performance).
  destruct (String.eqb_spec key k) as [<- | Hne].
  - destruct (Nat.ltb_spec 100
               (length (default [] (rules !! key) ++ [entry_of performance])))
      as [Hlt | Hge].
    + now rewrite lookup_insert_eq.
    + rewrite lookup_insert_eq. cbn [default]. symmetry. now apply lastn_all.
  - destruct (100 <? _)%nat;
      rewrite ?lookup_insert_ne by exact Hne; now rewrite H1.
Qed.

Lemma entries_for_snoc k history r :
  entries_for k (history ++ [r])
  = if String.eqb (record_model_key r) k
    then entries_for k history ++ [entry_of r]
    else entries_for k history.
Proof.
  unfold entries_for. rewrite List.filter_app. cbn [List.filter].
  destruct (String.eqb (record_model_key r) k).
  - now rewrite map_app.
  - now rewrite app_nil_r.
Qed.

Lemma history_invariant calls : forall self,
  (quality_history self = cost_history self
   /\ forall k, default [] (optimization_rules self !! k)
                = lastn 100 (entries_for k (cost_history self))) ->
  quality_history (fold_left apply_call calls self)
  = cost_history (fold_left apply_call calls self)
  /\ forall k,
       default [] (optimization_rules (fold_left apply_call calls self) !! k)
       = lastn 100
           (entries_for k
              (cost_history (fold_left apply_call calls self))).
Proof.
  induction calls as [| c rest IH]; intros self [Hq Hr]; cbn [fold_left];
    [auto |].
  apply IH. destruct c as [p | now key req cost quality time];
    cbn [apply_call register track_actual_performance cost_history
         quality_history optimization_rules].
  - auto.
  - split; [now rewrite Hq |].
    intros k. rewrite update_rules_lookup, entries_for_snoc.
    cbn [record_model_key].
    destruct (String.eqb key k); [| apply Hr].
    rewrite Hr. apply lastn_snoc. lia.
Qed.

(** The per-model performance history is the last hundred records.  After
    any sequence of registrations and [track_actual_performance] calls on
    a fresh optimizer, the cost history and the quality history hold the
    same records, and the history kept for each model under
    [optimization_rules] is the quality, cost and timestamp of the last
    100 records tracked for that model, oldest first; it never holds more
    than 100 entries. *)
Theorem performance_history_is_last_hundred calls k :
  quality_history (run calls) = cost_history (run calls)
  /\ default [] (optimization_rules (run calls) !! k)
     = lastn 100 (entries_for k (cost_history (run calls)))
  /\ (length (default [] (optimization_rules (run calls) !! k)) <= 100)%nat.
Proof.
  destruct (history_invariant calls init) as [Hq Hr].
  { split; [reflexivity |]. intros k'. cbn. now rewrite lookup_empty. }
  unfold run. split; [exact Hq |]. split; [apply Hr |].
  rewrite Hr, lastn_length. lia.
Qed.

End RecommendationFacts.

(** ** Dynamic pricing *)
Module PricingFacts.
Import CostOptimizer Pricing PricingSpec.

Lemma In_lastn {A} n (l : list A) x : In x (lastn n l) -> In x l.
Proof.
  unfold lastn. generalize (length l - n)%nat as m.
  induction l as [| y rest IH]; intros [| m]; cbn; auto.
  intros H. right. now apply (IH m).
Qed.

Lemma tracking_snoc executions e :
  tracking (executions ++ [e])
  = track_pricing_performance (fst (fst e)) (snd (fst e)) (snd e)
      (tracking executions).
Proof. unfold tracking. now rewrite fold_left_app. Qed.

(** Tracking changes neither the business hours nor the discount. *)
Lemma tracking_settings executions :
  peak_hours (tracking executions) = peak_hours init
  /\ off_peak_discount (tracking executions) = off_peak_discount init.
Proof.
  induction executions as [| e rest IH] using rev_ind; [split; reflexivity |].
  rewrite tracking_snoc. exact IH.
Qed.

Lemma in_peak_hours_tracking h executions :
  in_peak_hours h (tracking executions) = in_peak_hours h init.
Proof.
  unfold in_peak_hours. now rewrite (proj1 (tracking_settings executions)).
Qed.

(** The pricing history is the last thousand executions.  After any
    sequence of [track_pricing_performance] calls on a fresh manager the
    history holds the records of the last 1000 executions, oldest first,
    and never more; each record is marked peak by the business hours of
    [__init__], and its efficiency is quality over cost for a positive
    cost and zero otherwise, so no cost makes the division fail. *)
Theorem pricing_history_is_last_thousand executions :
  pricing_history (tracking executions)
  = lastn 1000 (map record_of executions)
  /\ (length (pricing_history (tracking executions)) <= 1000)%nat
  /\ Forall (fun r => cost r <= 0 -> efficiency r = 0)
       (pricing_history (tracking executions)).
Proof.
  assert (H : pricing_history (tracking executions)
              = lastn 1000 (map record_of executions)).
  { induction executions as [| [[t c] q] rest IH] using rev_ind;
      [reflexivity |].
    rewrite tracking_snoc, map_app. cbn [map fst snd].
    unfold track_pricing_performance. cbn [pricing_history].
    rewrite !in_peak_hours_tracking, IH.
    change {| execution_time := t; record_hour := hour t;
              is_peak := in_peak_hours (hour t) init; cost := c;
              quality := q;
              efficiency := if Qgt_bool c 0 then q / c else 0 |}
      with (record_of (t, c, q)).
    destruct (Nat.ltb_spec 1000
                (length (lastn 1000 (map record_of rest)
                         ++ [record_of (t, c, q)]))) as [Hlt | Hge].
    - apply lastn_snoc. lia.
    - rewrite <- (lastn_all 1000 _ Hge). apply lastn_snoc. lia. }
  split; [exact H |]. split.
  - rewrite H, lastn_length. lia.
  - rewrite H. apply List.Forall_forall. intros r Hr.
    apply In_lastn in Hr.
    apply List.in_map_iff in Hr as ([[t c] q] & <- & _). cbn.
    intros Hc. apply Qgt_bool_false in Hc. now rewrite Hc.
Qed.

(** Rounding that is accurate keeps a result within the fraction [eps] of
    its exact value, on either side of zero. *)
Lemma accurate_bounds fl eps x :
  accurate fl eps x ->
  (0 <= x -> x - eps * x <= fl x <= x + eps * x)
  /\ (x <= 0 -> x + eps * x <= fl x <= x - eps * x).
Proof.
  unfold accurate. intros H. apply Qabs_Qle_condition in H as [Hlo Hhi].
  split; intros Hx.
  - rewrite Qabs_pos in Hlo, Hhi by exact Hx. split; lra.
  - rewrite Qabs_neg in Hlo, Hhi by exact Hx. split; lra.
Qed.

Lemma exact_at_zero eps x y :
  x == 0 -> x - eps * x <= y <= x + eps * x -> y == 0.
Proof.
  intros Hx [H1 H2]. rewrite Hx in H1, H2. lra.
Qed.

(** With accurate arithmetic the savings exceed five percent of the cost
    exactly for a positive cost. *)
Lemma savings_exceed_threshold fl eps b :
  0 <= eps -> eps <= 1 # 1000 -> accurate_timing fl eps b ->
  fl (b * fl (5 # 100)) < fl (b - fl (b * fl (1 - off_peak_discount init)))
  <-> 0 < b.
Proof.
  intros He0 He1 (Hk & Hoff & Hs & Hc & Ht).
  change (off_peak_discount init) with (1 # 10) in *.
  apply accurate_bounds in Hk as [Hk _].
  apply accurate_bounds in Hc as [Hc _].
  apply accurate_bounds in Hoff as [Hoffp Hoffn].
  apply accurate_bounds in Hs as [Hsp Hsn].
  apply accurate_bounds in Ht as [Htp Htn].
  set (k := fl (1 - (1 # 10))) in *.
  set (c5 := fl (5 # 100)) in *.
  set (off := fl (b * k)) in *.
  set (t := fl (b * c5)) in *.
  set (s := fl (b - off)) in *.
  clearbody s t off c5 k.
  assert (Hk1 : 8991 # 10000 <= k /\ k <= 9009 # 10000).
  { assert (H : 0 <= 1 - (1 # 10)) by (clear; lra).
    specialize (Hk H). clear - Hk He0 He1. split; lra. }
  assert (Hc1 : 0 <= c5 /\ c5 <= 5005 # 100000).
  { assert (H : 0 <= 5 # 100) by (clear; lra).
    specialize (Hc H). clear - Hc He0 He1. split; lra. }
  clear Hk Hc. destruct Hk1 as [Hk1 Hk2], Hc1 as [Hc1 Hc2].
  destruct (Q_dec 0 b) as [[Hpos | Hneg] | Hzero].
  - (* a positive cost *)
    clear Hoffn Hsn Htn.
    assert (Hbk : 0 <= b * k /\ b * k <= (9009 # 10000) * b)
      by (clear - Hpos Hk1 Hk2; split; nra).
    destruct Hbk as [Hbk0 Hbk1]. specialize (Hoffp Hbk0).
    assert (Hoff1 : off <= (9019 # 10000) * b)
      by (clear - Hoffp Hbk0 Hbk1 He0 He1 Hpos; nra).
    assert (Hd : (981 # 10000) * b <= b - off) by (clear - Hoff1; lra).
    assert (Hd0 : 0 <= b - off) by (clear - Hd Hpos; lra).
    specialize (Hsp Hd0).
    assert (Hs1 : (98 # 1000) * b <= s)
      by (clear - Hsp Hd Hd0 He0 He1 Hpos; nra).
    assert (Hbc : 0 <= b * c5 /\ b * c5 <= (5005 # 100000) * b)
      by (clear - Hpos Hc1 Hc2; split; nra).
    destruct Hbc as [Hbc0 Hbc1]. specialize (Htp Hbc0).
    assert (Ht1 : t <= (502 # 10000) * b)
      by (clear - Htp Hbc0 Hbc1 He0 He1 Hpos; nra).
    split; [intros _; exact Hpos | intros _; clear - Hs1 Ht1 Hpos; lra].
  - (* a negative cost *)
    clear Hoffp Hsp Htp.
    assert (Hbk : b * k <= 0 /\ (9009 # 10000) * b <= b * k)
      by (clear - Hneg Hk1 Hk2; split; nra).
    destruct Hbk as [Hbk0 Hbk1]. specialize (Hoffn Hbk0).
    assert (Hoff1 : (9019 # 10000) * b <= off)
      by (clear - Hoffn Hbk0 Hbk1 He0 He1 Hneg; nra).
    assert (Hd : b - off <= (981 # 10000) * b) by (clear - Hoff1; lra).
    assert (Hd0 : b - off <= 0) by (clear - Hd Hneg; lra).
    specialize (Hsn Hd0).
    assert (Hs1 : s <= (98 # 1000) * b)
      by (clear - Hsn Hd Hd0 He0 He1 Hneg; nra).
    assert (Hbc : b * c5 <= 0 /\ (5005 # 100000) * b <= b * c5)
      by (clear - Hneg Hc1 Hc2; split; nra).
    destruct Hbc as [Hbc0 Hbc1]. specialize (Htn Hbc0).
    assert (Ht1 : (502 # 10000) * b <= t)
      by (clear - Htn Hbc0 Hbc1 He0 He1 Hneg; nra).
    split; intros H; exfalso; clear - H Hs1 Ht1 Hneg; lra.
  - (* no cost *)
    clear Hoffn Hsn Htn.
    assert (Hbk : b * k == 0) by (rewrite <- Hzero; clear; lra).
    assert (Hbk0 : 0 <= b * k) by (clear - Hbk; lra).
    specialize (Hoffp Hbk0).
    assert (Hoff0 : off == 0) by exact (exact_at_zero _ _ _ Hbk Hoffp).
    assert (Hd0 : 0 <= b - off) by (clear - Hoff0 Hzero; lra).
    specialize (Hsp Hd0).
    assert (Hs0 : s == 0)
      by (apply (exact_at_zero eps (b - off)); [clear - Hoff0 Hzero; lra | exact Hsp]).
    assert (Hbc : b * c5 == 0) by (rewrite <- Hzero; clear; lra).
    assert (Hbc0 : 0 <= b * c5) by (clear - Hbc; lra).
    specialize (Htp Hbc0).
    assert (Ht0 : t == 0) by exact (exact_at_zero _ _ _ Hbc Htp).
    split; intros H; exfalso; clear - H Hs0 Ht0 Hzero; lra.
Qed.

(** The advice of [get_optimal_timing], on a manager that has only tracked
    executions.  Whatever the rounding: the advice is to delay or to run
    immediately, and to delay only in business hours; a delayed execution
    is offered exactly in business hours, timed at the hour
    [_get_next_off_peak_hour] names, and the advice is then to delay
    exactly when the savings it reports exceed the five percent of the
    cost that the call computes; the budget is not read, and a missing
    estimate counts as zero.  When the five float operations of the call
    are accurate to one part in a thousand, the advice is to delay exactly
    when the current hour is a business hour and the estimated cost is
    positive. *)
Theorem timing_advice_delays_only_paid_peak_work fl executions now estimated
    budget :
  let advice :=
    get_optimal_timing fl now estimated budget (tracking executions) in
  let base_cost := default 0 estimated in
  (recommendation advice = "delay" \/ recommendation advice = "immediate")
  /\ execution_cost (immediate_execution advice) = base_cost
  /\ (recommendation advice = "delay" ->
      in_peak_hours (hour now) init = true)
  /\ match delayed_execution advice with
     | Some d =>
         in_peak_hours (hour now) init = true
         /\ next_optimal_time d
            = _get_next_off_peak_hour now (tracking executions)
         /\ (recommendation advice = "delay"
             <-> fl (base_cost * fl (5 # 100)) < savings d)
     | None =>
         in_peak_hours (hour now) init = false
         /\ recommendation advice = "immediate"
     end
  /\ (forall budget',
        get_optimal_timing fl now estimated budget' (tracking executions)
        = advice)
  /\ get_optimal_timing fl now None budget (tracking executions)
     = get_optimal_timing fl now (Some 0) budget (tracking executions)
  /\ (forall eps,
        0 <= eps -> eps <= 1 # 1000 -> accurate_timing fl eps base_cost ->
        (recommendation advice = "delay"
         <-> in_peak_hours (hour now) init = true /\ 0 < base_cost)).
Proof.
  cbv zeta. unfold get_optimal_timing.
  destruct (tracking_settings executions) as [Hp Hd].
  rewrite in_peak_hours_tracking, Hd.
  set (b := default 0 estimated).
  destruct (in_peak_hours (hour now) init) eqn:Epeak;
    cbn [recommendation immediate_execution delayed_execution execution_cost
         delayed_cost savings next_optimal_time].
  - destruct (Qgt_bool (fl (b - fl (b * fl (1 - off_peak_discount init))))
                (fl (b * fl (5 # 100)))) eqn:E.
    + apply Qgt_bool_iff in E.
      split; [now left |]. split; [reflexivity |]. split; [reflexivity |].
      split; [split; [reflexivity | split; [reflexivity | tauto]] |].
      split; [reflexivity |]. split; [reflexivity |].
      intros eps He0 He1 Hacc.
      pose proof (savings_exceed_threshold fl eps b He0 He1 Hacc) as Hiff.
      split; [intros _; split; [reflexivity | now apply Hiff] | reflexivity].
    + apply Qgt_bool_false in E.
      split; [now right |]. split; [reflexivity |]. split; [discriminate |].
      split; [split; [reflexivity | split; [reflexivity |]] |].
      { split; [discriminate | intros H; exfalso; lra]. }
      split; [reflexivity |]. split; [reflexivity |].
      intros eps He0 He1 Hacc.
      pose proof (savings_exceed_threshold fl eps b He0 He1 Hacc) as Hiff.
      split; [discriminate |]. intros [_ Hb]. apply Hiff in Hb.
      exfalso. lra.
  - split; [now right |]. split; [reflexivity |]. split; [discriminate |].
    split; [split; reflexivity |].
    split; [reflexivity |]. split; [reflexivity |].
    intros eps _ _ _. split; [discriminate | intros [H _]; discriminate H].
Qed.

Lemma timing_advice_delays_only_paid_peak_work_witness :
  recommendation
    (get_optimal_timing binary64 BudgetSpec.sample_now (Some 1)
       (BudgetSpec.budget_of 10 None None) (tracking []))
  = "delay".
Proof.
  apply (proj2 (proj2 (proj2 (proj2 (proj2 (proj2
           (timing_advice_delays_only_paid_peak_work binary64 []
              BudgetSpec.sample_now (Some 1)
              (BudgetSpec.budget_of 10 None None)))))))
           (1 # 1000)).
  - discriminate.
  - discriminate.
  - unfold accurate_timing, accurate. cbv zeta.
    repeat split; vm_compute; discriminate.
  - split; reflexivity.
Defined.

(** The discount is stored as the float nearest to 0.1; the share that
    is kept of the cost is the same float for it and for 0.1 itself. *)
Example kept_share_of_the_float_discount :
  binary64 (1 - binary64 (off_peak_discount init))
  = binary64 (1 - off_peak_discount init).
Proof. reflexivity. Qed.

(** The smallest positive float is a cost for which the product and the
    difference are not accurate: in business hours the savings come out
    as zero and the advice is to run immediately. *)
Example smallest_cost_is_not_delayed :
  recommendation
    (get_optimal_timing binary64 BudgetSpec.sample_now
       (Some (1 # 2 ^ 1074)) (BudgetSpec.budget_of 10 None None)
       (tracking []))
  = "immediate".
Proof. vm_compute. reflexivity. Qed.
Lemma first_off_peak_find offsets now self :
  first_off_peak offsets now self
  = option_map (fun k => plus_hours k now)
      (find (fun k => negb (in_peak_hours (hour (plus_hours k now)) self))
         offsets).
Proof.
  induction offsets as [| k rest IH]; cbn; [reflexivity |].
  destruct (negb (in_peak_hours (hour (plus_hours k now)) self));
    [reflexivity | exact IH].
Qed.

Lemma find_pointwise {A} (f g : A -> bool) l :
  (forall x, f x = g x) -> find f l = find g l.
Proof.
  intros H. induction l as [| x rest IH]; cbn; [reflexivity |].
  now rewrite H, IH.
Qed.

Lemma first_off_peak_offset now self :
  (hour now < 24)%N ->
  first_off_peak (seq 1 23) now self
  = option_map (fun k => plus_hours k now)
      (off_peak_offset (peak_hours self) (hour now)).
Proof.
  intros H. rewrite first_off_peak_find. unfold off_peak_offset.
  rewrite (find_pointwise _
             (fun k => negb (existsb (N.eqb ((hour now + N.of_nat k) mod 24))
                               (peak_hours self)))); [reflexivity |].
  intros k. unfold in_peak_hours. now rewrite plus_hours_hour.
Qed.

Lemma every_hour_has_a_near_offset h :
  (h < 24)%N -> near_offset (peak_hours init) h = true.
Proof.
  intros H.
  assert (Hall : forallb (near_offset (peak_hours init))
                   (map N.of_nat (seq 0 24)) = true) by (vm_compute; reflexivity).
  rewrite forallb_forall in Hall. apply Hall.
  apply List.in_map_iff. exists (N.to_nat h).
  split; [apply Nnat.N2Nat.id |]. apply List.in_seq. lia.
Qed.

(** The next off-peak hour is near.  At a clock reading with a valid hour,
    on a manager that has only tracked executions,
    [_get_next_off_peak_hour] names the first later hour that is outside
    business hours: it lies between one and four hours ahead, at most
    three when the current hour is a business hour, and the fallback to
    the next midnight is never taken. *)
Theorem next_off_peak_hour_is_near executions now :
  (hour now < 24)%N ->
  exists k,
    _get_next_off_peak_hour now (tracking executions)
    = strftime_hour (plus_hours k now) +:+ ":00"
    /\ (1 <= k <= 4)%nat
    /\ (in_peak_hours (hour now) init = true -> (k <= 3)%nat)
    /\ in_peak_hours (hour (plus_hours k now)) init = false
    /\ forall j, (1 <= j < k)%nat ->
         in_peak_hours (hour (plus_hours j now)) init = true.
Proof.
  intros H. unfold _get_next_off_peak_hour.
  rewrite (first_off_peak_offset now _ H), (proj1 (tracking_settings executions)).
  pose proof (every_hour_has_a_near_offset (hour now) H) as Hnear.
  unfold near_offset in Hnear.
  destruct (off_peak_offset (peak_hours init) (hour now)) as [k |];
    [| discriminate].
  apply andb_prop in Hnear as [Hnear Hbefore].
  apply andb_prop in Hnear as [Hnear Hoff].
  apply andb_prop in Hnear as [Hnear Hpeak].
  apply andb_prop in Hnear as [H1 H4].
  apply Nat.leb_le in H1, H4.
  exists k. cbn [option_map]. split; [reflexivity |].
  split; [lia |]. split; [| split].
  - intros Hp. unfold in_peak_hours in Hp. rewrite Hp in Hpeak.
    now apply Nat.leb_le in Hpeak.
  - unfold in_peak_hours. rewrite plus_hours_hour by exact H.
    now apply negb_true_iff in Hoff.
  - intros j Hj. unfold in_peak_hours. rewrite plus_hours_hour by exact H.
    rewrite forallb_forall in Hbefore. apply Hbefore.
    apply List.in_seq. lia.
Qed.

Lemma next_off_peak_hour_is_near_witness :
  exists k,
    _get_next_off_peak_hour BudgetSpec.sample_now (tracking [])
    = strftime_hour (plus_hours k BudgetSpec.sample_now) +:+ ":00"
    /\ (1 <= k <= 4)%nat.
Proof.
  destruct (next_off_peak_hour_is_near [] BudgetSpec.sample_now
              ltac:(reflexivity)) as (k & Hk & Hrange & _).
  exists k. split; [exact Hk | exact Hrange].
Defined.

Lemma filter_partition_length {A} (f : A -> bool) l :
  (length (List.filter f l) + length (List.filter (fun x => negb (f x)) l)
   = length l)%nat.
Proof.
  induction l as [| x rest IH]; cbn; [reflexivity |].
  destruct (f x); cbn; lia.
Qed.

(** What [analyze_pricing_patterns] reports.  It reports insufficient
    data exactly when the history has fewer than ten records or lacks a
    peak or an off-peak record; otherwise both samples are non-empty,
    their sizes add up to the length of the history, the cost savings are
    the peak average minus the off-peak average, and off-peak is
    recommended exactly when those savings are positive. *)
Theorem pricing_analysis_report self :
  match analyze_pricing_patterns self with
  | insufficient_data =>
      (length (pricing_history self) < 10)%nat
      \/ List.filter is_peak (pricing_history self) = []
      \/ List.filter (fun r => negb (is_peak r)) (pricing_history self) = []
  | Analysed peak off_peak recommended =>
      (10 <= length (pricing_history self))%nat
      /\ (0 < sample_size peak)%nat /\ (0 < sample_size off_peak)%nat
      /\ (sample_size peak + sample_size off_peak
          = length (pricing_history self))%nat
      /\ cost_savings recommended = average_cost peak - average_cost off_peak
      /\ (optimal_timing recommended = "off_peak"
          <-> 0 < cost_savings recommended)
      /\ (optimal_timing recommended = "off_peak"
          \/ optimal_timing recommended = "peak")
  end.
Proof.
  unfold analyze_pricing_patterns.
  pose proof (filter_partition_length is_peak (pricing_history self)) as Hlen.
  destruct (Nat.ltb_spec (length (pricing_history self)) 10) as [Hlt | Hge];
    [now left |].
  destruct (List.filter is_peak (pricing_history self)) as [| p ps] eqn:Ep;
    [right; now left |].
  destruct (List.filter (fun r => negb (is_peak r)) (pricing_history self))
    as [| o os] eqn:Eo; [right; now right |].
  cbn [sample_size cost_savings average_cost optimal_timing].
  split; [exact Hge |]. split; [cbn; lia |]. split; [cbn; lia |].
  split; [exact Hlen |]. split; [reflexivity |].
  set (pc := np_mean_floats (map cost (p :: ps))).
  set (oc := np_mean_floats (map cost (o :: os))).
  destruct (Qlt_bool oc pc) eqn:E.
  - apply Qlt_bool_iff in E. split; [| now left].
    split; [intros _; lra | reflexivity].
  - apply Qlt_bool_false in E. split; [| now right].
    split; [discriminate | intros H; exfalso; lra].
Qed.

End PricingFacts.

(** ** The rate the limiter enforces *)
Module ThrottleFacts.
Import Providers RateLimiterSpec ThrottleSpec.

(** Pruning a list of increasing timestamps drops a prefix. *)
Lemma prune_sorted cutoff times :
  ordered Qle times ->
  exists dropped,
    times = dropped ++ prune cutoff times
    /\ Forall (fun t => t <= cutoff) dropped.
Proof.
  induction times as [| t rest IH]; intros Hsorted.
  - exists []. split; [reflexivity | constructor].
  - destruct Hsorted as [Ht Hrest].
    destruct (Qlt_le_dec cutoff t) as [Hnew | Hold].
    + exists []. split; [| constructor].
      cbn [app]. symmetry. apply RateLimiterFacts.prune_keeps_recent.
      constructor; [exact Hnew |].
      eapply List.Forall_impl; [| exact Ht].
      intros t' Ht'. cbv beta in Ht'. clear - Hnew Ht'. lra.
    + destruct (IH Hrest) as (dropped & Hsplit & Hdropped).
      exists (t :: dropped). split; [| now constructor].
      unfold prune. cbn [List.filter].
      apply Qgt_bool_false in Hold. rewrite Hold.
      cbn [app]. f_equal. exact Hsplit.
Qed.

Lemma ordered_app_r {A} (R : A -> A -> Prop) l1 l2 :
  ordered R (l1 ++ l2) -> ordered R l2.
Proof.
  induction l1 as [| x rest IH]; cbn; [auto |]. intros [_ H]. now apply IH.
Qed.

Lemma ordered_snoc (l : list Q) c :
  ordered Qle l -> Forall (fun t => t <= c) l -> ordered Qle (l ++ [c]).
Proof.
  induction l as [| x rest IH]; cbn; [intros _ _; split; constructor |].
  intros [Hx Hrest] Hall. apply List.Forall_cons_iff in Hall as [Hxc Hall].
  split; [| now apply IH].
  apply List.Forall_app. split; [exact Hx | now constructor].
Qed.

(** One call, from a limiter whose timestamps increase and do not lie
    ahead of the clock: the call returns, it drops a prefix of the
    timestamps, every dropped timestamp is at least 60 seconds older than
    the reading the call records, and fewer than [N] timestamps stay in
    front of that reading. *)
Lemma wait_if_needed_step lag now N ts :
  (1 <= N)%Z -> 0 <= lag ->
  ordered Qle ts ->
  Forall (fun t => t <= now) ts ->
  (Z.of_nat (length ts) <= N)%Z ->
  exists w dropped kept,
    wait_if_needed lag now {| requests_per_minute := N; request_times := ts |}
    = Returned w
    /\ ts = dropped ++ kept
    /\ limiter_after w
       = {| requests_per_minute := N;
            request_times := kept ++ [clock_after w] |}
    /\ now <= clock_after w
    /\ Forall (fun t => t + 60 <= clock_after w) dropped
    /\ (Z.of_nat (length kept) < N)%Z.
Proof.
  intros HN Hlag Hsorted Hpast Hlen.
  unfold wait_if_needed. cbn [requests_per_minute request_times].
  destruct (prune_sorted (now - 60) ts Hsorted) as (d1 & Hsplit & Hd1).
  pose proof (RateLimiterFacts.prune_recent (now - 60) ts) as Hrecent.
  set (window := prune (now - 60) ts) in *.
  assert (Hwlen : (length d1 + length window = length ts)%nat).
  { pose proof (f_equal (@length Q) Hsplit) as Hl.
    rewrite length_app in Hl. lia. }
  assert (Hd1' : forall c, now <= c -> Forall (fun t => t + 60 <= c) d1).
  { intros c Hc. eapply List.Forall_impl; [| exact Hd1].
    intros t Ht. cbv beta in Ht. clear - Ht Hc. lra. }
  destruct (Z.leb_spec N (Z.of_nat (length window))) as [Hfull | Hroom].
  - destruct window as [| oldest rest] eqn:Ew; [cbn in Hfull; lia |].
    apply List.Forall_cons_iff in Hrecent as [Hold _].
    assert (Hw : 0 < 60 - (now - oldest)) by (clear - Hold; lra).
    apply Qgt_bool_iff in Hw. rewrite Hw. apply Qgt_bool_iff in Hw.
    set (now' := now + (60 - (now - oldest)) + lag).
    assert (Hnow' : now <= now') by (subst now'; clear - Hw Hlag; lra).
    assert (Hsw : ordered Qle (oldest :: rest)).
    { apply (ordered_app_r Qle d1). now rewrite <- Hsplit. }
    destruct (prune_sorted (now' - 60) (oldest :: rest) Hsw)
      as (d2 & Hsplit2 & Hd2).
    assert (Hd2ne : d2 <> []).
    { intros ->. cbn [app] in Hsplit2.
      apply (RateLimiterFacts.prune_drops_old (now' - 60) (oldest :: rest)
               oldest).
      - subst now'. clear - Hlag. lra.
      - rewrite <- Hsplit2. now left. }
    exists {| slept := Some (60 - (now - oldest)); clock_after := now';
              limiter_after :=
                {| requests_per_minute := N;
                   request_times :=
                     prune (now' - 60) (oldest :: rest) ++ [now'] |} |},
      (d1 ++ d2), (prune (now' - 60) (oldest :: rest)).
    cbn [clock_after limiter_after].
    split; [reflexivity |]. split.
    { rewrite <- app_assoc, <- Hsplit2. exact Hsplit. }
    split; [reflexivity |]. split; [exact Hnow' |]. split.
    + apply List.Forall_app. split; [now apply Hd1' |].
      eapply List.Forall_impl; [| exact Hd2].
      intros t Ht. cbv beta in Ht. clear - Ht. lra.
    + apply (f_equal (@length Q)) in Hsplit2.
      rewrite length_app in Hsplit2.
      destruct d2 as [| x d2']; [congruence |].
      cbn [length] in *. lia.
  - exists {| slept := None; clock_after := now;
              limiter_after :=
                {| requests_per_minute := N;
                   request_times := window ++ [now] |} |},
      d1, window.
    cbn [clock_after limiter_after].
    split; [reflexivity |]. split; [exact Hsplit |].
    split; [reflexivity |]. split; [apply Qle_refl |].
    split; [apply Hd1'; apply Qle_refl | exact Hroom].
Qed.

Lemma spaced_snoc n (expired kept : list Q) c :
  spaced n (expired ++ kept) ->
  Forall (fun t => t + 60 <= c) expired ->
  (length kept < n)%nat ->
  spaced n ((expired ++ kept) ++ [c]).
Proof.
  intros Hspaced Hexpired Hkept i a b Ha Hb.
  destruct (Nat.lt_ge_cases (i + n) (length (expired ++ kept))) as [Hin | Hout].
  - rewrite lookup_app_l in Hb by exact Hin.
    rewrite lookup_app_l in Ha by lia.
    eapply Hspaced; eassumption.
  - assert (Hi : (i + n = length (expired ++ kept))%nat).
    { apply lookup_lt_Some in Hb. rewrite length_app in Hb. cbn in Hb. lia. }
    rewrite Hi, lookup_app_r, Nat.sub_diag in Hb by lia.
    injection Hb as <-.
    rewrite length_app in Hi.
    rewrite <- app_assoc, lookup_app_l in Ha by lia.
    apply list_elem_of_lookup_2, list_elem_of_In in Ha.
    now apply (proj1 (List.Forall_forall _ _) Hexpired).
Qed.

(** The run of a single caller, from any limiter that satisfies the
    invariant. *)
Lemma admitted_from (N : Z) calls : forall clock expired ts,
  (1 <= N)%Z ->
  forward calls ->
  ordered Qle ts ->
  Forall (fun t => t <= clock) ts ->
  (Z.of_nat (length ts) <= N)%Z ->
  spaced (Z.to_nat N) (expired ++ ts) ->
  Forall (fun t => t + 60 <= clock) expired ->
  exists times self',
    admitted calls clock {| requests_per_minute := N; request_times := ts |}
    = Returned (times, self')
    /\ length times = length calls
    /\ spaced (Z.to_nat N) ((expired ++ ts) ++ times)
    /\ (Z.of_nat (length (request_times self')) <= N)%Z
    /\ requests_per_minute self' = N.
Proof.
  induction calls as [| [gap lag] rest IH];
    intros clock expired ts HN Hforward Hsorted Hpast Hlen Hspaced Hexpired.
  - exists [], {| requests_per_minute := N; request_times := ts |}.
    rewrite app_nil_r. cbn. auto.
  - apply List.Forall_cons_iff in Hforward as [[Hgap Hlag] Hforward].
    cbn [fst snd] in Hgap, Hlag. cbn [admitted].
    assert (Hpast' : Forall (fun t => t <= clock + gap) ts).
    { eapply List.Forall_impl; [| exact Hpast].
      intros t Ht. cbv beta in Ht. clear - Ht Hgap. lra. }
    destruct (wait_if_needed_step lag (clock + gap) N ts HN Hlag Hsorted
                Hpast' Hlen)
      as (w & dropped & kept & -> & Hsplit & Hafter & Hnow & Hdropped & Hkept).
    rewrite Hafter.
    assert (Hclock : clock <= clock_after w) by (clear - Hgap Hnow; lra).
    assert (Hkept_past : Forall (fun t => t <= clock_after w) kept).
    { assert (Hk : Forall (fun t => t <= clock) kept).
      { rewrite Hsplit in Hpast. now apply List.Forall_app in Hpast as [_ ?]. }
      eapply List.Forall_impl; [| exact Hk].
      intros t Ht. cbv beta in Ht. clear - Ht Hclock. lra. }
    destruct (IH (clock_after w) (expired ++ dropped)
                (kept ++ [clock_after w]))
      as (times & self' & -> & Hlen' & Hspaced' & Hsize & HN');
      try assumption.
    + apply ordered_snoc; [| exact Hkept_past].
      apply (ordered_app_r Qle dropped). now rewrite <- Hsplit.
    + apply List.Forall_app. split; [exact Hkept_past |].
      constructor; [apply Qle_refl | constructor].
    + rewrite length_app. cbn [length]. lia.
    + replace ((expired ++ dropped) ++ kept ++ [clock_after w])
        with (((expired ++ dropped) ++ kept) ++ [clock_after w])
        by (now rewrite <- !app_assoc).
      apply (spaced_snoc _ (expired ++ dropped) kept).
      * replace ((expired ++ dropped) ++ kept) with (expired ++ ts);
          [exact Hspaced |].
        rewrite Hsplit, app_assoc. reflexivity.
      * apply List.Forall_app. split; [| exact Hdropped].
        eapply List.Forall_impl; [| exact Hexpired].
        intros t Ht. cbv beta in Ht. clear - Ht Hclock. lra.
      * lia.
    + apply List.Forall_app. split; [| exact Hdropped].
      eapply List.Forall_impl; [| exact Hexpired].
      intros t Ht. cbv beta in Ht. clear - Ht Hclock. lra.
    + exists (clock_after w :: times), self'.
      split; [reflexivity |]. split; [cbn; now rewrite Hlen' |].
      split; [| split; assumption].
      rewrite Hsplit.
      replace ((expired ++ dropped ++ kept) ++ clock_after w :: times)
        with (((expired ++ dropped) ++ kept ++ [clock_after w]) ++ times);
        [exact Hspaced' |].
      rewrite <- !app_assoc. reflexivity.
Qed.

(** The limiter enforces its rate.  For a limit [N >= 1] and a single
    caller whose pauses and sleep latenesses are not negative, every call
    to a fresh limiter returns, and the clock readings at which the calls
    are let through are such that any two readings [N] calls apart are at
    least 60 seconds apart: no window of 60 seconds that starts at a call
    sees more than [N] calls.  The limiter never remembers more than [N]
    timestamps. *)
Theorem rate_limit_is_enforced (N : Z) calls clock :
  (1 <= N)%Z ->
  forward calls ->
  exists times self',
    admitted calls clock (init N) = Returned (times, self')
    /\ length times = length calls
    /\ spaced (Z.to_nat N) times
    /\ (Z.of_nat (length (request_times self')) <= N)%Z.
Proof.
  intros HN Hforward.
  destruct (admitted_from N calls clock [] [] HN Hforward)
    as (times & self' & Hrun & Hlen & Hspaced & Hsize & _).
  - exact I.
  - constructor.
  - cbn. lia.
  - intros i a b Ha. discriminate Ha.
  - constructor.
  - exists times, self'. cbn [app] in Hspaced. auto.
Qed.

Lemma rate_limit_is_enforced_witness :
  exists times self',
    admitted [(0, 0); (1, 0); (1, 0)] 100 (init 2) = Returned (times, self')
    /\ length times = 3%nat
    /\ spaced 2 times.
Proof.
  assert (Hforward : forward [(0, 0); (1, 0); (1, 0)]).
  { repeat (constructor; [split; discriminate |]). constructor. }
  destruct (rate_limit_is_enforced 2 [(0, 0); (1, 0); (1, 0)] 100
              ltac:(lia) Hforward) as (times & self' & Hrun & Hlen & Hsp & _).
  exists times, self'. split; [exact Hrun |]. split; [exact Hlen | exact Hsp].
Defined.

End ThrottleFacts.

(** ** The student's bulk generation and the size of a data set *)
Module BulkFacts.
Import Core CoreSpec BulkSpec.

Lemma range_list_unit_from start stop :
  length (range_list start stop 1) = Z.to_nat (stop - start).
Proof.
  unfold range_list. change (0 <? 1)%Z with true. cbv iota.
  rewrite length_map, length_seq. f_equal.
  rewrite Z.div_1_r. lia.
Qed.

Lemma batch_total_from quantity m : forall a,
  (m = 0%nat \/
   (20 * (Z.of_nat a + Z.of_nat m - 1) < quantity
    <= 20 * (Z.of_nat a + Z.of_nat m))%Z) ->
  batch_total quantity (map (fun i => (0 + Z.of_nat i * 20)%Z) (seq a m))
  = if Nat.eqb m 0 then 0%nat else Z.to_nat (quantity - 20 * Z.of_nat a).
Proof.
  induction m as [| m IH]; intros a Hq; [reflexivity |].
  destruct Hq as [Hq | Hq]; [discriminate |].
  cbn [seq map batch_total fold_right Nat.eqb].
  change (fold_right _ 0%nat ?l) with (batch_total quantity l).
  rewrite range_list_unit_from, (IH (S a)).
  - destruct m as [| m']; cbn [Nat.eqb]; lia.
  - destruct m as [| m']; [now left | right; lia].
Qed.

Lemma batch_total_range quantity :
  batch_total quantity (range_list 0 quantity 20) = Z.to_nat quantity.
Proof.
  unfold range_list. change (0 <? 20)%Z with true. cbv iota.
  rewrite Z.sub_0_r.
  pose proof (Z.div_mod (quantity + 20 - 1) 20 ltac:(lia)) as Hdiv.
  pose proof (Z.mod_pos_bound (quantity + 20 - 1) 20 ltac:(lia)) as Hmod.
  set (n := ((quantity + 20 - 1) / 20)%Z) in *.
  destruct (Z.le_gt_cases quantity 0) as [Hle | Hpos].
  - replace (Z.to_nat n) with 0%nat by lia. cbn. lia.
  - rewrite batch_total_from.
    + destruct (Nat.eqb_spec (Z.to_nat n) 0); lia.
    + right. lia.
Qed.

Section Student.
Context {W : Type} (request : GenerationRequest) (self : StudentModel W).

Lemma collect_responses_observed responses : forall results,
  collect_responses (observed_student self) responses results
  = collect_responses self responses results
  /\ length (collect_responses self responses results)
     = (length results + returned_count responses)%nat
  /\ (Forall (fun item => s_model item = s_model_name self) results ->
      Forall (fun item => s_model item = s_model_name self)
        (collect_responses self responses results)).
Proof.
  induction responses as [| [response | e] rest IH]; intros results;
    cbn [collect_responses].
  - unfold returned_count. cbn. split; [reflexivity |]. split; [lia | auto].
  - destruct (IH (results
                  ++ [ {| content := default "" (r_content response);
                          quality_estimate := _estimate_quality response;
                          s_model := s_model_name self |} ]))
      as (H1 & H2 & H3).
    split; [exact H1 |]. split.
    + rewrite H2, length_app. unfold returned_count. cbn. lia.
    + intros Hall. apply H3. apply List.Forall_app.
      split; [exact Hall |]. now constructor.
  - destruct (IH results) as (H1 & H2 & H3).
    split; [exact H1 |]. split; [| exact H3].
    rewrite H2. unfold returned_count. cbn. lia.
Qed.

(** One batch: every index costs one call, and tallying changes no
    response. *)
Lemma gather_batch_observed indices : forall w t,
  gather_batch (observed_student self) request indices (w, t)
  = (fst (gather_batch self request indices w),
     (snd (gather_batch self request indices w),
      {| calls := calls t + length indices;
         successes :=
           successes t
           + returned_count (fst (gather_batch self request indices w)) |})).
Proof.
  induction indices as [| i rest IH]; intros w t.
  - cbn. unfold returned_count. cbn. rewrite !Nat.add_0_r. now destruct t.
  - cbn [gather_batch observed_student s_provider counting generate].
    change (_create_student_prompt (observed_student self) request i)
      with (_create_student_prompt self request i).
    destruct (generate (s_provider self) (_create_student_prompt self request i)
                (7 # 10) 500 w) as [[response | e] w1]; cbv beta iota.
    + rewrite (IH w1 {| calls := S (calls t); successes := S (successes t) |}).
      destruct (gather_batch self request rest w1) as [rs w2].
      cbn [fst snd calls successes length]. unfold returned_count.
      cbn [List.filter is_returned length].
      do 3 f_equal; lia.
    + rewrite (IH w1 {| calls := S (calls t); successes := successes t |}).
      destruct (gather_batch self request rest w1) as [rs w2].
      cbn [fst snd calls successes length]. unfold returned_count.
      cbn [List.filter is_returned length].
      do 3 f_equal; lia.
Qed.

(** The loop over the batches: the calls of all batches are tallied, and
    every call that returns adds one item. *)
Lemma batch_loop_observed starts : forall results w t,
  Forall (fun item => s_model item = s_model_name self) results ->
  exists items w' good,
    batch_loop self request 20 starts results w = (items, w')
    /\ batch_loop (observed_student self) request 20 starts results (w, t)
       = (items, (w', {| calls := calls t + batch_total (quantity request) starts;
                         successes := successes t + good |}))
    /\ length items = (length results + good)%nat
    /\ (good <= batch_total (quantity request) starts)%nat
    /\ Forall (fun item => s_model item = s_model_name self) items.
Proof.
  induction starts as [| batch_start rest IH]; intros results w t Hall.
  - exists results, w, 0%nat. cbn. rewrite !Nat.add_0_r.
    destruct t. auto with arith.
  - cbn [batch_loop batch_total fold_right].
    change (fold_right _ 0%nat rest)
      with (batch_total (quantity request) rest).
    change (quantity request) with (quantity request).
    rewrite gather_batch_observed.
    set (indices := range_list batch_start
                      (Z.min (batch_start + 20) (quantity request)) 1).
    assert (Hlen : length (fst (gather_batch self request indices w))
                   = length indices).
    { clear. generalize w. induction indices as [| i rest' IHi]; intros w0;
        cbn [gather_batch]; [reflexivity |].
      destruct (generate _ _ _ _ w0) as [r w1].
      specialize (IHi w1). destruct (gather_batch self request rest' w1).
      cbn [fst length] in *. now rewrite IHi. }
    destruct (gather_batch self request indices w) as [responses w1].
    cbn [fst snd] in *.
    destruct (collect_responses_observed responses results)
      as (Hobs & Hcount & Hmodel).
    rewrite Hobs.
    destruct (IH (collect_responses self responses results) w1
                {| calls := calls t + length indices;
                   successes := successes t + returned_count responses |}
                (Hmodel Hall))
      as (items & w' & good & H1 & H2 & H3 & H4 & H5).
    exists items, w', (returned_count responses + good)%nat.
    cbn [calls successes] in H2.
    assert (Hgood : (returned_count responses <= length indices)%nat).
    { rewrite <- Hlen. unfold returned_count. apply List.filter_length_le. }
    split; [exact H1 |]. split.
    + rewrite H2. do 3 f_equal; lia.
    + split; [lia |]. split; [lia | exact H5].
Qed.

Lemma bulk_run (w : W) (t : tally) :
  exists items w',
    generate_bulk_data request self w = (items, w')
    /\ generate_bulk_data request (observed_student self) (w, t)
       = (items, (w', {| calls := calls t + Z.to_nat (quantity request);
                         successes := successes t + length items |}))
    /\ (length items <= Z.to_nat (quantity request))%nat
    /\ Forall (fun item => s_model item = s_model_name self) items.
Proof.
  unfold generate_bulk_data.
  destruct (batch_loop_observed (range_list 0 (quantity request) 20) [] w t)
    as (items & w' & good & H1 & H2 & H3 & H4 & H5); [constructor |].
  rewrite batch_total_range in H2, H4. cbn [length] in H3.
  exists items, w'. split; [exact H1 |]. split; [| split; [lia | exact H5]].
  rewrite H2. do 3 f_equal. lia.
Qed.

(** The student is called once per requested item.  [generate_bulk_data]
    issues exactly [quantity] calls to the student's provider (none for a
    quantity that is not positive), whatever the batch size does to their
    grouping, and returns one item per call that did not fail, each
    labelled with the student's model name; so it never returns more than
    [quantity] items.  Tallying the calls changes nothing else. *)
Theorem bulk_generation_call_count (w : W) (t : tally) :
  let '(items, w') := generate_bulk_data request self w in
  generate_bulk_data request (observed_student self) (w, t)
  = (items, (w', {| calls := calls t + Z.to_nat (quantity request);
                    successes := successes t + length items |}))
  /\ (length items <= Z.to_nat (quantity request))%nat
  /\ Forall (fun item => s_model item = s_model_name self) items.
Proof.
  destruct (bulk_run w t) as (items & w' & H1 & H2 & H3 & H4).
  rewrite H1. split; [exact H2 |]. split; [exact H3 | exact H4].
Qed.

End Student.

End BulkFacts.

(** ** The validator's domain and the size of a data set *)
Module DatasetFacts.
Import Core CoreSpec BulkSpec.



Section Validator.
Context {W : Type} (teacher : TeacherModel W).


End Validator.

Section Orchestrator.
Context {W : Type} (clock : W -> Q) (uuid4 : W -> string * W).
Context (request : GenerationRequest)
        (self : KnowledgeDistillationOrchestrator W) (w : W).

Lemma seed_length_le (teacher : TeacherModel W) (w0 : W) :
  (length (fst (fst (generate_seed_data clock request teacher w0)))
   <= Z.to_nat (Z.min (quantity request / 10) 50))%nat.
Proof.
  destruct (CoreFacts.seed_calls_eq clock request teacher w0)
    as (Hcalls & Hlen & Hle).
  rewrite Hlen, <- Hcalls. exact Hle.
Qed.

Lemma seed_cache (teacher : TeacherModel W) (w0 : W) :
  examples_cache (snd (fst (generate_seed_data clock request teacher w0)))
  = examples_cache teacher
    ++ fst (fst (generate_seed_data clock request teacher w0))
  /\ t_model_name (snd (fst (generate_seed_data clock request teacher w0)))
     = t_model_name teacher.
Proof.
  unfold generate_seed_data.
  generalize (range_list 0 (Z.min (quantity request / 10) 50) 1).
  intros iterations.
  assert (H : forall examples t w1,
            t_model_name
              (snd (fst (seed_loop clock request iterations examples t w1)))
            = t_model_name t
            /\ exists added,
                 fst (fst (seed_loop clock request iterations examples t w1))
                 = examples ++ added
                 /\ examples_cache
                      (snd (fst (seed_loop clock request iterations examples
                                   t w1)))
                    = examples_cache t ++ added).
  { induction iterations as [| i rest IH]; intros examples t w1;
      cbn [seed_loop].
    - cbn. split; [reflexivity |]. exists []. now rewrite !app_nil_r.
    - destruct (generate (t_provider t) (_create_seed_prompt request i)
                  (8 # 10) 1000 w1) as [[response | e] w2].
      + match goal with
        | |- context [seed_loop clock request rest (examples ++ [?ex]) ?t' w2] =>
            destruct (IH (examples ++ [ex]) t' w2)
              as (Hname & added & Hadd & Hcache);
            cbn [t_model_name examples_cache] in Hname, Hcache;
            rewrite Hadd, Hcache; split; [exact Hname |];
            exists (ex :: added)
        end.
        now rewrite <- !app_assoc.
      + destruct (IH examples t w2) as (Hname & added & Hadd & Hcache).
        rewrite Hadd, Hcache. split; [exact Hname |].
        exists added. auto. }
  destruct (H [] teacher w0) as (Hname & added & Hadd & Hcache).
  split; [| exact Hname]. rewrite Hadd, Hcache. reflexivity.
Qed.

(** The size of a data set.  A response that [generate_dataset] returns
    carries the seeded examples followed by the student items; there are
    at most [min(quantity // 10, 50)] of the former, and between one and
    [quantity] of the latter, so the data set never holds more than
    [quantity + min(quantity // 10, 50)] entries, the two counts of the
    metadata add up to its length, and the requested quantity was
    positive. *)
Theorem dataset_size_is_bounded response self' w' :
  generate_dataset clock uuid4 request self w = (Returned response, self', w') ->
  let seeds := seed_examples clock uuid4 request self w in
  let items := student_output clock uuid4 request self w in
  length (data response) = (length seeds + length items)%nat
  /\ (length seeds <= Z.to_nat (Z.min (quantity request / 10) 50))%nat
  /\ (1 <= length items <= Z.to_nat (quantity request))%nat
  /\ (Z.of_nat (length (data response))
      <= quantity request + Z.min (quantity request / 10) 50)%Z
  /\ (teacher_examples (metadata response)
      + student_generated (metadata response)
      = Z.of_nat (length (data response)))%Z.
Proof.
  intros Hrun. cbv zeta.
  destruct (CoreFacts.response_carries_all_items clock uuid4 request self w
              response self' w' Hrun) as (Hdata & Hseeds & Hitems).
  assert (Hlen : length (data response)
                 = (length (seed_examples clock uuid4 request self w)
                    + length (student_output clock uuid4 request self w))%nat).
  { rewrite Hdata, length_app, !length_map. reflexivity. }
  assert (Hs : (length (seed_examples clock uuid4 request self w)
                <= Z.to_nat (Z.min (quantity request / 10) 50))%nat).
  { unfold seed_examples. destruct (uuid4 w) as [response_id w0].
    apply seed_length_le. }
  assert (Hi : (length (student_output clock uuid4 request self w)
                <= Z.to_nat (quantity request))%nat).
  { unfold student_output. destruct (uuid4 w) as [response_id w0].
    destruct (generate_seed_data clock request (teacher self) w0)
      as [[teacher_examples teacher'] w1].
    destruct (learn_from_teacher teacher_examples (student self))
      as [learning student'].
    destruct (BulkFacts.bulk_run request student' w1
                {| calls := 0; successes := 0 |})
      as (items & w2 & -> & _ & Hle & _).
    exact Hle. }
  assert (Hne : (1 <= length (student_output clock uuid4 request self w))%nat).
  { revert Hrun. unfold student_output, generate_dataset.
    destruct (uuid4 w) as [response_id w0].
    destruct (generate_seed_data clock request (teacher self) w0)
      as [[teacher_examples teacher'] w1].
    destruct (learn_from_teacher teacher_examples (student self))
      as [learning student'].
    destruct (generate_bulk_data request student' w1) as [[| item items] w2];
      [discriminate | cbn; lia]. }
  assert (Hq : (1 <= quantity request)%Z) by lia.
  assert (Hdiv : (0 <= quantity request / 10)%Z) by (apply Z.div_pos; lia).
  set (seed_quantity := (quantity request / 10)%Z) in *.
  split; [exact Hlen |]. split; [exact Hs |]. split; [lia |]. split.
  - rewrite Hlen. lia.
  - rewrite Hseeds, Hitems, Hlen. lia.
Qed.

(** What a run leaves behind, whether it returns or raises.  The teacher
    of the orchestrator has the seeded examples of this run appended to
    its cache, which is never emptied, and both model names are what they
    were. *)
Theorem run_appends_seeds_to_cache :
  let self' := snd (fst (generate_dataset clock uuid4 request self w)) in
  examples_cache (teacher self')
  = examples_cache (teacher self) ++ seed_examples clock uuid4 request self w
  /\ t_model_name (teacher self') = t_model_name (teacher self)
  /\ s_model_name (student self') = s_model_name (student self).
Proof.
  cbv zeta. unfold seed_examples, generate_dataset.
  destruct (uuid4 w) as [response_id w0].
  pose proof (seed_cache (teacher self) w0) as [Hcache Hname].
  destruct (generate_seed_data clock request (teacher self) w0)
    as [[teacher_examples teacher'] w1].
  cbn [fst snd] in Hcache, Hname.
  destruct (learn_from_teacher teacher_examples (student self))
    as [learning student'] eqn:El.
  assert (Hs : s_model_name student' = s_model_name (student self)).
  { unfold learn_from_teacher in El. injection El as _ <-. reflexivity. }
  destruct (generate_bulk_data request student' w1) as [student_data w2].
  destruct (validate_batch teacher' student_data (1 # 10) w2)
    as [[validation_result | e] w3]; cbn [fst snd teacher student]; auto.
Qed.

End Orchestrator.

Lemma dataset_size_is_bounded_witness :
  match generate_dataset sample_clock sample_uuid4 (sample_request 25)
          (sample_orchestrator (answering "0.9") (answering "text")) 0%nat with
  | (Returned response, _, _) =>
      (Z.of_nat (length (data response)) <= 25 + Z.min (25 / 10) 50)%Z
  | _ => False
  end.
Proof.
  destruct (generate_dataset sample_clock sample_uuid4 (sample_request 25)
              (sample_orchestrator (answering "0.9") (answering "text"))
              0%nat) as [[[response | e] self'] w'] eqn:E.
  - exact (proj1 (proj2 (proj2 (proj2
             (dataset_size_is_bounded sample_clock sample_uuid4
                (sample_request 25)
                (sample_orchestrator (answering "0.9") (answering "text"))
                0%nat response self' w' E))))).
  - vm_compute in E. discriminate E.
Defined.

End DatasetFacts.

(** ** The transfer engine, its tracker and the adaptive manager *)
Module EngineFacts.
Import Core Transfer TransferEngine TransferSpec EngineSpec.

(** *** Adapting patterns to feedback *)

Section Adapting.
Variable fl : Q -> Q.
Variable np_mean : list Q -> Q.

Lemma clamp_bounds x :
  fl (1 # 10) <= Qmax (fl (1 # 10)) (Qmin 1 x)
  /\ (fl (1 # 10) <= 1 -> Qmax (fl (1 # 10)) (Qmin 1 x) <= 1).
Proof.
  split; [apply Q.le_max_l |].
  intros Hlow. apply Q.max_lub; [exact Hlow | apply Q.le_min_l].
Qed.

Lemma adapt_pattern_at performance_feedback store ref r :
  adapt_pattern fl np_mean performance_feedback store ref r
  = if Nat.eqb r ref then adapted fl np_mean performance_feedback (store ref)
    else store r.
Proof.
  unfold adapt_pattern, adapted, feedback_for.
  destruct (List.filter _ performance_feedback) as [| f fs].
  - destruct (Nat.eqb_spec r ref) as [-> | _]; reflexivity.
  - reflexivity.
Qed.

Lemma adapted_same_pattern performance_feedback p :
  same_pattern (adapted fl np_mean performance_feedback p) p
  /\ feedback_for performance_feedback (adapted fl np_mean performance_feedback p)
     = feedback_for performance_feedback p.
Proof.
  unfold adapted, same_pattern.
  destruct (feedback_for performance_feedback p) as [| f fs] eqn:E.
  - rewrite E. auto 10.
  - split; [cbn; auto 10 |]. unfold feedback_for in *. exact E.
Qed.

Lemma adapted_iter performance_feedback n p :
  let q := Nat.iter n (adapted fl np_mean performance_feedback) p in
  same_pattern q p
  /\ feedback_for performance_feedback q = feedback_for performance_feedback p
  /\ (feedback_for performance_feedback p = [] -> q = p)
  /\ (feedback_for performance_feedback p <> [] -> (1 <= n)%nat ->
      fl (1 # 10) <= confidence q
      /\ (fl (1 # 10) <= 1 -> confidence q <= 1)).
Proof.
  cbv zeta.
  induction n as [| n (IHs & IHf & IHn & IHc)]; cbn [Nat.iter nat_rect].
  - split; [unfold same_pattern; auto 10 |]. split; [reflexivity |].
    split; [reflexivity | lia].
  - fold (Nat.iter n (adapted fl np_mean performance_feedback) p).
    destruct (adapted_same_pattern performance_feedback
                (Nat.iter n (adapted fl np_mean performance_feedback) p))
      as [Hs Hf].
    split; [| split; [| split]].
    + unfold same_pattern in *. intuition congruence.
    + congruence.
    + intros Hnone. rewrite (IHn Hnone). unfold adapted. now rewrite Hnone.
    + intros Hsome _. revert IHf.
      generalize (Nat.iter n (adapted fl np_mean performance_feedback) p) as q.
      intros q IHf. unfold adapted. rewrite IHf.
      destruct (feedback_for performance_feedback p) as [| f fs];
        [congruence |].
      cbn [confidence]. apply clamp_bounds.
Qed.

(** After the loop an object has been adapted once for every time it is
    listed. *)
Lemma adapt_loop performance_feedback patterns : forall store ref,
  fold_left (adapt_pattern fl np_mean performance_feedback) patterns store ref
  = Nat.iter (count_occ Nat.eq_dec patterns ref)
      (adapted fl np_mean performance_feedback) (store ref).
Proof.
  induction patterns as [| r rest IH]; intros store ref;
    cbn [fold_left count_occ]; [reflexivity |].
  rewrite IH, adapt_pattern_at.
  destruct (Nat.eq_dec r ref) as [-> | Hne].
  - rewrite Nat.eqb_refl. cbn [Nat.iter nat_rect].
    fold (Nat.iter (count_occ Nat.eq_dec rest ref)
            (adapted fl np_mean performance_feedback) (store ref)).
    apply Nat.iter_swap.
  - destruct (Nat.eqb_spec ref r) as [-> | _]; [congruence | reflexivity].
Qed.

(** Adapting ranks the patterns and changes them in place.
    [adapt_patterns] returns the references it was given, each as often as
    it was given, from the highest confidence down, the confidences being
    those the objects have after the call.  The objects themselves are
    changed: one that is listed [k] times has been adapted [k] times, each
    time to half the sum of its confidence and the average performance of
    the feedback that names it, kept between 0.1 and 1; one that is listed
    once has moved once; one that is not listed, or that no feedback
    names, is as it was.  Nothing but the confidence of an object changes.
    This holds whatever the rounding of the floats and whatever [np.mean]
    returns. *)
Theorem adapted_patterns_are_ranked patterns performance_feedback store :
  let ranked :=
    fst (adapt_patterns fl np_mean patterns performance_feedback store) in
  let store' :=
    snd (adapt_patterns fl np_mean patterns performance_feedback store) in
  Permutation ranked patterns
  /\ ordered (fun a b => confidence (store' b) <= confidence (store' a)) ranked
  /\ (forall ref,
        store' ref
        = Nat.iter (count_occ Nat.eq_dec patterns ref)
            (adapted fl np_mean performance_feedback) (store ref))
  /\ (forall ref, same_pattern (store' ref) (store ref))
  /\ (forall ref,
        ~ In ref patterns
        \/ feedback_for performance_feedback (store ref) = [] ->
        store' ref = store ref)
  /\ (forall ref,
        In ref patterns ->
        feedback_for performance_feedback (store ref) <> [] ->
        fl (1 # 10) <= confidence (store' ref)
        /\ (fl (1 # 10) <= 1 -> confidence (store' ref) <= 1))
  /\ (forall ref,
        count_occ Nat.eq_dec patterns ref = 1%nat ->
        feedback_for performance_feedback (store ref) <> [] ->
        confidence (store' ref)
        = Qmax (fl (1 # 10))
            (Qmin 1
               (fl (fl (confidence (store ref)
                        + np_mean
                            (map performance
                               (feedback_for performance_feedback
                                  (store ref))))
                    / 2)))).
Proof.
  cbv zeta. unfold adapt_patterns. cbn [fst snd].
  split; [apply sorted_by_Permutation |].
  split; [apply (sorted_descending (fun r => confidence (_ r))) |].
  split; [intros ref; apply adapt_loop |].
  split; [| split; [| split]]; intros ref; rewrite adapt_loop.
  - apply adapted_iter.
  - intros [Hout | Hnone].
    + apply (count_occ_not_In Nat.eq_dec) in Hout. now rewrite Hout.
    + now apply adapted_iter.
  - intros Hin Hsome. apply adapted_iter; [exact Hsome |].
    apply (count_occ_In Nat.eq_dec) in Hin. lia.
  - intros -> Hsome. cbn [Nat.iter nat_rect]. unfold adapted.
    destruct (feedback_for performance_feedback (store ref)); [congruence |].
    reflexivity.
Qed.

End Adapting.

(** One object that is listed twice moves twice: from 0.5, with feedback
    of performance 1, to 0.75 and on to 0.875, and both entries of the list
    that is returned show 0.875. *)
Example one_object_listed_twice :
  let np_mean xs := binary64 (np_mean_floats xs) in
  let result :=
    adapt_patterns binary64 np_mean [0%nat; 0%nat] sample_feedback
      sample_store in
  fst result = [0%nat; 0%nat]
  /\ map (fun ref => Qred (confidence (snd result ref))) (fst result)
     = [7 # 8; 7 # 8].
Proof. split; reflexivity. Qed.


(** *** Coverage *)

Lemma filter_length_mono {A} (f g : A -> bool) l :
  (forall x, f x = true -> g x = true) ->
  (length (List.filter f l) <= length (List.filter g l))%nat.
Proof.
  intros H. induction l as [| x rest IH]; cbn; [lia |].
  destruct (f x) eqn:Ef.
  - rewrite (H x Ef). cbn. lia.
  - destruct (g x); cbn; lia.
Qed.

Lemma filter_all_length {A} (f : A -> bool) l :
  length (List.filter f l) = length l <-> Forall (fun x => f x = true) l.
Proof.
  induction l as [| x rest IH]; cbn.
  - split; [constructor | reflexivity].
  - pose proof (List.filter_length_le f rest) as Hle.
    destruct (f x) eqn:Ef; cbn.
    + split.
      * intros [= H]. constructor; [exact Ef | now apply IH].
      * intros H. apply List.Forall_cons_iff in H as [_ H].
        f_equal. now apply IH.
    + split; [lia |]. intros H. apply List.Forall_cons_iff in H as [H _].
      congruence.
Qed.

Lemma fraction_bounds (k n : nat) :
  (k <= n)%nat -> (0 < n)%nat ->
  0 <= inject_Z (Z.of_nat k) / inject_Z (Z.of_nat n) <= 1
  /\ (inject_Z (Z.of_nat k) / inject_Z (Z.of_nat n) == 1 <-> k = n).
Proof.
  intros Hk Hn.
  assert (Hpos : 0 < inject_Z (Z.of_nat n)).
  { change 0 with (inject_Z 0). rewrite <- Zlt_Qlt. lia. }
  assert (Hk0 : 0 <= inject_Z (Z.of_nat k)).
  { change 0 with (inject_Z 0). rewrite <- Zle_Qle. lia. }
  assert (Hkn : inject_Z (Z.of_nat k) <= inject_Z (Z.of_nat n)).
  { rewrite <- Zle_Qle. lia. }
  split; [split |].
  - apply Qle_shift_div_l; [exact Hpos |]. now rewrite Qmult_0_l.
  - apply Qle_shift_div_r; [exact Hpos |]. now rewrite Qmult_1_l.
  - split.
    + intros H.
      assert (E : inject_Z (Z.of_nat k) == inject_Z (Z.of_nat n)).
      { rewrite <- (Qmult_1_l (inject_Z (Z.of_nat n))), <- H.
        field. intros E. rewrite E in Hpos. discriminate Hpos. }
      unfold Qeq in E. cbn [inject_Z Qnum Qden] in E. lia.
    + intros ->. field. intros E. rewrite E in Hpos. discriminate Hpos.
Qed.

Lemma fraction_mono (k k' n : nat) :
  (k <= k')%nat -> (0 < n)%nat ->
  inject_Z (Z.of_nat k) / inject_Z (Z.of_nat n)
  <= inject_Z (Z.of_nat k') / inject_Z (Z.of_nat n).
Proof.
  intros Hk Hn.
  assert (Hpos : 0 < inject_Z (Z.of_nat n)).
  { change 0 with (inject_Z 0). rewrite <- Zlt_Qlt. lia. }
  apply Qle_shift_div_r; [exact Hpos |].
  unfold Qdiv. rewrite <- Qmult_assoc, (Qmult_comm (/ _)), Qmult_inv_r.
  - rewrite Qmult_1_r, <- Zle_Qle. lia.
  - intros E. rewrite E in Hpos. discriminate Hpos.
Qed.

Lemma is_covered_app patterns more ex :
  is_covered (patterns ++ more) ex
  = is_covered patterns ex || is_covered more ex.
Proof. unfold is_covered. apply existsb_app. Qed.

Lemma shares_no_keyword pattern_keywords :
  shares_keyword pattern_keywords [] = false.
Proof.
  unfold shares_keyword.
  induction pattern_keywords as [| k ks IH]; cbn [existsb]; [reflexivity |].
  exact IH.
Qed.

Lemma no_keywords_not_covered patterns ex :
  keywords_of ex = [] -> is_covered patterns ex = false.
Proof.
  intros E. unfold is_covered. rewrite E.
  induction patterns as [| p rest IH]; cbn [existsb]; [reflexivity |].
  now rewrite shares_no_keyword, IH.
Qed.

(** Coverage is a fraction of the examples.  [_calculate_coverage] is 0
    without examples (it does not divide then) and otherwise lies between
    0 and 1; it is 1 exactly when every example shares a keyword with some
    pattern; patterns that are added never lower it; and an example
    without keywords is never covered, so a single one keeps the coverage
    below 1. *)
Theorem coverage_is_a_fraction patterns teacher_examples :
  0 <= _calculate_coverage patterns teacher_examples <= 1
  /\ _calculate_coverage patterns [] = 0
  /\ (_calculate_coverage patterns teacher_examples == 1
      <-> teacher_examples <> []
          /\ Forall (fun ex => is_covered patterns ex = true) teacher_examples)
  /\ (forall more,
        _calculate_coverage patterns teacher_examples
        <= _calculate_coverage (patterns ++ more) teacher_examples)
  /\ (forall ex, In ex teacher_examples -> keywords_of ex = [] ->
        ~ _calculate_coverage patterns teacher_examples == 1).
Proof.
  assert (Hone : _calculate_coverage patterns teacher_examples == 1
                 <-> teacher_examples <> []
                     /\ Forall (fun ex => is_covered patterns ex = true)
                          teacher_examples).
  { unfold _calculate_coverage.
    destruct teacher_examples as [| ex rest] eqn:E.
    - split; [intros H; discriminate H | intros [H _]; congruence].
    - rewrite <- E.
      pose proof (List.filter_length_le (is_covered patterns) teacher_examples)
        as Hle.
      assert (Hn : (0 < length teacher_examples)%nat) by (rewrite E; cbn; lia).
      rewrite (proj2 (fraction_bounds _ _ Hle Hn)), filter_all_length.
      split; [intros H; split; [rewrite E; discriminate | exact H] | tauto]. }
  split; [| split; [reflexivity | split; [exact Hone | split]]].
  - unfold _calculate_coverage.
    destruct teacher_examples as [| ex rest] eqn:E;
      [split; discriminate |].
    rewrite <- E. apply fraction_bounds.
    + apply List.filter_length_le.
    + rewrite E. cbn. lia.
  - intros more. unfold _calculate_coverage.
    destruct teacher_examples as [| ex rest] eqn:E; [apply Qle_refl |].
    rewrite <- E. apply fraction_mono.
    + apply filter_length_mono. intros x Hx.
      now rewrite is_covered_app, Hx.
    + rewrite E. cbn. lia.
  - intros ex Hin Hkw H. apply Hone in H as [_ Hall].
    rewrite List.Forall_forall in Hall. specialize (Hall ex Hin).
    rewrite (no_keywords_not_covered patterns ex Hkw) in Hall.
    discriminate.
Qed.

(** *** Benchmarks *)

Lemma first_pass_spec count examples : forall selected used,
  (Z.of_nat (length selected) < count)%Z ->
  (Z.of_nat (length (first_pass count examples selected used)) <= count)%Z
  /\ forall ex, In ex (first_pass count examples selected used) ->
       In ex selected \/ In ex examples.
Proof.
  induction examples as [| example rest IH]; intros selected used Hlen;
    cbn [first_pass].
  - split; [lia | auto].
  - destruct (existsb _ used).
    + destruct (IH selected used Hlen) as [H1 H2].
      split; [exact H1 |]. intros ex Hex.
      destruct (H2 ex Hex); [now left | right; now right].
    + destruct (Z.leb_spec count (Z.of_nat (length (selected ++ [example]))))
        as [Hfull | Hroom].
      * split.
        -- rewrite length_app in *. cbn [length] in *. lia.
        -- intros ex Hex. apply in_app_or in Hex as [Hex | [<- | []]];
             [now left | right; now left].
      * destruct (IH (selected ++ [example])
                    (sorted_strings (keywords_of example) :: used) Hroom)
          as [H1 H2].
        split; [exact H1 |]. intros ex Hex.
        destruct (H2 ex Hex) as [Hin | Hin]; [| right; now right].
        apply in_app_or in Hin as [Hin | [<- | []]];
          [now left | right; now left].
Qed.

(** The selection keeps to its count.  For a count of at least one,
    [_select_diverse_examples] returns at most [count] examples, all of
    them taken from the examples it was given, and the examples
    themselves when there are no more than [count] of them. *)
Theorem diverse_selection_is_bounded examples count :
  (1 <= count)%Z ->
  (Z.of_nat (length (_select_diverse_examples examples count)) <= count)%Z
  /\ (forall ex, In ex (_select_diverse_examples examples count) ->
        In ex examples)
  /\ ((Z.of_nat (length examples) <= count)%Z ->
      _select_diverse_examples examples count = examples).
Proof.
  intros Hcount. unfold _select_diverse_examples.
  destruct (Z.leb_spec (Z.of_nat (length examples)) count) as [Hfew | Hmany].
  - split; [exact Hfew |]. split; auto.
  - destruct (first_pass_spec count examples [] [] ltac:(cbn; lia))
      as [Hlen Hfrom].
    set (selected := first_pass count examples [] []) in *.
    destruct (Z.ltb_spec (Z.of_nat (length selected)) count) as [Hfill | Hdone].
    + split; [| split; [| lia]].
      * rewrite length_app.
        pose proof (firstn_le_length
                      (Z.to_nat (count - Z.of_nat (length selected)))
                      (sorted_by
                         (fun y x => Qgt_bool (Core.confidence y)
                                       (Core.confidence x))
                         (List.filter
                            (fun ex => negb (existsb (example_eqb ex) selected))
                            examples))) as Hle.
        lia.
      * intros ex Hex. apply in_app_or in Hex as [Hex | Hex].
        -- destruct (Hfrom ex Hex) as [[] | Hin]. exact Hin.
        -- apply In_firstn, sorted_by_In in Hex.
           now apply List.filter_In in Hex as [Hex _].
    + split; [lia |]. split; [| lia].
      intros ex Hex. destruct (Hfrom ex Hex) as [[] | Hin]. exact Hin.
Qed.

Lemma diverse_selection_is_bounded_witness :
  (Z.of_nat (length (_select_diverse_examples
                       [sample_example "a"; sample_example "b";
                        sample_example "c"] 2)) <= 2)%Z.
Proof.
  exact (proj1 (diverse_selection_is_bounded
                  [sample_example "a"; sample_example "b"; sample_example "c"]
                  2 ltac:(lia))).
Defined.

(** A count of zero is outside the selection's domain: the first pass
    selects an example before it looks at the count. *)
Example zero_count_selects_one :
  _select_diverse_examples [sample_example "a"] 0 = [sample_example "a"].
Proof. reflexivity. Qed.

(** *** Transfer instructions *)

Lemma pattern_groups_filed patterns :
  pattern_groups patterns
  = fold_left (file (fun p => Some (pattern_type p)) (fun p => p)) patterns [].
Proof.
  unfold pattern_groups. apply TransferFacts.fold_left_pointwise.
  intros groups p. reflexivity.
Qed.

Lemma map_id_eq {A} (l : list A) : map (fun x => x) l = l.
Proof. induction l as [| x rest IH]; cbn; [reflexivity | now rewrite IH]. Qed.

(** The instructions name the types that have a confident pattern.
    [_generate_transfer_instructions] always gives the four general
    guidelines; it has an entry for a pattern type exactly when some
    pattern of that type has a confidence above 0.7, and that entry counts
    those patterns, quotes the templates of the first three of them, and
    collects the keywords of all of them. *)
Theorem instructions_name_confident_types patterns pattern_type' entry :
  fst (_generate_transfer_instructions patterns) = general_guidelines
  /\ (In (pattern_type', entry) (snd (_generate_transfer_instructions patterns))
      <-> confident_of_type pattern_type' patterns <> []
          /\ entry
             = {| instruction_count :=
                    length (confident_of_type pattern_type' patterns);
                  instruction_templates :=
                    map template
                      (firstn 3 (confident_of_type pattern_type' patterns));
                  instruction_keywords :=
                    ⋃ (map (fun p => list_to_set (keywords p))
                         (confident_of_type pattern_type' patterns)) |}).
Proof.
  split; [reflexivity |].
  unfold _generate_transfer_instructions. cbn [snd].
  rewrite TransferFacts.In_omap, pattern_groups_filed.
  destruct (TransferFacts.filed_groups
              (fun p : KnowledgePattern => Some (pattern_type p))
              (fun p => p) patterns) as [_ Hgroups].
  assert (Hsupport : forall k,
            List.filter (fun p => Qgt_bool (confidence p) (7 # 10))
              (map (fun p => p)
                 (supporting (fun p : KnowledgePattern => Some (pattern_type p))
                    k patterns))
            = confident_of_type k patterns).
  { intros k. rewrite map_id_eq. reflexivity. }
  split.
  - intros ([k g] & Hin & Hentry). apply Hgroups in Hin as [-> _].
    cbn [fst snd] in Hentry. rewrite Hsupport in Hentry.
    destruct (confident_of_type k patterns) as [| p ps] eqn:E;
      [discriminate |].
    injection Hentry as Hk He. subst k entry.
    rewrite E. split; [discriminate | reflexivity].
  - intros [Hne ->].
    exists (pattern_type',
            map (fun p => p)
              (supporting (fun p : KnowledgePattern => Some (pattern_type p))
                 pattern_type' patterns)).
    split.
    + apply Hgroups. split; [reflexivity |].
      rewrite map_id_eq. intros E. apply Hne.
      unfold confident_of_type.
      change (List.filter
                (fun p => String.eqb (pattern_type p) pattern_type') patterns)
        with (supporting (fun p : KnowledgePattern => Some (pattern_type p))
                pattern_type' patterns).
      now rewrite E.
    + cbn [fst snd]. rewrite Hsupport.
      destruct (confident_of_type pattern_type' patterns) as [| p ps] eqn:E;
        [congruence | reflexivity].
Qed.

(** *** The performance tracker *)

Lemma tracked_snoc ts t : tracked (ts ++ [t]) = track (tracked ts) t.
Proof. unfold tracked. now rewrite fold_left_app. Qed.

(** A learning curve is what was tracked.  After any sequence of calls on
    a fresh tracker, the learning curve of a student is the list of the
    scores tracked for that student, in the order of the calls, and empty
    for a student never tracked; the metrics history has one entry per
    tracked transfer. *)
Theorem learning_curve_is_what_was_tracked ts student_id :
  get_learning_curve student_id (tracked ts) = scores_of student_id ts
  /\ length (metrics_history (tracked ts))
     = length (List.filter
                 (fun t => match t with
                           | TrackTransfer _ _ _ _ => true
                           | TrackStudent _ _ => false
                           end) ts).
Proof.
  induction ts as [| t rest [IHc IHm]] using rev_ind.
  - split; [| reflexivity].
    unfold get_learning_curve. cbn. now rewrite lookup_empty.
  - rewrite tracked_snoc. unfold scores_of.
    rewrite omap_app, List.filter_app, length_app.
    fold (scores_of student_id rest).
    destruct t as [b a n time | id score];
      cbn [track track_transfer_performance track_student_performance snd
           omap list_omap List.filter length].
    + unfold get_learning_curve in *. cbn [student_performance metrics_history].
      rewrite app_nil_r, length_app. cbn [length].
      split; [exact IHc | now rewrite IHm].
    + unfold get_learning_curve, track_student_performance in *.
      cbn [student_performance metrics_history].
      split; [| now rewrite IHm, Nat.add_0_r].
      destruct (String.eqb_spec id student_id) as [-> | Hne].
      * now rewrite lookup_insert_eq, IHc.
      * rewrite lookup_insert_ne by exact Hne. now rewrite app_nil_r.
Qed.

(** The effectiveness figures exist exactly on a history that is not
    empty, where nothing divides by zero; the success rate is then a
    fraction between 0 and 1, and it is 1 exactly when every tracked
    transfer improved the student. *)
Theorem effectiveness_needs_a_history self :
  match calculate_transfer_effectiveness self with
  | None => metrics_history self = []
  | Some e =>
      metrics_history self <> []
      /\ 0 <= success_rate e <= 1
      /\ (success_rate e == 1
          <-> Forall (fun m => 0 < student_improvement m)
                (metrics_history self))
  end.
Proof.
  unfold calculate_transfer_effectiveness.
  destruct (metrics_history self) as [| m ms] eqn:E; [reflexivity |].
  rewrite <- E. cbn [success_rate].
  pose proof (List.filter_length_le
                (fun m => Qgt_bool (student_improvement m) 0)
                (metrics_history self)) as Hle.
  assert (Hn : (0 < length (metrics_history self))%nat)
    by (rewrite E; cbn; lia).
  destruct (fraction_bounds _ _ Hle Hn) as [Hbounds Hone].
  split; [rewrite E; discriminate |]. split; [exact Hbounds |].
  rewrite Hone, filter_all_length.
  split; intros H; eapply List.Forall_impl; try exact H;
    intros m0 Hm0; cbv beta in *; now apply Qgt_bool_iff.
Qed.

End EngineFacts.

(** ** The providers' cost optimizer *)
Module UsageFacts.
Import ProviderCosts UsageSpec.

Lemma Qsum_app l l' : Qsum (l ++ l') == Qsum l + Qsum l'.
Proof.
  induction l as [| x rest IH]; cbn [app].
  - unfold Qsum at 2. cbn. lra.
  - rewrite !LedgerFacts.Qsum_cons, IH. lra.
Qed.

Lemma Zsum_app l l' : Zsum (l ++ l') = (Zsum l + Zsum l')%Z.
Proof.
  induction l as [| x rest IH]; cbn [app]; [reflexivity |].
  unfold Zsum in *. cbn [fold_right]. rewrite IH. lia.
Qed.

Lemma Qsum_Permutation l l' : Permutation l l' -> Qsum l == Qsum l'.
Proof.
  induction 1 as [| x l l' _ IH | x y l | l l' l'' _ IH1 _ IH2];
    rewrite ?LedgerFacts.Qsum_cons.
  - reflexivity.
  - now rewrite IH.
  - lra.
  - now rewrite IH1.
Qed.

Lemma Zsum_Permutation l l' : Permutation l l' -> Zsum l = Zsum l'.
Proof.
  unfold Zsum.
  induction 1 as [| x l l' _ IH | x y l | l l' l'' _ IH1 _ IH2];
    cbn [fold_right]; lia.
Qed.

(** The entries of a [dict] once a key is stored: the new value, and what
    was stored under the other keys. *)
Lemma values_insert (m : gmap string usage) k v :
  Permutation (map snd (map_to_list (<[k := v]> m)))
    (v :: map snd (map_to_list (delete k m))).
Proof.
  rewrite <- insert_delete_eq.
  rewrite map_to_list_insert by apply lookup_delete_eq.
  reflexivity.
Qed.

Lemma values_lookup (m : gmap string usage) k :
  Permutation (map snd (map_to_list m))
    (match m !! k with Some old => [old] | None => [] end
     ++ map snd (map_to_list (delete k m))).
Proof.
  destruct (m !! k) as [old |] eqn:E.
  - now rewrite <- (map_to_list_delete m k old E).
  - now rewrite delete_id.
Qed.

Lemma used_snoc providers calls c :
  used providers (calls ++ [c]) = apply_call (used providers calls) c.
Proof. unfold used. now rewrite fold_left_app. Qed.

Lemma track_usage_totals name tokens_used cost' self :
  Zsum (map tokens (map snd (map_to_list
          (usage_stats (track_usage name tokens_used cost' self)))))
  = (Zsum (map tokens (map snd (map_to_list (usage_stats self))))
     + tokens_used)%Z
  /\ Qsum (map cost (map snd (map_to_list
             (usage_stats (track_usage name tokens_used cost' self)))))
     == Qsum (map cost (map snd (map_to_list (usage_stats self)))) + cost'.
Proof.
  unfold track_usage. cbn [usage_stats].
  pose proof (values_lookup (usage_stats self) name) as Hold.
  pose proof (values_insert (usage_stats self) name
                {| tokens :=
                     tokens (default {| tokens := 0; cost := 0; requests := 0 |}
                               (usage_stats self !! name)) + tokens_used;
                   cost :=
                     cost (default {| tokens := 0; cost := 0; requests := 0 |}
                             (usage_stats self !! name)) + cost';
                   requests :=
                     requests (default {| tokens := 0; cost := 0; requests := 0 |}
                                 (usage_stats self !! name)) + 1 |}) as Hnew.
  split.
  - rewrite (Zsum_Permutation _ _ (Permutation_map tokens Hnew)).
    rewrite (Zsum_Permutation _ _ (Permutation_map tokens Hold)).
    rewrite map_app, Zsum_app.
    destruct (usage_stats self !! name) as [old |]; unfold Zsum; cbn; lia.
  - rewrite (Qsum_Permutation _ _ (Permutation_map cost Hnew)).
    rewrite (Qsum_Permutation _ _ (Permutation_map cost Hold)).
    rewrite map_app, Qsum_app.
    destruct (usage_stats self !! name) as [old |];
      cbn [map from_option id cost]; rewrite ?LedgerFacts.Qsum_cons;
      change (Qsum []) with 0; lra.
Qed.

(** What the statistics hold after a sequence of calls. *)
Lemma used_spec providers' calls :
  providers (used providers' calls) = providers'
  /\ Zsum (map tokens (map snd (map_to_list
             (usage_stats (used providers' calls)))))
     = Zsum (map call_tokens calls)
  /\ Qsum (map cost (map snd (map_to_list
             (usage_stats (used providers' calls)))))
     == Qsum (map call_cost calls)
  /\ forall name,
       match usage_stats (used providers' calls) !! name with
       | None => calls_for name calls = []
       | Some stats =>
           calls_for name calls <> []
           /\ tokens stats = Zsum (map call_tokens (calls_for name calls))
           /\ cost stats == Qsum (map call_cost (calls_for name calls))
           /\ requests stats = Z.of_nat (length (calls_for name calls))
       end.
Proof.
  induction calls as [| c rest (IHp & IHt & IHc & IHn)] using rev_ind.
  - split; [reflexivity |]. split; [reflexivity |]. split; [reflexivity |].
    intros name. unfold used. cbn [fold_left init usage_stats].
    now rewrite lookup_empty.
  - rewrite used_snoc. unfold apply_call.
    destruct (track_usage_totals (call_provider c) (call_tokens c)
                (call_cost c) (used providers' rest)) as [Ht Hc].
    split; [exact IHp |].
    split; [rewrite Ht, IHt, map_app, Zsum_app; unfold Zsum; cbn; lia |].
    split.
    { rewrite Hc, IHc, map_app, Qsum_app. cbn [map]. rewrite LedgerFacts.Qsum_cons.
      change (Qsum []) with 0. lra. }
    intros name. unfold calls_for in *. rewrite List.filter_app.
    cbn [List.filter]. unfold track_usage. cbn [usage_stats].
    specialize (IHn name).
    destruct (String.eqb_spec (call_provider c) name) as [-> | Hne].
    + rewrite lookup_insert_eq.
      destruct (usage_stats (used providers' rest) !! name) as [old |].
      * destruct IHn as (_ & Hot & Hoc & Hor).
        cbn [from_option id tokens cost requests].
        split; [now destruct (List.filter _ rest) |].
        rewrite !map_app, Zsum_app, Qsum_app, length_app, Hot, Hoc, Hor.
        cbn [map length]. rewrite LedgerFacts.Qsum_cons. change (Qsum []) with 0.
        unfold Zsum at 3. cbn [fold_right].
        split; [lia |]. split; [lra | lia].
      * rewrite IHn. cbn [from_option id tokens cost requests app map length].
        rewrite LedgerFacts.Qsum_cons. change (Qsum []) with 0.
        unfold Zsum. cbn [fold_right].
        split; [discriminate |]. split; [lia |]. split; [lra | lia].
    + rewrite lookup_insert_ne by exact Hne. rewrite app_nil_r. exact IHn.
Qed.

(** The usage report adds up.  After any sequence of [track_usage] calls
    on a fresh optimizer, the report's total tokens and total cost are the
    sums over all calls; a name has an entry exactly when some call used
    it, and the entry holds the tokens, the cost and the number of the
    calls made under that name; and the average cost per token is the
    total cost over the total tokens when the latter is positive and 0
    otherwise, so the report never divides by zero.  The providers are
    untouched. *)
Theorem usage_report_adds_up providers' calls :
  let report := get_usage_report (used providers' calls) in
  total_tokens report = Zsum (map call_tokens calls)
  /\ total_cost report == Qsum (map call_cost calls)
  /\ (forall name,
        match by_provider report !! name with
        | None => calls_for name calls = []
        | Some stats =>
            calls_for name calls <> []
            /\ tokens stats = Zsum (map call_tokens (calls_for name calls))
            /\ cost stats == Qsum (map call_cost (calls_for name calls))
            /\ requests stats = Z.of_nat (length (calls_for name calls))
        end)
  /\ average_cost_per_token report
     == (if (0 <? Zsum (map call_tokens calls))%Z
         then Qsum (map call_cost calls)
              / inject_Z (Zsum (map call_tokens calls))
         else 0)
  /\ providers (used providers' calls) = providers'.
Proof.
  cbv zeta. destruct (used_spec providers' calls) as (Hp & Ht & Hc & Hn).
  unfold get_usage_report.
  cbn [total_tokens total_cost by_provider average_cost_per_token].
  split; [exact Ht |]. split; [exact Hc |]. split; [exact Hn |].
  split; [| exact Hp].
  rewrite Ht. destruct (0 <? Zsum (map call_tokens calls))%Z; [| reflexivity].
  now rewrite Hc.
Qed.

End UsageFacts.

(** ** The cheapest suitable provider *)
Module CheapestFacts.
Import ProviderCosts UsageSpec.

(** Sorting by a float key, smallest first. *)
Lemma sorted_ascending {A} (key : A -> Q) l :
  ordered (fun a b => key a <= key b)
    (sorted_by (fun y x => Qlt_bool (key y) (key x)) l).
Proof.
  pose proof (sorted_by_ordered (fun y x => Qlt_bool (key y) (key x))) as H.
  unfold not_after in H.
  assert (E : forall l', ordered (fun a b => Qlt_bool (key b) (key a) = false) l'
                    -> ordered (fun a b => key a <= key b) l').
  { induction l' as [| x rest IH]; cbn; [auto |].
    intros [H1 H2]. split; [| now apply IH].
    eapply Forall_impl; [exact H1 |]. intros b Hb. now apply Qlt_bool_false. }
  apply E, H.
  - intros a b Hab. apply Qlt_bool_iff in Hab. apply Qlt_bool_false.
    now apply Qlt_le_weak.
  - intros a b c Hab Hbc. apply Qlt_bool_false in Hab, Hbc.
    apply Qlt_bool_false. eapply Qle_trans; eassumption.
Qed.

(** Every provider of the file is suitable for a task of complexity 0.8. *)
Lemma capability_bounds p : 8 # 10 <= capability p <= 1.
Proof.
  unfold capability, _get_role_suitability.
  destruct (class_of p);
    repeat match goal with
           | |- context [if ?b then _ else _] => destruct b
           end;
    cbn [teacher student];
    (split;
     [ apply Q.max_le_iff; (left; discriminate) || (right; discriminate)
     | apply Q.max_lub; discriminate ]).
Qed.

Lemma average_price_eq p :
  (0 + fst (pricing (get_model_info p)) + snd (pricing (get_model_info p))) / 2
  == average_price p.
Proof.
  unfold average_price, get_model_info. cbn [pricing].
  apply Qdiv_comp; [lra | reflexivity].
Qed.

Lemma suitable_providers_spec task_complexity self name c :
  In (name, c) (suitable_providers task_complexity self)
  <-> exists p,
        In (name, p) (providers self)
        /\ task_complexity <= capability p
        /\ c = (0 + fst (pricing (get_model_info p))
                + snd (pricing (get_model_info p))) / 2.
Proof.
  unfold suitable_providers. rewrite TransferFacts.In_omap. split.
  - intros ([n p] & Hin & Hf). cbn [fst snd] in Hf. cbv zeta in Hf.
    change (Qmax _ _) with (capability p) in Hf.
    destruct (Qge_bool (capability p) task_complexity) eqn:E; [| discriminate].
    injection Hf as -> <-. exists p.
    split; [exact Hin |]. split; [now apply Qge_bool_iff | reflexivity].
  - intros (p & Hin & Hcap & ->). exists (name, p).
    split; [exact Hin |]. cbn [fst snd]. cbv zeta.
    change (Qmax _ _) with (capability p).
    apply Qge_bool_iff in Hcap. now rewrite Hcap.
Qed.

(** The provider returned is one of the providers. *)
Lemma cheapest_provider_registered task_complexity self :
  match get_cheapest_provider_for_task task_complexity self with
  | Raised e => e = IndexError /\ providers self = []
  | Returned name => In name (map fst (providers self))
  end.
Proof.
  unfold get_cheapest_provider_for_task.
  pose proof (suitable_providers_spec task_complexity self) as Hspec.
  destruct (suitable_providers task_complexity self) as [| s ss] eqn:Es.
  - destruct (providers self) as [| [name p] rest]; [split; reflexivity |].
    now left.
  - pose proof (fun x =>
                  sorted_by_In
                    (fun y x : string * Q => Qlt_bool (snd y) (snd x)) x
                    (s :: ss)) as Hperm.
    pose proof (sorted_by_length
                  (fun y x : string * Q => Qlt_bool (snd y) (snd x))
                  (s :: ss)) as Hlen.
    destruct (sorted_by _ (s :: ss)) as [| [name c] rest]; [discriminate |].
    assert (Hhead : In (name, c) (s :: ss)) by (apply Hperm; now left).
    apply Hspec in Hhead as (p & Hin & _).
    apply in_map_iff. now exists (name, p).
Qed.

(** The cheapest suitable provider.  [get_cheapest_provider_for_task]
    raises [IndexError] exactly when there is no provider at all.
    Otherwise it returns the key of a provider: when some provider is
    capable of the task, a capable one whose average price no capable
    provider undercuts, and when none is, the first provider whatever its
    capability.  Every provider of the file has a capability of at least
    0.8, so for a complexity up to 0.8 the provider returned is the
    cheapest of all. *)
Theorem cheapest_provider_is_cheapest_capable task_complexity self :
  match get_cheapest_provider_for_task task_complexity self with
  | Raised e => e = IndexError /\ providers self = []
  | Returned name =>
      exists p,
        In (name, p) (providers self)
        /\ (Exists (fun entry => task_complexity <= capability (snd entry))
              (providers self) ->
            task_complexity <= capability p
            /\ Forall (fun entry =>
                         task_complexity <= capability (snd entry) ->
                         average_price p <= average_price (snd entry))
                 (providers self))
        /\ (Forall (fun entry => ~ task_complexity <= capability (snd entry))
              (providers self) ->
            head (providers self) = Some (name, p))
        /\ (task_complexity <= 8 # 10 ->
            Forall (fun entry => average_price p <= average_price (snd entry))
              (providers self))
  end.
Proof.
  unfold get_cheapest_provider_for_task.
  pose proof (suitable_providers_spec task_complexity self) as Hspec.
  destruct (suitable_providers task_complexity self) as [| s ss] eqn:Es.
  - assert (Hnone : forall n p, In (n, p) (providers self) ->
                      ~ task_complexity <= capability p).
    { intros n p Hin Hcap.
      eapply (proj2 (Hspec n _)). exists p. eauto. }
    destruct (providers self) as [| [name p] rest] eqn:Ep.
    + split; reflexivity.
    + exists p. split; [now left |]. split; [| split; [reflexivity |]].
      * intros Hex. apply List.Exists_exists in Hex as ([n q] & Hin & Hcap).
        now destruct (Hnone n q Hin).
      * intros Hle. destruct (Hnone name p (or_introl eq_refl)).
        eapply Qle_trans; [exact Hle | apply capability_bounds].
  - assert (Hne : suitable_providers task_complexity self <> [])
      by (rewrite Es; discriminate).
    rewrite <- Es in *. clear s ss Es.
    pose proof (sorted_ascending (@snd string Q)
                  (suitable_providers task_complexity self)) as Hsorted.
    pose proof (fun x =>
                  sorted_by_In
                    (fun y x : string * Q => Qlt_bool (snd y) (snd x)) x
                    (suitable_providers task_complexity self)) as Hperm.
    pose proof (sorted_by_length
                  (fun y x : string * Q => Qlt_bool (snd y) (snd x))
                  (suitable_providers task_complexity self)) as Hlen.
    destruct (sorted_by _ (suitable_providers task_complexity self))
      as [| [name c] rest] eqn:E.
    + destruct (suitable_providers task_complexity self);
        [congruence | discriminate].
    + assert (Hhead : In (name, c) (suitable_providers task_complexity self)).
      { apply (Hperm (name, c)). now left. }
      apply Hspec in Hhead as (p & Hin & Hcap & Hc).
      destruct Hsorted as [Hmin _].
      assert (Hbest : forall n q, In (n, q) (providers self) ->
                        task_complexity <= capability q ->
                        average_price p <= average_price q).
      { intros n q Hq Hcapq.
        assert (Hs : In (n, (0 + fst (pricing (get_model_info q))
                             + snd (pricing (get_model_info q))) / 2)
                       (suitable_providers task_complexity self)).
        { apply Hspec. exists q. auto. }
        apply (Hperm (n, _)) in Hs.
        rewrite <- (average_price_eq p), <- (average_price_eq q), <- Hc.
        destruct Hs as [Hs | Hs].
        - injection Hs as _ Heq. rewrite Heq. apply Qle_refl.
        - exact (proj1 (List.Forall_forall _ _) Hmin _ Hs). }
      exists p. split; [exact Hin |]. split; [| split].
      * intros _. split; [exact Hcap |].
        apply List.Forall_forall. intros [n q] Hq. now apply (Hbest n q).
      * intros Hnone.
        now destruct (proj1 (List.Forall_forall _ _) Hnone _ Hin).
      * intros Hle. apply List.Forall_forall. intros [n q] Hq.
        apply (Hbest n q Hq).
        eapply Qle_trans; [exact Hle | apply capability_bounds].
Qed.

End CheapestFacts.

(** ** The manager's choice of an orchestrator *)
Module OrchestratorFacts.
Import Integration OrchestratorSpec.

Lemma append_cons c a b : String c a +:+ b = String c (a +:+ b).
Proof. reflexivity. Qed.

Lemma prefix_append a b : String.prefix a (a +:+ b) = true.
Proof.
  induction a as [| c a IH].
  - now destruct b.
  - rewrite append_cons. cbn [String.prefix].
    destruct (ascii_dec c c); [exact IH | congruence].
Qed.

Lemma str_in_prefix a b : str_in a (a +:+ b) = true.
Proof.
  destruct (a +:+ b) eqn:E; cbn [str_in]; rewrite <- E, prefix_append;
    reflexivity.
Qed.

Lemma str_in_refl a : str_in a a = true.
Proof.
  assert (H : String.prefix a a = true).
  { induction a as [| c a IH]; [reflexivity |]. cbn [String.prefix].
    destruct (ascii_dec c c); [exact IH | congruence]. }
  destruct a; cbn [str_in]; now rewrite H.
Qed.

Lemma str_in_suffix sub a s : str_in sub s = true -> str_in sub (a +:+ s) = true.
Proof.
  intros H. induction a as [| c a IH]; [exact H |].
  rewrite append_cons. cbn [str_in]. rewrite IH. apply orb_true_r.
Qed.

(** The keys and the entries of a [dict] after a loop of stores. *)
Section Stored.
Context {A B : Type} (key : B -> string) (value : B -> A).

Lemma dict_store_keys k v (d : list (string * A)) k' :
  In k' (map fst (dict_store k v d)) <-> k' = k \/ In k' (map fst d).
Proof.
  induction d as [| [k0 v0] rest IH]; cbn [dict_store map fst In].
  - intuition auto.
  - destruct (String.eqb_spec k0 k) as [-> | Hne]; cbn [map fst In].
    + intuition auto.
    + rewrite IH. intuition auto.
Qed.

Lemma dict_store_Forall (P : string * A -> Prop) k v d :
  P (k, v) -> Forall P d -> Forall P (dict_store k v d).
Proof.
  intros Hnew. induction 1 as [| [k0 v0] rest H0 Hrest IH]; cbn [dict_store].
  - now constructor.
  - destruct (String.eqb_spec k0 k) as [-> | Hne]; constructor; assumption.
Qed.

Lemma stored_keys l : forall d k,
  In k (map fst (fold_left (fun d x => dict_store (key x) (value x) d) l d))
  <-> In k (map fst d) \/ exists x, In x l /\ k = key x.
Proof.
  induction l as [| x rest IH]; intros d k; cbn [fold_left].
  - split; [now left | intros [H | (x & [] & _)]; exact H].
  - rewrite IH, dict_store_keys. split.
    + intros [[-> | H] | (y & Hy & ->)].
      * right. exists x. split; [now left | reflexivity].
      * now left.
      * right. exists y. split; [now right | reflexivity].
    + intros [H | (y & [<- | Hy] & ->)].
      * left. now right.
      * left. now left.
      * right. now exists y.
Qed.

Lemma stored_Forall (P : string * A -> Prop) l : forall d,
  (forall x, In x l -> P (key x, value x)) ->
  Forall P d ->
  Forall P (fold_left (fun d x => dict_store (key x) (value x) d) l d).
Proof.
  induction l as [| x rest IH]; intros d Hl Hd; cbn [fold_left];
    [exact Hd |].
  apply IH.
  - intros y Hy. apply Hl. now right.
  - apply dict_store_Forall; [apply Hl; now left | exact Hd].
Qed.

End Stored.

Lemma fold_left_pairs {D} (f : D -> string * string -> D) t ss : forall d,
  fold_left (fun d s => f d (t, s)) ss d
  = fold_left f (map (fun s => (t, s)) ss) d.
Proof.
  induction ss as [| s rest IH]; intros d; cbn [fold_left map];
    [reflexivity | apply IH].
Qed.

(** The nested loops store one orchestrator per pair of keys. *)
Lemma orchestrators_by_pair providers' :
  _initialize_orchestrators providers'
  = fold_left
      (fun d (pair : string * string) =>
         dict_store (fst pair +:+ "_" +:+ snd pair)
           {| teacher_key := fst pair; student_key := snd pair |} d)
      (list_prod (teacher_keys providers') (student_keys providers')) [].
Proof.
  unfold _initialize_orchestrators.
  generalize (@nil (string * orchestrator)).
  induction (teacher_keys providers') as [| t rest IH]; intros d;
    cbn [fold_left list_prod]; [reflexivity |].
  rewrite fold_left_app, <- fold_left_pairs. apply IH.
Qed.

Lemma orchestrator_keys providers' k :
  In k (map fst (_initialize_orchestrators providers'))
  <-> exists t s,
        In t (teacher_keys providers') /\ In s (student_keys providers')
        /\ k = t +:+ "_" +:+ s.
Proof.
  rewrite orchestrators_by_pair, stored_keys. split.
  - intros [[] | ([t s] & Hin & ->)]. apply in_prod_iff in Hin as [Ht Hs].
    now exists t, s.
  - intros (t & s & Ht & Hs & ->). right. exists (t, s).
    split; [now apply in_prod_iff | reflexivity].
Qed.

Lemma no_orchestrators providers' :
  _initialize_orchestrators providers' = []
  <-> teacher_keys providers' = [] \/ student_keys providers' = [].
Proof.
  split.
  - intros E.
    destruct (teacher_keys providers') as [| t ts] eqn:Et; [now left |].
    destruct (student_keys providers') as [| s ss] eqn:Es; [now right |].
    exfalso.
    assert (H : In (t +:+ "_" +:+ s)
                  (map fst (_initialize_orchestrators providers'))).
    { apply orchestrator_keys. exists t, s. rewrite Et, Es.
      split; [now left |]. split; [now left | reflexivity]. }
    rewrite E in H. exact H.
  - intros H. rewrite orchestrators_by_pair.
    destruct H as [-> | ->]; [reflexivity |].
    induction (teacher_keys providers') as [| t ts IH]; [reflexivity |].
    cbn [list_prod map app]. exact IH.
Qed.

(** A provider key with its role in front is part of some orchestrator
    key, unless there is no orchestrator. *)
Lemma provider_key_is_used providers' best :
  In best (map fst providers') ->
  startswith "teacher_" best || startswith "student_" best = true ->
  _initialize_orchestrators providers' <> [] ->
  exists key,
    In key (map fst (_initialize_orchestrators providers'))
    /\ str_in best key = true.
Proof.
  intros Hin Hrole Hsome.
  destruct (teacher_keys providers') as [| t ts] eqn:Et;
    [destruct Hsome; apply no_orchestrators; now left |].
  destruct (student_keys providers') as [| s ss] eqn:Es;
    [destruct Hsome; apply no_orchestrators; now right |].
  apply orb_true_iff in Hrole as [Hrole | Hrole].
  - exists (best +:+ "_" +:+ s). split; [| apply str_in_prefix].
    apply orchestrator_keys. exists best, s. rewrite Es.
    split; [| split; [now left | reflexivity]].
    unfold teacher_keys. apply List.filter_In. now split.
  - exists (t +:+ "_" +:+ best).
    split; [| apply str_in_suffix, str_in_suffix, str_in_refl].
    apply orchestrator_keys. exists t, best. rewrite Et.
    split; [now left |]. split; [| reflexivity].
    unfold student_keys. apply List.filter_In. now split.
Qed.

(** The orchestrator chosen involves the cheapest suitable provider.  A
    manager has no orchestrator exactly when it has no teacher key or no
    student key, and every orchestrator is stored under the names of its
    own teacher and student.  [_select_optimal_orchestrator] raises
    [IndexError] exactly when there is no orchestrator.  With cost
    optimization it otherwise returns the first orchestrator key that
    contains the key of the provider that [get_cheapest_provider_for_task]
    names for the estimated complexity: as every provider key starts with
    its role, the fall-back to the first orchestrator is then never
    taken.  Without cost optimization it returns the first orchestrator
    key. *)
Theorem selected_orchestrator_involves_cheapest_provider
    providers' cost_optimization request :
  role_prefixed providers' ->
  let self := init providers' cost_optimization in
  (orchestrators self = []
   <-> teacher_keys providers' = [] \/ student_keys providers' = [])
  /\ Forall (fun entry : string * orchestrator =>
               fst entry
               = teacher_key (snd entry) +:+ "_" +:+ student_key (snd entry)
               /\ In (teacher_key (snd entry)) (teacher_keys providers')
               /\ In (student_key (snd entry)) (student_keys providers'))
       (orchestrators self)
  /\ match _select_optimal_orchestrator request self with
     | Raised e => e = IndexError /\ orchestrators self = []
     | Returned key =>
         In key (map fst (orchestrators self))
         /\ if cost_optimization then
              exists best_provider,
                ProviderCosts.get_cheapest_provider_for_task
                  (_estimate_task_complexity request)
                  (ProviderCosts.init providers')
                = Returned best_provider
                /\ In best_provider (map fst providers')
                /\ List.find (str_in best_provider)
                     (map fst (orchestrators self)) = Some key
                /\ str_in best_provider key = true
            else head (map fst (orchestrators self)) = Some key
     end.
Proof.
  intros Hroles. cbv zeta. unfold init. cbn [orchestrators].
  split; [apply no_orchestrators |]. split.
  { rewrite orchestrators_by_pair. apply stored_Forall; [| constructor].
    intros [t s] Hin. apply in_prod_iff in Hin as [Ht Hs].
    cbn [fst snd teacher_key student_key]. auto. }
  assert (Hfirst : forall optimizer,
            match first_orchestrator
                    {| providers := providers';
                       orchestrators := _initialize_orchestrators providers';
                       cost_optimizer := optimizer |} with
            | Raised e =>
                e = IndexError /\ _initialize_orchestrators providers' = []
            | Returned key =>
                In key (map fst (_initialize_orchestrators providers'))
                /\ head (map fst (_initialize_orchestrators providers'))
                   = Some key
            end).
  { intros optimizer. unfold first_orchestrator. cbn [orchestrators].
    destruct (_initialize_orchestrators providers') as [| [key o] rest].
    - split; reflexivity.
    - split; [now left | reflexivity]. }
  unfold _select_optimal_orchestrator. cbn [cost_optimizer orchestrators].
  destruct cost_optimization; [| apply Hfirst].
  specialize (Hfirst (Some (ProviderCosts.init providers'))).
  pose proof (CheapestFacts.cheapest_provider_registered
                (_estimate_task_complexity request)
                (ProviderCosts.init providers')) as Hbest.
  destruct (ProviderCosts.get_cheapest_provider_for_task
              (_estimate_task_complexity request)
              (ProviderCosts.init providers')) as [best | e].
  - cbn [ProviderCosts.providers ProviderCosts.init] in Hbest.
    destruct (List.find (str_in best)
                (map fst (_initialize_orchestrators providers')))
      as [key |] eqn:Ef.
    + destruct (find_some _ _ Ef) as [Hin Hstr].
      split; [exact Hin |]. exists best. auto.
    + destruct (first_orchestrator _) as [key | e]; [| exact Hfirst].
      exfalso. destruct Hfirst as [Hin _].
      assert (Hrole : startswith "teacher_" best
                      || startswith "student_" best = true).
      { apply in_map_iff in Hbest as ([b p] & <- & Hb).
        exact (proj1 (List.Forall_forall _ _) Hroles _ Hb). }
      destruct (provider_key_is_used providers' best Hbest Hrole)
        as (key' & Hin' & Hstr).
      * intros E. rewrite E in Hin. exact Hin.
      * rewrite (find_none _ _ Ef key' Hin') in Hstr. discriminate.
  - destruct Hbest as [-> Hnil].
    cbn [ProviderCosts.providers ProviderCosts.init] in Hnil.
    split; [reflexivity |]. apply no_orchestrators. left.
    rewrite Hnil. reflexivity.
Qed.

Lemma selected_orchestrator_involves_cheapest_provider_witness :
  match _select_optimal_orchestrator (CoreSpec.sample_request 25)
          (init sample_providers true) with
  | Returned key =>
      In key (map fst (orchestrators (init sample_providers true)))
  | Raised _ => False
  end.
Proof.
  assert (Hroles : role_prefixed sample_providers)
    by (repeat constructor).
  destruct (_select_optimal_orchestrator (CoreSpec.sample_request 25)
              (init sample_providers true)) as [key | e] eqn:E.
  - pose proof (selected_orchestrator_involves_cheapest_provider
                  sample_providers true (CoreSpec.sample_request 25) Hroles)
      as (_ & _ & H).
    cbv zeta in H. rewrite E in H. exact (proj1 H).
  - vm_compute in E. discriminate E.
Defined.

End OrchestratorFacts.
